(** * GoPro file utility: grouping, ordering and merge orchestration

    A shallow embedding of [gopro_utility.py].  Python strings are Rocq
    strings (one character per code point below 256), the [defaultdict]
    returned by [group_gopro_files] is an association list in insertion
    order (the order [dict.items()] iterates in), floats are IEEE 754
    binary64 values, and the effects of the script (files created and
    removed, processes spawned, progress-bar updates, printed messages) are
    threaded through a small state/exception/trace monad. *)

From Stdlib Require Import ZArith QArith Qround Lia List Ascii String.
From Stdlib Require Import Floats.SpecFloat.
From Stdlib Require Import Sorting.Sorted Sorting.Permutation DecimalString.
From Stdlib Require Import Structures.OrderedTypeEx.
From Stdlib Require Import DecimalNat.
From stdpp Require Import gmap strings list.

Local Open Scope string_scope.
Local Open Scope list_scope.

(** ** Python string primitives *)

Module PyStr.

(** [s[i:j]] for constant [0 <= i <= j]; out-of-range bounds are clipped. *)
Definition slice (i j : nat) (s : string) : string :=
  String.substring i (j - i) s.

Definition startswith (p s : string) : bool := String.prefix p s.

Definition endswith (suf s : string) : bool :=
  (String.length suf <=? String.length s)%nat
  && String.eqb
       (String.substring (String.length s - String.length suf)
                         (String.length suf) s)
       suf.

(** [sub in s] *)
Fixpoint contains (sub s : string) : bool :=
  String.prefix sub s
  || match s with
     | EmptyString => false
     | String _ s' => contains sub s'
     end.

Definition snoc (s : string) (c : ascii) : string :=
  String.append s (String c EmptyString).

(** [s.split(sep)] for a non-empty separator: a left-to-right scan for
    non-overlapping occurrences.  [skip] counts the characters of a matched
    separator that are still to be passed over. *)
Fixpoint split_go (sep : string) (skip : nat) (acc s : string) : list string :=
  match s with
  | EmptyString => [acc]
  | String c s' =>
      match skip with
      | S k => split_go sep k acc s'
      | O =>
          if String.prefix sep s
          then acc :: split_go sep (String.length sep - 1) EmptyString s'
          else split_go sep 0 (snoc acc c) s'
      end
  end.

Definition split (sep s : string) : list string := split_go sep 0 EmptyString s.

(** [str.isspace] on the code points below 256. *)
Definition isspace (c : ascii) : bool :=
  let n := nat_of_ascii c in
  ((9 <=? n) && (n <=? 13) || (28 <=? n) && (n <=? 32)
   || (n =? 133) || (n =? 160))%nat.

Definition is_empty (s : string) : bool :=
  match s with EmptyString => true | _ => false end.

(** [s.split()]: split on runs of whitespace, no empty pieces. *)
Fixpoint split_ws_go (acc s : string) : list string :=
  match s with
  | EmptyString => if is_empty acc then [] else [acc]
  | String c s' =>
      if isspace c
      then (if is_empty acc then split_ws_go EmptyString s'
            else acc :: split_ws_go EmptyString s')
      else split_ws_go (snoc acc c) s'
  end.

Definition split_ws (s : string) : list string := split_ws_go EmptyString s.

Fixpoint lstrip (s : string) : string :=
  match s with
  | EmptyString => EmptyString
  | String c s' => if isspace c then lstrip s' else s
  end.

Fixpoint rstrip (s : string) : string :=
  match s with
  | EmptyString => EmptyString
  | String c s' =>
      let r := rstrip s' in
      if isspace c && is_empty r then EmptyString else String c r
  end.

Definition strip (s : string) : string := rstrip (lstrip s).

End PyStr.

(** ** [os.path] on a POSIX system *)

Module OsPath.

Definition sep : string := "/".

(** [os.path.join(a, b)] *)
Definition join (a b : string) : string :=
  if PyStr.startswith sep b then b
  else if PyStr.is_empty a || PyStr.endswith sep a then String.append a b
  else String.append a (String.append sep b).

(** What [join] puts in front of a relative name. *)
Definition dir_prefix (a : string) : string :=
  if PyStr.is_empty a || PyStr.endswith sep a then a
  else String.append a sep.

(** [os.path.basename(p)]: what follows the last separator. *)
Definition basename (p : string) : string :=
  List.last (PyStr.split sep p) EmptyString.

End OsPath.

(** ** The grouping step *)

Module Grouper.

(** The filter of the directory listing:
    [f.endswith('.MP4') and f.startswith('GH')]. *)
Definition is_gopro (f : string) : bool :=
  PyStr.endswith ".MP4" f && PyStr.startswith "GH" f.

(** [defaultdict(list)], in insertion order of its keys. *)
Definition groups : Type := list (string * list string).

(** [d[k].append(v)] *)
Fixpoint dd_append (k v : string) (d : groups) : groups :=
  match d with
  | [] => [(k, [v])]
  | (k', vs) :: d' =>
      if String.eqb k k' then (k', vs ++ [v]) :: d'
      else (k', vs) :: dd_append k v d'
  end.

(** [d.get(k)] *)
Fixpoint dd_get (k : string) (d : groups) : option (list string) :=
  match d with
  | [] => None
  | (k', vs) :: d' => if String.eqb k k' then Some vs else dd_get k d'
  end.

(** [filename[4:8]] *)
Definition video_number_of (filename : string) : string :=
  PyStr.slice 4 8 filename.

(** The sort key [lambda x: x.split(os.path.sep)[-1][2:4]]. *)
Definition part_key (x : string) : string :=
  PyStr.slice 2 4 (List.last (PyStr.split OsPath.sep x) EmptyString).

(** [list.sort(key=...)] is a stable sort under the text order of the keys;
    the stable sorted arrangement of a list is unique, and insertion from
    the right computes it. *)
Fixpoint insert_by (key : string -> string) (x : string) (l : list string)
  : list string :=
  match l with
  | [] => [x]
  | y :: l' =>
      if String.leb (key x) (key y) then x :: l
      else y :: insert_by key x l'
  end.

Fixpoint sort_by (key : string -> string) (l : list string) : list string :=
  match l with
  | [] => []
  | x :: l' => insert_by key x (sort_by key l')
  end.

(** [group_gopro_files], as a function of what [os.listdir] returned. *)
Definition group_gopro_files (input_directory : string) (listing : list string)
  : groups :=
  let files := List.filter is_gopro listing in
  let video_groups :=
    fold_left
      (fun d filename =>
         dd_append (video_number_of filename)
                   (OsPath.join input_directory filename) d)
      files [] in
  List.map (fun g => (fst g, sort_by part_key (snd g))) video_groups.

(** A name as [os.listdir] returns it: one path component, no separator. *)
Definition plain_name (f : string) : bool :=
  negb (PyStr.contains OsPath.sep f).

(** The parts the scan files under identifier [k], in listing order. *)
Definition members (input_directory k : string) (listing : list string)
  : list string :=
  List.map (OsPath.join input_directory)
    (List.filter (fun f => String.eqb (video_number_of f) k)
                 (List.filter is_gopro listing)).

(** The order on part keys: text comparison. *)
Definition key_le (a b : string) : Prop :=
  String.leb (part_key a) (part_key b) = true.

(** The shape the specification gives for scanned names, [GH????*.MP4],
    read as a shell pattern: [?] is any one character, [*] any run. *)
Fixpoint star (k : list ascii -> bool) (s : list ascii) : bool :=
  k s || match s with [] => false | _ :: s' => star k s' end.

Fixpoint glob (p : list ascii) (s : list ascii) {struct p} : bool :=
  match p with
  | [] => match s with [] => true | _ => false end
  | c :: p' =>
      if Ascii.eqb c "*"%char then star (glob p') s
      else
        match s with
        | [] => false
        | d :: s' =>
            (Ascii.eqb c "?"%char || Ascii.eqb c d) && glob p' s'
        end
  end.

Definition spec_pattern : string := "GH????*.MP4".

Definition matches_spec_pattern (f : string) : bool :=
  glob (list_ascii_of_string spec_pattern) (list_ascii_of_string f).

End Grouper.

(** ** Python numbers

    A Python [float] is an IEEE 754 binary64 value; the operations are the
    ones of the standard's specification, rounding to nearest, ties to
    even.  An [int] is an integer of any size. *)

Module PyNum.

Definition prec : Z := 53.
Definition emax : Z := 1024.

Abbreviation float := spec_float.

Definition zero : float := S754_zero false.

Definition fadd (x y : float) : float := SFadd prec emax x y.
Definition fmul (x y : float) : float := SFmul prec emax x y.
Definition fdiv (x y : float) : float := SFdiv prec emax x y.

(** [float(z)] for an int [z]: the nearest float, or an infinity when [z]
    is too large for one (where Python raises [OverflowError]). *)
Definition of_Z (z : Z) : float := binary_normalize prec emax z 0 false.

Definition is_finite (x : float) : bool :=
  match x with
  | S754_zero _ | S754_finite _ _ _ => true
  | _ => false
  end.

(** The integer part of a finite float, toward zero: what [int(x)] returns. *)
Definition trunc (x : float) : option Z :=
  match x with
  | S754_zero _ => Some 0%Z
  | S754_finite s m e =>
      let magnitude :=
        match e with
        | Zneg k => Z.shiftr (Zpos m) (Zpos k)
        | _ => Z.shiftl (Zpos m) e
        end in
      Some (if s then (- magnitude)%Z else magnitude)
  | _ => None
  end.

(** The largest integer not above a finite float: [math.floor(x)]. *)
Definition floor (x : float) : option Z :=
  match x with
  | S754_zero _ => Some 0%Z
  | S754_finite s m e =>
      let signed := if s then Zneg m else Zpos m in
      Some match e with
           | Zneg k => Z.shiftr signed (Zpos k)
           | _ => Z.shiftl signed e
           end
  | _ => None
  end.

(** A number the script handles: an [int] or a [float]. *)
Inductive number : Type :=
| PInt (z : Z)
| PFloat (f : float).

(** [x == 0] *)
Definition is_zero (x : number) : bool :=
  match x with
  | PInt z => (z =? 0)%Z
  | PFloat f => SFeqb f zero
  end.

(** Truthiness of a number: [bool(x)] is [x != 0]. *)
Definition truthy (x : number) : bool := negb (is_zero x).

(** [x > 0] *)
Definition positive (x : number) : bool :=
  match x with
  | PInt z => (0 <? z)%Z
  | PFloat f => SFltb zero f
  end.

Definition is_int (x : number) : bool :=
  match x with PInt _ => true | PFloat _ => false end.

(** The exact sum of the ints of a list. *)
Definition int_sum (xs : list number) : Z :=
  fold_left (fun acc x => match x with PInt z => (acc + z)%Z | PFloat _ => acc end)
            xs 0%Z.

(** The float an int is converted to where an operation mixes the two. *)
Definition to_float (x : number) : float :=
  match x with PInt z => of_Z z | PFloat f => f end.

Fixpoint sum_from (acc : float) (xs : list number) : float :=
  match xs with
  | [] => acc
  | x :: xs' => sum_from (fadd acc (to_float x)) xs'
  end.

(** [sum] by addition from left to right, each step rounded: exact on the
    ints up to the first float. *)
Fixpoint sum_left_go (acc : Z) (xs : list number) : number :=
  match xs with
  | [] => PInt acc
  | PInt z :: xs' => sum_left_go (acc + z)%Z xs'
  | PFloat f :: xs' => PFloat (sum_from (fadd (of_Z acc) f) xs')
  end.

Definition sum_left (xs : list number) : float :=
  to_float (sum_left_go 0 xs).

(** The rational number a finite float stands for, in lowest terms. *)
Definition exact_value (x : float) : option Q :=
  match x with
  | S754_zero _ => Some 0%Q
  | S754_finite s m e =>
      let signed := if s then Zneg m else Zpos m in
      Some match e with
           | Zneg k => Qred (Qmake signed (2 ^ k))
           | _ => inject_Z (signed * 2 ^ e)
           end
  | _ => None
  end.

(** [str(n)] for a natural number. *)
Definition str_of_nat (n : nat) : string :=
  DecimalString.NilEmpty.string_of_uint (Nat.to_uint n).

Definition is_digit (c : ascii) : bool :=
  let n := nat_of_ascii c in ((48 <=? n) && (n <=? 57))%nat.

Fixpoint digits_go (acc : Z) (s : string) : option Z :=
  match s with
  | EmptyString => Some acc
  | String c s' =>
      if is_digit c
      then digits_go (10 * acc + (Z.of_nat (nat_of_ascii c) - 48))%Z s'
      else None
  end.

(** An unsigned plain decimal literal as [(n, k)], standing for
    [n / 10^k]: digits and an optional fraction. *)
Definition scaled (s : string) : option (Z * nat) :=
  match PyStr.split "." s with
  | [a] =>
      if PyStr.is_empty a then None
      else match digits_go 0 a with
           | Some n => Some (n, 0%nat)
           | None => None
           end
  | [a; b] =>
      if PyStr.is_empty a && PyStr.is_empty b then None
      else match digits_go 0 a, digits_go 0 b with
           | Some n, Some m =>
               Some ((n * 10 ^ Z.of_nat (String.length b) + m)%Z,
                     String.length b)
           | _, _ => None
           end
  | _ => None
  end.

(** The float nearest to [n / 10^k]: one correctly rounded division of two
    floats that hold [n] and [10^k] exactly, which needs [n < 2^53] and
    [k <= 22]. *)
Definition decimal (n : Z) (k : nat) : option float :=
  if (n <? 2 ^ 53)%Z && (k <=? 22)%nat
  then Some (fdiv (of_Z n) (of_Z (10 ^ Z.of_nat k)))
  else None.

(** A reader for the short plain decimal literals among those [float()]
    accepts: an optional sign, digits, and an optional fraction.
    (Exponents, underscores, [inf], [nan] and literals too long for
    [decimal] are left out.) *)
Definition parse_unsigned (s : string) : option float :=
  match scaled s with
  | Some (n, k) => decimal n k
  | None => None
  end.

Definition parse_decimal (s : string) : option float :=
  match s with
  | String "-"%char s' =>
      match parse_unsigned s' with
      | Some x => Some (SFopp x)
      | None => None
      end
  | String "+"%char s' => parse_unsigned s'
  | _ => parse_unsigned s
  end.

(** The rational number an unsigned plain decimal literal denotes. *)
Definition literal_value (s : string) : option Q :=
  match scaled s with
  | Some (n, k) => Some (Qmake n (Z.to_pos (10 ^ Z.of_nat k)))
  | None => None
  end.

End PyNum.

(** ** Effects: exceptions, the file system, and the trace of actions *)

Module Eff.

Inductive exn : Type :=
| ValueError
| IndexError
| ZeroDivisionError
| OverflowError
| UnicodeDecodeError
| OSError
| FileNotFoundError
| CalledProcessError (returncode : Z).

(** [isinstance(e, OSError)] *)
Definition is_OSError (e : exn) : bool :=
  match e with
  | OSError | FileNotFoundError => true
  | _ => false
  end.

(** The lines the script prints. *)
Inductive message : Type :=
| MsgMerged (output_path : string)
| MsgMergeReturned (returncode : Z)
| MsgMergeError (e : exn)
| MsgProcessing
| MsgMergingParts (video_number : string)
| MsgCopiedSingle (source_name video_number : string)
| MsgCopiedRenamed (old_filename new_filename : string)
| MsgErrorProcessing (old_filename : string) (e : exn).

(** What the script does to the outside world, in order. *)
Inductive event : Type :=
| EvMakedirs (path : string)
| EvListdir (path : string)
| EvCheckOutput (cmd : list string)
| EvWriteFile (path : string) (lines : list string)
| EvPopen (cmd : list string)
| EvReadline (line : string)
| EvPbarOpen (desc : string)
| EvPbarUpdate (n : Z)
| EvPbarClose
| EvWait
| EvRemove (path : string)
| EvCopy2 (src dst : string)
| EvPrint (m : message).

(** An external process, as the script sees it. *)
Inductive proc : Type :=
| NotFound
| Exited (returncode : Z) (stdout : string) (stderr : list string).

(** The environment's answers.  Each operation answers as a function of its
    arguments; the set of existing files is threaded separately.  A failing
    file operation raises [OSError].  [decode], [float_of_string],
    [sum_floats] and [abspath] are the interpreter's [bytes.decode],
    [float], [sum] on a list that holds a float (addition from left to
    right up to CPython 3.11, with a compensation term from 3.12 on) and
    [os.path.abspath]. *)
Record Env : Type := {
  listdir : string -> option (list string);
  makedirs_fails : string -> bool;
  open_fails : string -> bool;
  remove_fails : string -> bool;
  copy2_fails : string -> string -> bool;
  run : list string -> proc;
  decode : string -> option string;
  float_of_string : string -> option PyNum.float;
  sum_floats : list PyNum.number -> PyNum.float;
  abspath : string -> string
}.

(** The paths the script itself has made and not removed, on top of those
    there were; what the external processes write is not tracked. *)
Abbreviation fs := (gset string).

Definition M (A : Type) : Type := fs -> fs * list event * (exn + A).

Definition ret {A} (a : A) : M A := fun s => (s, [], inr a).

Definition raise {A} (e : exn) : M A := fun s => (s, [], inl e).

Definition bind {A B} (m : M A) (k : A -> M B) : M B :=
  fun s =>
    match m s with
    | (s1, t1, inl e) => (s1, t1, inl e)
    | (s1, t1, inr a) =>
        match k a s1 with
        | (s2, t2, r) => (s2, t1 ++ t2, r)
        end
    end.

Definition emit (e : event) : M unit := fun s => (s, [e], inr tt).

Definition modify (f : fs -> fs) : M unit := fun s => (f s, [], inr tt).

Definition exists_file (p : string) : M bool :=
  fun s => (s, [], inr (bool_decide (p ∈ s))).

(** [try: m except <class>: h], where [handles] is the class test. *)
Definition try_except {A} (m : M A) (handles : exn -> bool) (h : exn -> M A)
  : M A :=
  fun s =>
    match m s with
    | (s1, t1, inl e) =>
        if handles e then
          match h e s1 with
          | (s2, t2, r) => (s2, t1 ++ t2, r)
          end
        else (s1, t1, inl e)
    | r => r
    end.

Definition any_exception (_ : exn) : bool := true.

(** [t] happened, then [r]. *)
Definition prepend {A} (t : list event) (r : fs * list event * (exn + A))
  : fs * list event * (exn + A) :=
  (fst (fst r), t ++ snd (fst r), snd r).

Definition is_update (e : event) : bool :=
  match e with EvPbarUpdate _ => true | _ => false end.

(** The events of the progress block. *)
Definition is_progress_event (e : event) : bool :=
  match e with
  | EvPbarOpen _ | EvPbarUpdate _ | EvPbarClose | EvReadline _ => true
  | _ => false
  end.

Definition final_fs {A} (r : fs * list event * (exn + A)) : fs := fst (fst r).
Definition trace {A} (r : fs * list event * (exn + A)) : list event :=
  snd (fst r).
Definition outcome {A} (r : fs * list event * (exn + A)) : exn + A := snd r.

End Eff.

Declare Scope py_scope.
Delimit Scope py_scope with py.
Notation "x <- m ;; k" := (Eff.bind m (fun x => k))
  (at level 100, m at next level, k at level 200, only parsing) : py_scope.
Notation "m ;; k" := (Eff.bind m (fun _ => k))
  (at level 100, k at level 200, only parsing) : py_scope.

(** ** The script *)

Module Gopro.
Import Eff.

Section WithEnv.

Variable E : Env.

Local Open Scope py_scope.

Definition print (m : message) : M unit := emit (EvPrint m).

(** [os.makedirs(path, exist_ok=True)] *)
Definition os_makedirs (path : string) : M unit :=
  emit (EvMakedirs path) ;;
  if makedirs_fails E path then raise OSError
  else modify (fun s => {[path]} ∪ s).

Definition create_output_directory (base_dir folder_name : string) : M string :=
  let output_dir := OsPath.join base_dir folder_name in
  os_makedirs output_dir ;;
  ret output_dir.

Definition os_listdir (path : string) : M (list string) :=
  emit (EvListdir path) ;;
  match listdir E path with
  | None => raise OSError
  | Some names => ret names
  end.

Definition group_gopro_files (input_directory : string) : M Grouper.groups :=
  listing <- os_listdir input_directory ;;
  ret (Grouper.group_gopro_files input_directory listing).

(** [subprocess.check_output(cmd)]: a missing binary and a non-zero exit
    status both raise. *)
Definition check_output (cmd : list string) : M string :=
  emit (EvCheckOutput cmd) ;;
  match run E cmd with
  | NotFound => raise FileNotFoundError
  | Exited rc out _ =>
      if (rc =? 0)%Z then ret out else raise (CalledProcessError rc)
  end.

Definition bytes_decode (b : string) : M string :=
  match decode E b with
  | Some s => ret s
  | None => raise UnicodeDecodeError
  end.

(** [float(s)] *)
Definition float (s : string) : M PyNum.float :=
  match float_of_string E s with
  | Some x => ret x
  | None => raise ValueError
  end.

Definition ffprobe_cmd (filepath : string) : list string :=
  ["ffprobe"; "-v"; "error"; "-show_entries"; "format=duration";
   "-of"; "default=noprint_wrappers=1:nokey=1"; filepath].

(** The [try] returns a float, the handler the int [0]. *)
Definition get_video_duration (filepath : string) : M PyNum.number :=
  try_except
    (raw <- check_output (ffprobe_cmd filepath) ;;
     decoded <- bytes_decode raw ;;
     let output := PyStr.strip decoded in
     x <- float output ;;
     ret (PyNum.PFloat x))
    any_exception
    (fun _ => ret (PyNum.PInt 0)).

Definition concat_line (video_path : string) : string :=
  String.append "file '"
    (String.append (abspath E video_path) (String "'" (String "010" EmptyString))).

Definition create_concat_file (video_paths : list string)
    (concat_file_path : string) : M unit :=
  if open_fails E concat_file_path then raise OSError
  else
    modify (fun s => {[concat_file_path]} ∪ s) ;;
    emit (EvWriteFile concat_file_path (List.map concat_line video_paths)).

(** [subprocess.Popen(cmd, ...)]: the handle gives the diagnostic lines and
    the exit status.  What the process writes (the merged video) is its
    own doing and is not recorded in the file set. *)
Definition popen (cmd : list string) : M (list string * Z) :=
  emit (EvPopen cmd) ;;
  match run E cmd with
  | NotFound => raise FileNotFoundError
  | Exited rc _ err => ret (err, rc)
  end.

Definition os_remove (path : string) : M unit :=
  emit (EvRemove path) ;;
  present <- exists_file path ;;
  if present then
    if remove_fails E path then raise OSError
    else modify (fun s => s ∖ {[path]})
  else raise FileNotFoundError.

Definition shutil_copy2 (src dst : string) : M unit :=
  emit (EvCopy2 src dst) ;;
  if copy2_fails E src dst then raise OSError
  else modify (fun s => {[dst]} ∪ s).

(** [l[i]] *)
Definition py_index {A} (l : list A) (i : nat) : M A :=
  match nth_error l i with
  | Some a => ret a
  | None => raise IndexError
  end.

(** [a, b, c = map(float, parts)]: a wrong count and a bad number both
    raise [ValueError]. *)
Definition unpack3_floats (parts : list string)
  : M (PyNum.float * PyNum.float * PyNum.float) :=
  match parts with
  | [a; b; c] =>
      hours <- float a ;;
      minutes <- float b ;;
      seconds <- float c ;;
      ret (hours, minutes, seconds)
  | _ => raise ValueError
  end.

(** [hours * 3600 + minutes * 60 + seconds] on floats: two products and
    two sums, each rounded. *)
Definition elapsed_seconds (hours minutes seconds : PyNum.float)
  : PyNum.float :=
  PyNum.fadd
    (PyNum.fadd (PyNum.fmul hours (PyNum.of_Z 3600))
                (PyNum.fmul minutes (PyNum.of_Z 60)))
    seconds.

(** [a / b] for a float [a]: the quotient, or what the division raises.
    An int divisor is converted to a float first, which raises when it is
    too large for one; a zero divisor raises. *)
Definition div_result (a : PyNum.float) (b : PyNum.number)
  : exn + PyNum.float :=
  match b with
  | PyNum.PFloat f =>
      if SFeqb f PyNum.zero then inl ZeroDivisionError
      else inr (PyNum.fdiv a f)
  | PyNum.PInt z =>
      if PyNum.is_finite (PyNum.of_Z z) then
        if (z =? 0)%Z then inl ZeroDivisionError
        else inr (PyNum.fdiv a (PyNum.of_Z z))
      else inl OverflowError
  end.

(** [int(x)] for a float [x]: the integer part, or what the call raises. *)
Definition int_result (x : PyNum.float) : exn + Z :=
  match PyNum.trunc x with
  | Some z => inr z
  | None =>
      match x with
      | S754_nan => inl ValueError
      | _ => inl OverflowError
      end
  end.

Definition lift {A} (r : exn + A) : M A :=
  match r with
  | inl e => raise e
  | inr a => ret a
  end.

Definition py_div (a : PyNum.float) (b : PyNum.number) : M PyNum.float :=
  lift (div_result a b).

Definition py_int (x : PyNum.float) : M Z := lift (int_result x).

(** [sum(...)] of the probed durations, from the int [0]. *)
Definition py_sum (xs : list PyNum.number) : PyNum.number :=
  if forallb PyNum.is_int xs then PyNum.PInt (PyNum.int_sum xs)
  else PyNum.PFloat (sum_floats E xs).

(** The [while True] loop over [process.stderr.readline()]. *)
Fixpoint progress_loop (total_duration : PyNum.number) (stderr : list string)
    (last_progress : Z) : M unit :=
  match stderr with
  | [] => emit (EvReadline EmptyString)
  | line :: rest =>
      emit (EvReadline line) ;;
      if PyStr.is_empty line then ret tt
      else if PyStr.contains "time=" line then
        after <- py_index (PyStr.split "time=" line) 1 ;;
        time_str <- py_index (PyStr.split_ws after) 0 ;;
        hms <- unpack3_floats (PyStr.split ":" time_str) ;;
        let '(hours, minutes, seconds) := hms in
        let current_duration := elapsed_seconds hours minutes seconds in
        ratio <- py_div current_duration total_duration ;;
        percent <- py_int (PyNum.fmul ratio (PyNum.of_Z 100)) ;;
        let progress := Z.min 100 percent in
        if (last_progress <? progress)%Z then
          emit (EvPbarUpdate (progress - last_progress)) ;;
          progress_loop total_duration rest progress
        else progress_loop total_duration rest last_progress
      else progress_loop total_duration rest last_progress
  end.

Definition ffmpeg_cmd (concat_file output_path : string) : list string :=
  ["ffmpeg"; "-f"; "concat"; "-safe"; "0"; "-i"; concat_file;
   "-c"; "copy"; "-movflags"; "+faststart"; "-y"; output_path].

(** [if total_duration:] with [None] for the default argument. *)
Definition duration_truthy (total_duration : option PyNum.number) : bool :=
  match total_duration with
  | Some t => PyNum.truthy t
  | None => false
  end.

(** The [if total_duration:] block. *)
Definition show_progress (output_path : string)
    (total_duration : option PyNum.number)
    (stderr : list string) : M unit :=
  match total_duration with
  | Some t =>
      if PyNum.truthy t then
        emit (EvPbarOpen
                (String.append "Merging " (OsPath.basename output_path))) ;;
        progress_loop t stderr 0 ;;
        emit EvPbarClose
      else ret tt
  | None => ret tt
  end.

(** What follows the progress block: wait, clean up, report. *)
Definition finish_merge (concat_file output_path : string) (returncode : Z)
  : M unit :=
  emit EvWait ;;
  os_remove concat_file ;;
  if (returncode =? 0)%Z then print (MsgMerged output_path)
  else print (MsgMergeReturned returncode).

(** The body of the [try] of [merge_videos_fast]. *)
Definition merge_try_block (video_paths : list string) (output_path : string)
    (total_duration : option PyNum.number) : M unit :=
  let concat_file := String.append output_path ".txt" in
  create_concat_file video_paths concat_file ;;
  let cmd := ffmpeg_cmd concat_file output_path in
  process <- popen cmd ;;
  show_progress output_path total_duration (fst process) ;;
  finish_merge concat_file output_path (snd process).

Definition merge_videos_fast (video_paths : list string) (output_path : string)
    (total_duration : option PyNum.number) : M unit :=
  try_except
    (merge_try_block video_paths output_path total_duration)
    any_exception
    (fun e => print (MsgMergeError e)).

Fixpoint for_each {A} (l : list A) (body : A -> M unit) : M unit :=
  match l with
  | [] => ret tt
  | a :: l' => body a ;; for_each l' body
  end.

Fixpoint map_m {A B} (f : A -> M B) (l : list A) : M (list B) :=
  match l with
  | [] => ret []
  | a :: l' => b <- f a ;; bs <- map_m f l' ;; ret (b :: bs)
  end.

(** [enumerate(l, start)] *)
Fixpoint enumerate {A} (start : nat) (l : list A) : list (nat * A) :=
  match l with
  | [] => []
  | a :: l' => (start, a) :: enumerate (S start) l'
  end.

Definition mp4_name (stem : string) : string := String.append stem ".MP4".

(** The body of the merge-mode loop, for one entry of the grouping. *)
Definition merge_one_group (output_directory : string)
    (g : string * list string) : M unit :=
  let '(video_number, file_paths) := g in
  if (1 <? List.length file_paths)%nat then
    let output_path := OsPath.join output_directory (mp4_name video_number) in
    durations <- map_m get_video_duration file_paths ;;
    let total_duration := py_sum durations in
    print (MsgMergingParts video_number) ;;
    merge_videos_fast file_paths output_path (Some total_duration)
  else
    let output_path := OsPath.join output_directory (mp4_name video_number) in
    first <- py_index file_paths 0 ;;
    shutil_copy2 first output_path ;;
    print (MsgCopiedSingle (OsPath.basename first) video_number).

(** The body of the inner rename-mode loop, for one part. *)
Definition rename_one_part (output_directory video_number : string)
    (p : nat * string) : M unit :=
  let '(part_number, old_path) := p in
  let old_filename := OsPath.basename old_path in
  let new_filename :=
    mp4_name (String.append video_number
                (String.append "_" (PyNum.str_of_nat part_number))) in
  let new_path := OsPath.join output_directory new_filename in
  try_except
    (shutil_copy2 old_path new_path ;;
     print (MsgCopiedRenamed old_filename new_filename))
    is_OSError
    (fun e => print (MsgErrorProcessing old_filename e)).

Definition rename_one_group (output_directory : string)
    (g : string * list string) : M unit :=
  let '(video_number, group_files) := g in
  for_each (enumerate 1 group_files)
           (rename_one_part output_directory video_number).

Definition process_groups (output_directory : string)
    (video_groups : Grouper.groups) (merge_videos : bool) : M unit :=
  if merge_videos then
    print MsgProcessing ;;
    for_each video_groups (merge_one_group output_directory)
  else
    for_each video_groups (rename_one_group output_directory).

Definition process_gopro_videos (input_directory : string)
    (merge_videos : bool) : M unit :=
  output_directory <-
    create_output_directory input_directory "processed_videos" ;;
  video_groups <- group_gopro_files input_directory ;;
  process_groups output_directory video_groups merge_videos.

(** What one diagnostic line contributes, read off the loop body:
    an exception, no marker ([None]), or the computed percentage. *)
Definition line_progress (total_duration : PyNum.number) (line : string)
  : exn + option Z :=
  if PyStr.contains "time=" line then
    match nth_error (PyStr.split "time=" line) 1 with
    | None => inl IndexError
    | Some after =>
        match nth_error (PyStr.split_ws after) 0 with
        | None => inl IndexError
        | Some time_str =>
            match PyStr.split ":" time_str with
            | [a; b; c] =>
                match float_of_string E a, float_of_string E b,
                      float_of_string E c with
                | Some hours, Some minutes, Some seconds =>
                    match div_result (elapsed_seconds hours minutes seconds)
                                     total_duration with
                    | inl e => inl e
                    | inr ratio =>
                        match int_result
                                (PyNum.fmul ratio (PyNum.of_Z 100)) with
                        | inl e => inl e
                        | inr percent => inr (Some (Z.min 100 percent))
                        end
                    end
                | _, _, _ => inl ValueError
                end
            | _ => inl ValueError
            end
        end
    end
  else inr None.

End WithEnv.

(** The value the progress bar shows after each update: [tqdm] starts at
    [0] and [update(d)] adds [d]. *)
Fixpoint pbar_positions (n : Z) (t : list event) : list Z :=
  match t with
  | [] => []
  | EvPbarOpen _ :: t' => pbar_positions 0 t'
  | EvPbarUpdate d :: t' => (n + d)%Z :: pbar_positions (n + d)%Z t'
  | _ :: t' => pbar_positions n t'
  end.

(** The three fields of the [time=] marker of a diagnostic line, when it has
    one of that shape. *)
Definition time_marker (line : string) : option (string * string * string) :=
  if PyStr.contains "time=" line then
    match nth_error (PyStr.split "time=" line) 1 with
    | Some after =>
        match nth_error (PyStr.split_ws after) 0 with
        | Some time_str =>
            match PyStr.split ":" time_str with
            | [a; b; c] => Some (a, b, c)
            | _ => None
            end
        | None => None
        end
    | None => None
    end
  else None.

End Gopro.

(** ** Concrete environments *)

Module Scenario.
Import Eff.

Definition nl : string := String "010" EmptyString.

(** Nothing fails on the file system unless [copy_fail] says so; [runf]
    plays the external binaries. *)
Definition env_of (names : list string) (runf : list string -> proc)
    (copy_fail : string -> string -> bool) : Env :=
  {| listdir := fun _ => Some names;
     makedirs_fails := fun _ => false;
     open_fails := fun _ => false;
     remove_fails := fun _ => false;
     copy2_fails := copy_fail;
     run := runf;
     decode := Some;
     float_of_string := PyNum.parse_decimal;
     sum_floats := PyNum.sum_left;
     abspath := fun p => String.append "/videos/" p |}.

Definition never_fails (_ _ : string) : bool := false.

(** A duration of [n] seconds, as a float. *)
Definition seconds (n : Z) : PyNum.number := PyNum.PFloat (PyNum.of_Z n).

Definition head_is (name : string) (cmd : list string) : bool :=
  match cmd with
  | c :: _ => String.eqb c name
  | [] => false
  end.

(** [ffprobe] prints [probe_out]; [ffmpeg] prints [stderr] and exits [rc]. *)
Definition binaries (probe_out : string) (stderr : list string) (rc : Z)
    (cmd : list string) : proc :=
  if head_is "ffprobe" cmd then Exited 0 probe_out []
  else Exited rc EmptyString stderr.

Definition no_binaries (_ : list string) : proc := NotFound.

Definition steady_lines : list string :=
  [String.append "frame=1 time=00:00:01.00 bitrate=1" nl;
   String.append "frame=2 time=00:00:05.50 bitrate=1" nl;
   String.append "Press [q] to stop" nl;
   String.append "frame=3 time=00:00:05.00 bitrate=1" nl;
   String.append "frame=4 time=00:01:10.00 bitrate=1" nl].

Definition na_lines : list string :=
  [String.append "frame=0 fps=0.0 size=0kB time=N/A bitrate=N/A" nl;
   String.append "frame=9 fps=0.0 size=9kB time=00:00:05.00 bitrate=1" nl].

(** One report, at 29 seconds. *)
Definition rounding_line : string :=
  String.append "frame=1 time=00:00:29.00 bitrate=1" nl.

Definition rounding_env : Env :=
  env_of ["GH010001.MP4"; "GH020001.MP4"]
         (binaries (String.append "50.0" nl) [rounding_line] 0) never_fails.

Definition steady_env : Env :=
  env_of ["GH010001.MP4"; "GH020001.MP4"; "GH010002.MP4"]
         (binaries (String.append "5.0" nl) steady_lines 0) never_fails.

Definition na_env : Env :=
  env_of ["GH010001.MP4"; "GH020001.MP4"]
         (binaries (String.append "5.0" nl) na_lines 0) never_fails.

Definition no_ffmpeg_env : Env :=
  env_of ["GH010001.MP4"; "GH020001.MP4"] no_binaries never_fails.

(** [ffprobe] is missing; [ffmpeg] prints [stderr] and exits [rc]. *)
Definition ffmpeg_only (stderr : list string) (rc : Z) (cmd : list string)
  : proc :=
  if head_is "ffprobe" cmd then NotFound else Exited rc EmptyString stderr.

Definition no_ffprobe_env : Env :=
  env_of ["GH010001.MP4"; "GH020001.MP4"] (ffmpeg_only steady_lines 0)
         never_fails.


(** No file can be opened for writing. *)
Definition read_only_env : Env :=
  {| listdir := fun _ => Some ["GH010001.MP4"; "GH020001.MP4"];
     makedirs_fails := fun _ => false;
     open_fails := fun _ => true;
     remove_fails := fun _ => false;
     copy2_fails := never_fails;
     run := binaries (String.append "5.0" nl) steady_lines 0;
     decode := Some;
     float_of_string := PyNum.parse_decimal;
     sum_floats := PyNum.sum_left;
     abspath := fun p => String.append "/videos/" p |}.

(** Two single-part recordings; copying the first one fails. *)
Definition copy_fail_env : Env :=
  env_of ["GH010001.MP4"; "GH010002.MP4"] no_binaries
         (fun src _ => String.eqb src "./GH010001.MP4").

End Scenario.

(** ** Reading a trace *)

Module Observe.
Import Eff.

(** The copies attempted, as (source, destination), in order. *)
Fixpoint copies (t : list event) : list (string * string) :=
  match t with
  | [] => []
  | EvCopy2 src dst :: t' => (src, dst) :: copies t'
  | _ :: t' => copies t'
  end.

(** The amounts passed to [pbar.update], in order. *)
Fixpoint update_amounts (t : list event) : list Z :=
  match t with
  | [] => []
  | EvPbarUpdate n :: t' => n :: update_amounts t'
  | _ :: t' => update_amounts t'
  end.

(** Where the bar stands at the end of a trace that started at [n]. *)
Fixpoint pbar_final (n : Z) (t : list event) : Z :=
  match t with
  | [] => n
  | EvPbarOpen _ :: t' => pbar_final 0 t'
  | EvPbarUpdate d :: t' => pbar_final (n + d)%Z t'
  | _ :: t' => pbar_final n t'
  end.

(** The keys of a list in order of first appearance: the key order of a
    dict filled by going through the list. *)
Definition first_seen (l : list string) : list string :=
  fold_left
    (fun acc k => if List.existsb (String.eqb k) acc then acc else acc ++ [k])
    l [].

(** The percentage in exact arithmetic:
    [min(100, floor(elapsed / total * 100))] with
    [elapsed = hours*3600 + minutes*60 + seconds]. *)
Definition exact_percent (hours minutes seconds total : Q) : Z :=
  Z.min 100
    (Qfloor ((hours * 3600 + minutes * 60 + seconds) / total * 100)%Q).

(** The characters of a field of an [HH:MM:SS.ff] time stamp. *)
Definition is_time_char (c : ascii) : bool :=
  PyNum.is_digit c || Ascii.eqb c "."%char.

Fixpoint time_field (s : string) : bool :=
  match s with
  | EmptyString => true
  | String c s' => is_time_char c && time_field s'
  end.

(** A diagnostic line the loop body gets through without an exception. *)
Definition readable (E : Env) (total_duration : PyNum.number) (line : string)
  : bool :=
  match Gopro.line_progress E total_duration line with
  | inl _ => false
  | inr _ => true
  end.

(** The probe of [filepath] fails: the binary is missing, it exits with a
    non-zero status, or what it prints cannot be decoded or read as a
    number. *)
Definition probe_fails (E : Env) (filepath : string) : bool :=
  match run E (Gopro.ffprobe_cmd filepath) with
  | NotFound => true
  | Exited rc out _ =>
      negb (rc =? 0)%Z
      || match decode E out with
         | None => true
         | Some decoded =>
             match float_of_string E (PyStr.strip decoded) with
             | None => true
             | Some _ => false
             end
         end
  end.

(** The camera's names: [GH], a part number of two digits, the
    identifier, [.MP4]. *)
Definition digit_char (n : nat) : ascii := ascii_of_nat (48 + n).

Definition two_digits (n : nat) : string :=
  String (digit_char (n / 10)) (String (digit_char (n mod 10)) EmptyString).

Definition camera_name (part : nat) (identifier : string) : string :=
  String.append "GH"
    (String.append (two_digits part) (String.append identifier ".MP4")).

(** The name rename mode gives to part [part_number] of a recording. *)
Definition part_filename (video_number : string) (part_number : nat) : string :=
  Gopro.mp4_name
    (String.append video_number
       (String.append "_" (PyNum.str_of_nat part_number))).

(** Every copy rename mode is to attempt for one group, and for a grouping. *)
Definition group_copies (output_directory : string) (g : string * list string)
  : list (string * string) :=
  List.map
    (fun p => (snd p,
               OsPath.join output_directory (part_filename (fst g) (fst p))))
    (Gopro.enumerate 1 (snd g)).

Definition all_copies (output_directory : string) (video_groups : Grouper.groups)
  : list (string * string) :=
  List.flat_map (group_copies output_directory) video_groups.

End Observe.

(** * Properties *)

(** ** The primitives on examples *)

Example slice_id : PyStr.slice 4 8 "GH010023.MP4" = "0023".
Proof. reflexivity. Qed.

Example slice_short : PyStr.slice 4 8 "GH.MP4" = "P4".
Proof. reflexivity. Qed.

Example split_time :
  PyStr.split "time=" "frame=1 time=00:00:01.50 bitrate=1" =
  ["frame=1 "; "00:00:01.50 bitrate=1"].
Proof. reflexivity. Qed.

Example split_colon : PyStr.split ":" "00:01:02.5" = ["00"; "01"; "02.5"].
Proof. reflexivity. Qed.

Example split_trailing : PyStr.split ":" "a:" = ["a"; EmptyString].
Proof. reflexivity. Qed.

Example split_ws_ex : PyStr.split_ws "  a b
 c " = ["a"; "b"; "c"].
Proof. reflexivity. Qed.

Example strip_ex : PyStr.strip " 12.5
" = "12.5".
Proof. reflexivity. Qed.

Example join_ex : OsPath.join "." "GH010001.MP4" = "./GH010001.MP4".
Proof. reflexivity. Qed.

Example basename_ex : OsPath.basename "./out/0001.MP4" = "0001.MP4".
Proof. reflexivity. Qed.

Example endswith_ex :
  PyStr.endswith ".MP4" "GH.MP4" = true /\ PyStr.endswith ".MP4" "a.mp4" = false.
Proof. split; reflexivity. Qed.

Example parse_decimal_ex :
  PyNum.parse_decimal "05.50" = Some (S754_finite false 6192449487634432 (-50))
  /\ PyNum.parse_decimal "0.1" = Some (S754_finite false 7205759403792794 (-56))
  /\ PyNum.parse_decimal "N/A" = None
  /\ PyNum.parse_decimal "." = None
  /\ PyNum.str_of_nat 12 = "12".
Proof. repeat split; vm_compute; reflexivity. Qed.

(** [0.1 + 0.2] is not [0.3], and [int(29.0 / 100.0 * 100)] is [28]. *)
Example float_rounding_ex :
  PyNum.fadd (PyNum.fdiv (PyNum.of_Z 1) (PyNum.of_Z 10))
             (PyNum.fdiv (PyNum.of_Z 2) (PyNum.of_Z 10))
  = S754_finite false 5404319552844596 (-54)
  /\ PyNum.fdiv (PyNum.of_Z 3) (PyNum.of_Z 10)
     = S754_finite false 5404319552844595 (-54)
  /\ PyNum.trunc
       (PyNum.fmul (PyNum.fdiv (PyNum.of_Z 29) (PyNum.of_Z 100))
                   (PyNum.of_Z 100))
     = Some 28%Z.
Proof. repeat split; vm_compute; reflexivity. Qed.

Example int_result_ex :
  Gopro.int_result S754_nan = inl Eff.ValueError
  /\ Gopro.int_result (S754_infinity false) = inl Eff.OverflowError
  /\ Gopro.int_result (PyNum.fdiv (PyNum.of_Z (-7)) (PyNum.of_Z 2)) = inr (-3)%Z
  /\ PyNum.floor (PyNum.fdiv (PyNum.of_Z (-7)) (PyNum.of_Z 2)) = Some (-4)%Z.
Proof. repeat split; vm_compute; reflexivity. Qed.

Example div_result_ex :
  Gopro.div_result (PyNum.of_Z 1) (PyNum.PInt 0) = inl Eff.ZeroDivisionError
  /\ Gopro.div_result (PyNum.of_Z 1) (PyNum.PFloat (S754_zero true))
     = inl Eff.ZeroDivisionError
  /\ Gopro.div_result (PyNum.of_Z 1) (PyNum.PInt (2 ^ 1024))
     = inl Eff.OverflowError
  /\ Gopro.div_result (PyNum.of_Z 1) (PyNum.PInt 4) =
     inr (S754_finite false 4503599627370496 (-54)).
Proof. repeat split; vm_compute; reflexivity. Qed.

Example sum_left_ex :
  PyNum.sum_left [PyNum.PInt 0; PyNum.PFloat (PyNum.of_Z 5);
                  PyNum.PFloat (PyNum.of_Z 5)]
  = PyNum.of_Z 10.
Proof. vm_compute. reflexivity. Qed.

Example time_marker_ex :
  Gopro.time_marker "frame=1 time=00:01:02.50 bitrate=1" =
  Some ("00", "01", "02.50").
Proof. reflexivity. Qed.

(** ** Strings *)

Lemma append_nil (b : string) : String.append EmptyString b = b.
Proof. reflexivity. Qed.

Lemma append_cons (c : ascii) (a b : string) :
  String.append (String c a) b = String c (String.append a b).
Proof. reflexivity. Qed.

Lemma string_length_append (a b : string) :
  String.length (String.append a b) = (String.length a + String.length b)%nat.
Proof.
  induction a as [|c a IH]; [reflexivity|].
  rewrite append_cons. simpl. now rewrite IH.
Qed.

Lemma string_append_assoc (a b c : string) :
  String.append (String.append a b) c = String.append a (String.append b c).
Proof.
  induction a as [|x a IH]; [reflexivity|].
  rewrite !append_cons. now rewrite IH.
Qed.

Lemma string_append_empty_r (a : string) : String.append a EmptyString = a.
Proof.
  induction a as [|x a IH]; [reflexivity|].
  rewrite append_cons. now rewrite IH.
Qed.

Lemma string_append_inv_head (a b c : string) :
  String.append a b = String.append a c -> b = c.
Proof.
  induction a as [|x a IH]; [auto|].
  rewrite !append_cons. intros H. injection H. auto.
Qed.

Lemma substring_all (s : string) : String.substring 0 (String.length s) s = s.
Proof. induction s as [|c s IH]; simpl; [reflexivity | now rewrite IH]. Qed.

Lemma substring_skip (pre suf : string) :
  String.substring (String.length pre) (String.length suf)
                   (String.append pre suf) = suf.
Proof.
  induction pre as [|c pre IH]; [apply substring_all|].
  rewrite append_cons. simpl. exact IH.
Qed.

Lemma substring_split (n : nat) (s : string) :
  (n <= String.length s)%nat ->
  s = String.append (String.substring 0 n s)
                    (String.substring n (String.length s - n) s).
Proof.
  revert s; induction n as [|n IH]; intros s Hn.
  - rewrite Nat.sub_0_r, substring_all. now destruct s.
  - destruct s as [|c s]; simpl in *; [lia|].
    rewrite append_cons. f_equal. apply IH. lia.
Qed.

Lemma prefix_iff (p s : string) :
  String.prefix p s = true <-> exists r, s = String.append p r.
Proof.
  revert s; induction p as [|c p IH]; intros s.
  - split; [intros _; now exists s | intros _; now destruct s].
  - destruct s as [|d s].
    + simpl. split; [discriminate | intros [r Hr]; discriminate].
    + simpl. destruct (ascii_dec c d) as [->|Hne].
      * rewrite IH. split; intros [r Hr]; exists r;
          rewrite ?append_cons in *; congruence.
      * split; [discriminate | intros [r Hr]].
        rewrite append_cons in Hr. congruence.
Qed.

Lemma endswith_iff (suf s : string) :
  PyStr.endswith suf s = true <-> exists pre, s = String.append pre suf.
Proof.
  unfold PyStr.endswith. rewrite andb_true_iff, Nat.leb_le, String.eqb_eq.
  split.
  - intros [Hle Hsub].
    exists (String.substring 0 (String.length s - String.length suf) s).
    pose proof (substring_split (String.length s - String.length suf) s)
      as Hsplit.
    replace (String.length s - (String.length s - String.length suf))%nat
      with (String.length suf) in Hsplit by lia.
    rewrite Hsub in Hsplit. apply Hsplit. lia.
  - intros [pre ->]. rewrite string_length_append. split; [lia|].
    replace (String.length pre + String.length suf - String.length suf)%nat
      with (String.length pre) by lia.
    apply substring_skip.
Qed.

(** ** The association list behind the grouping *)

Section DefaultDict.
Import Grouper.

Lemma dd_get_append (k k0 v : string) (d : groups) :
  dd_get k (dd_append k0 v d) =
  if String.eqb k k0
  then Some (List.app (match dd_get k0 d with Some vs => vs | None => [] end) [v])
  else dd_get k d.
Proof.
  induction d as [|[k' vs] d IH]; simpl.
  - destruct (String.eqb_spec k k0); reflexivity.
  - destruct (String.eqb_spec k0 k') as [->|Hne0]; simpl.
    + destruct (String.eqb_spec k k') as [->|Hne]; reflexivity.
    + destruct (String.eqb_spec k k') as [->|Hne]; simpl.
      * destruct (String.eqb_spec k' k0) as [->|_]; [congruence | reflexivity].
      * exact IH.
Qed.

Lemma dd_keys_append (k0 v : string) (d : groups) (k : string) :
  In k (List.map fst (dd_append k0 v d)) <-> k = k0 \/ In k (List.map fst d).
Proof.
  induction d as [|[k' vs] d IH]; simpl.
  - intuition.
  - destruct (String.eqb_spec k0 k') as [->|Hne]; simpl; [intuition|].
    rewrite IH. intuition.
Qed.

Lemma dd_keys_append_nodup (k0 v : string) (d : groups) :
  List.NoDup (List.map fst d) -> List.NoDup (List.map fst (dd_append k0 v d)).
Proof.
  induction d as [|[k' vs] d IH]; simpl; intros Hnd.
  - constructor; [intros [] | constructor].
  - destruct (String.eqb_spec k0 k') as [->|Hne]; simpl; [exact Hnd|].
    inversion Hnd as [|? ? Hnotin Hnd']; subst.
    constructor; [|auto].
    rewrite dd_keys_append. intros [->|Hin]; [congruence | contradiction].
Qed.

Lemma dd_in_get (d : groups) (k : string) (vs : list string) :
  List.NoDup (List.map fst d) -> (In (k, vs) d <-> dd_get k d = Some vs).
Proof.
  induction d as [|[k' vs'] d IH]; simpl; intros Hnd.
  - split; [intros [] | discriminate].
  - inversion Hnd as [|? ? Hnotin Hnd']; subst.
    destruct (String.eqb_spec k k') as [->|Hne].
    + split.
      * intros [Heq|Hin]; [congruence|].
        exfalso. apply Hnotin. apply (List.in_map fst) in Hin. exact Hin.
      * intros Heq. left. congruence.
    + rewrite <- (IH Hnd'). split; [intros [Heq|Hin]; [congruence | exact Hin] | auto].
Qed.

Lemma dd_get_map (h : list string -> list string) (d : groups) (k : string) :
  dd_get k (List.map (fun g => (fst g, h (snd g))) d) =
  match dd_get k d with Some vs => Some (h vs) | None => None end.
Proof.
  induction d as [|[k' vs] d IH]; simpl; [reflexivity|].
  destruct (String.eqb k k'); [reflexivity | exact IH].
Qed.

Lemma dd_keys_map (h : list string -> list string) (d : groups) :
  List.map fst (List.map (fun g => (fst g, h (snd g))) d) = List.map fst d.
Proof. rewrite List.map_map. reflexivity. Qed.

End DefaultDict.

(** ** The stable sort *)

Section Sorting.
Import Grouper.

Variable key : string -> string.

Let le (a b : string) : Prop := String.leb (key a) (key b) = true.

Lemma string_leb_iff (a b : string) :
  String.leb a b = true <-> a = b \/ String_as_OT.lt a b.
Proof.
  unfold String.leb.
  destruct (String.compare a b) eqn:Hc.
  - apply String_as_OT.cmp_eq in Hc. intuition.
  - apply String_as_OT.cmp_lt in Hc. intuition.
  - split; [discriminate|].
    intros [Heq|Hlt].
    + apply String_as_OT.cmp_eq in Heq. unfold String_as_OT.cmp in Heq.
      congruence.
    + apply String_as_OT.cmp_lt in Hlt. unfold String_as_OT.cmp in Hlt.
      congruence.
Qed.

Lemma string_leb_refl (a : string) : String.leb a a = true.
Proof. apply string_leb_iff. now left. Qed.

Lemma string_leb_trans (a b c : string) :
  String.leb a b = true -> String.leb b c = true -> String.leb a c = true.
Proof.
  rewrite !string_leb_iff.
  intros [->|Hab] [->|Hbc]; auto.
  right. eapply String_as_OT.lt_trans; eassumption.
Qed.

Lemma insert_by_perm (x : string) (l : list string) :
  Permutation (insert_by key x l) (x :: l).
Proof.
  induction l as [|y l IH]; simpl; [reflexivity|].
  destruct (String.leb (key x) (key y)); [reflexivity|].
  rewrite IH. apply perm_swap.
Qed.

Lemma sort_by_perm (l : list string) : Permutation (sort_by key l) l.
Proof.
  induction l as [|x l IH]; simpl; [reflexivity|].
  rewrite insert_by_perm. now constructor.
Qed.

Lemma insert_by_sorted (x : string) (l : list string) :
  StronglySorted le l -> StronglySorted le (insert_by key x l).
Proof.
  induction l as [|y l IH]; simpl; intros Hs.
  - repeat constructor.
  - inversion Hs as [|? ? Hs' Hall]; subst.
    destruct (String.leb (key x) (key y)) eqn:Hxy.
    + constructor; [exact Hs|].
      constructor; [exact Hxy|].
      eapply List.Forall_impl; [|exact Hall].
      intros z Hyz. unfold le in *. eapply string_leb_trans; eassumption.
    + constructor; [auto|].
      eapply Permutation_Forall; [symmetry; apply insert_by_perm|].
      constructor; [|exact Hall].
      unfold le. destruct (String.leb_total (key x) (key y)); congruence.
Qed.

Lemma sort_by_sorted (l : list string) : StronglySorted le (sort_by key l).
Proof.
  induction l as [|x l IH]; simpl; [constructor|].
  now apply insert_by_sorted.
Qed.

(** Two sorted arrangements of the same elements coincide when no two
    elements share a key. *)
Lemma sorted_perm_unique (l1 l2 : list string) :
  StronglySorted le l1 -> StronglySorted le l2 -> Permutation l1 l2 ->
  (forall a b, In a l1 -> In b l1 -> key a = key b -> a = b) ->
  l1 = l2.
Proof.
  revert l2; induction l1 as [|a l1 IH]; intros l2 Hs1 Hs2 Hp Hinj.
  - apply Permutation_nil in Hp. now subst.
  - destruct l2 as [|b l2].
    + symmetry in Hp. apply Permutation_nil in Hp. discriminate.
    + inversion Hs1 as [|? ? Hs1' Hall1]; subst.
      inversion Hs2 as [|? ? Hs2' Hall2]; subst.
      assert (Hab : a = b).
      { assert (Hle1 : le a b).
        { assert (Hin : In b (a :: l1))
            by (eapply Permutation_in; [symmetry; exact Hp | now left]).
          destruct Hin as [->|Hin]; [apply string_leb_refl|].
          rewrite List.Forall_forall in Hall1. now apply Hall1. }
        assert (Hin2 : In a (b :: l2))
          by (eapply Permutation_in; [exact Hp | now left]).
        assert (Hle2 : le b a).
        { destruct Hin2 as [->|Hin]; [apply string_leb_refl|].
          rewrite List.Forall_forall in Hall2. now apply Hall2. }
        apply Hinj; [now left | |].
        - eapply Permutation_in; [symmetry; exact Hp | now left].
        - now apply String.leb_antisym. }
      subst b. f_equal.
      apply IH; auto.
      * eapply Permutation_cons_inv; exact Hp.
      * intros x y Hx Hy. apply Hinj; now right.
Qed.

End Sorting.

(** ** Paths built by the scan *)

Section ScanPaths.
Import Grouper.

Lemma prefix_cons (c d : ascii) (p s : string) :
  String.prefix (String c p) (String d s) =
  if ascii_dec c d then String.prefix p s else false.
Proof. reflexivity. Qed.

Lemma prefix_empty (s : string) : String.prefix EmptyString s = true.
Proof. now destruct s. Qed.

Lemma contains_cons (sub : string) (c : ascii) (s : string) :
  PyStr.contains sub (String c s) =
  String.prefix sub (String c s) || PyStr.contains sub s.
Proof. reflexivity. Qed.

Lemma prefix_sep_cons (c : ascii) (f : string) :
  String.prefix OsPath.sep (String c f) =
  if ascii_dec "/" c then true else false.
Proof.
  unfold OsPath.sep. rewrite prefix_cons, prefix_empty. reflexivity.
Qed.

Lemma plain_name_cons (c : ascii) (f : string) :
  plain_name (String c f) = true -> c <> "/"%char /\ plain_name f = true.
Proof.
  unfold plain_name. rewrite contains_cons, prefix_sep_cons.
  destruct (ascii_dec "/" c) as [<-|Hne].
  - discriminate.
  - rewrite orb_false_l. intros H. split; [congruence | exact H].
Qed.

Lemma plain_name_not_absolute (f : string) :
  plain_name f = true -> PyStr.startswith OsPath.sep f = false.
Proof.
  destruct f as [|c f]; [reflexivity|].
  intros H. apply plain_name_cons in H as [Hne _].
  unfold PyStr.startswith. rewrite prefix_sep_cons.
  destruct (ascii_dec "/" c); [congruence | reflexivity].
Qed.

Lemma join_plain (input_directory f : string) :
  plain_name f = true ->
  OsPath.join input_directory f = String.append (OsPath.dir_prefix input_directory) f.
Proof.
  intros H. unfold OsPath.join, OsPath.dir_prefix.
  rewrite (plain_name_not_absolute _ H).
  destruct (PyStr.is_empty input_directory
            || PyStr.endswith OsPath.sep input_directory);
    [reflexivity | now rewrite string_append_assoc].
Qed.

Lemma join_injective (input_directory f g : string) :
  plain_name f = true -> plain_name g = true ->
  OsPath.join input_directory f = OsPath.join input_directory g -> f = g.
Proof.
  intros Hf Hg. rewrite !join_plain by assumption.
  apply string_append_inv_head.
Qed.

Lemma dir_prefix_shape (input_directory : string) :
  OsPath.dir_prefix input_directory = EmptyString
  \/ exists d, OsPath.dir_prefix input_directory = String.append d OsPath.sep.
Proof.
  unfold OsPath.dir_prefix.
  destruct input_directory as [|c d]; [now left|].
  simpl PyStr.is_empty. rewrite orb_false_l.
  destruct (PyStr.endswith OsPath.sep (String c d)) eqn:He.
  - right. apply endswith_iff in He. exact He.
  - right. now exists (String c d).
Qed.

Lemma split_go_cons (sep acc : string) (c : ascii) (s : string) :
  PyStr.split_go sep 0 acc (String c s) =
  if String.prefix sep (String c s)
  then acc :: PyStr.split_go sep (String.length sep - 1) EmptyString s
  else PyStr.split_go sep 0 (PyStr.snoc acc c) s.
Proof. reflexivity. Qed.

Lemma split_go_nonempty (sep : string) (skip : nat) (acc s : string) :
  PyStr.split_go sep skip acc s <> [].
Proof.
  revert skip acc; induction s as [|c s IH]; intros skip acc.
  - discriminate.
  - destruct skip as [|k]; [|apply IH].
    rewrite split_go_cons.
    destruct (String.prefix sep (String c s)); [discriminate | apply IH].
Qed.

Lemma split_plain (acc f : string) :
  plain_name f = true ->
  PyStr.split_go OsPath.sep 0 acc f = [String.append acc f].
Proof.
  revert acc; induction f as [|c f IH]; intros acc H.
  - simpl. now rewrite string_append_empty_r.
  - pose proof (plain_name_not_absolute _ H) as Hp.
    apply plain_name_cons in H as [_ H].
    rewrite split_go_cons. unfold PyStr.startswith in Hp. rewrite Hp.
    rewrite IH by assumption. unfold PyStr.snoc.
    now rewrite string_append_assoc.
Qed.

Lemma last_cons_nonempty (a : string) (l : list string) (d : string) :
  l <> [] -> List.last (a :: l) d = List.last l d.
Proof. destruct l; [congruence | reflexivity]. Qed.

Lemma split_last_after_sep (acc d f : string) :
  plain_name f = true ->
  List.last
    (PyStr.split_go OsPath.sep 0 acc
       (String.append (String.append d OsPath.sep) f)) EmptyString = f.
Proof.
  intros H. revert acc; induction d as [|c d IH]; intros acc.
  - rewrite append_nil. unfold OsPath.sep at 2. rewrite append_cons, append_nil.
    rewrite split_go_cons.
    rewrite prefix_sep_cons.
    destruct (ascii_dec "/" "/") as [_|Hne]; [|congruence].
    simpl String.length. simpl Nat.sub.
    rewrite split_plain by assumption. reflexivity.
  - rewrite !append_cons, split_go_cons.
    destruct (String.prefix OsPath.sep _).
    + rewrite last_cons_nonempty by apply split_go_nonempty. apply IH.
    + apply IH.
Qed.

(** The sort key of a scanned path is read from the file's own name. *)
Lemma basename_join (input_directory f : string) :
  plain_name f = true ->
  List.last (PyStr.split OsPath.sep (OsPath.join input_directory f))
            EmptyString = f.
Proof.
  intros H. rewrite join_plain by assumption. unfold PyStr.split.
  destruct (dir_prefix_shape input_directory) as [->|[d ->]].
  - rewrite append_nil, split_plain by assumption. reflexivity.
  - now apply split_last_after_sep.
Qed.

Lemma part_key_join (input_directory f : string) :
  plain_name f = true ->
  part_key (OsPath.join input_directory f) = PyStr.slice 2 4 f.
Proof. intros H. unfold part_key. now rewrite basename_join. Qed.

End ScanPaths.

(** ** What the scan files under each identifier *)

Section GroupContents.
Import Grouper.

Variable input_directory : string.

Let step (d : groups) (filename : string) : groups :=
  dd_append (video_number_of filename)
            (OsPath.join input_directory filename) d.

Let picked (k : string) (files : list string) : list string :=
  List.map (OsPath.join input_directory)
    (List.filter (fun f => String.eqb (video_number_of f) k) files).

Lemma fold_get (files : list string) (d0 : groups) (k : string) :
  dd_get k (fold_left step files d0) =
  match picked k files with
  | [] => dd_get k d0
  | m => Some (List.app (match dd_get k d0 with Some vs => vs | None => [] end) m)
  end.
Proof.
  revert d0; induction files as [|f files IH]; intros d0.
  - reflexivity.
  - change (fold_left step (f :: files) d0)
      with (fold_left step files (step d0 f)).
    rewrite IH.
    assert (Hget : dd_get k (step d0 f) =
                   if String.eqb k (video_number_of f)
                   then Some (List.app
                                (match dd_get (video_number_of f) d0 with
                                 | Some vs => vs | None => [] end)
                                [OsPath.join input_directory f])
                   else dd_get k d0) by apply dd_get_append.
    rewrite Hget. clear Hget.
    unfold picked. simpl List.filter.
    rewrite (String.eqb_sym k (video_number_of f)).
    destruct (String.eqb (video_number_of f) k) eqn:Hk.
    + apply String.eqb_eq in Hk. subst k. simpl List.map.
      destruct (List.map _ (List.filter _ files)) as [|m ms].
      * reflexivity.
      * now rewrite <- List.app_assoc.
    + reflexivity.
Qed.

Lemma fold_keys_nodup (files : list string) (d0 : groups) :
  List.NoDup (List.map fst d0) ->
  List.NoDup (List.map fst (fold_left step files d0)).
Proof.
  revert d0; induction files as [|f files IH]; intros d0 Hnd; [exact Hnd|].
  simpl. apply IH. now apply dd_keys_append_nodup.
Qed.

Lemma group_keys_nodup (listing : list string) :
  List.NoDup (List.map fst (group_gopro_files input_directory listing)).
Proof.
  unfold group_gopro_files. rewrite dd_keys_map.
  apply (fold_keys_nodup _ []). constructor.
Qed.

Lemma group_get (listing : list string) (k : string) :
  dd_get k (group_gopro_files input_directory listing) =
  match members input_directory k listing with
  | [] => None
  | m => Some (sort_by part_key m)
  end.
Proof.
  unfold group_gopro_files. rewrite dd_get_map.
  rewrite (fold_get _ [] k). unfold picked, members. simpl dd_get.
  destruct (List.map _ _); reflexivity.
Qed.

Lemma group_in (listing : list string) (k : string) (vs : list string) :
  In (k, vs) (group_gopro_files input_directory listing) <->
  members input_directory k listing <> []
  /\ vs = sort_by part_key (members input_directory k listing).
Proof.
  rewrite (dd_in_get _ _ _ (group_keys_nodup listing)), group_get.
  destruct (members input_directory k listing) as [|m ms].
  - split; [discriminate | intros [H _]; congruence].
  - split; [intros H; split; [discriminate | congruence] | intros [_ ->]; reflexivity].
Qed.

Lemma members_in (listing : list string) (k p : string) :
  In p (members input_directory k listing) <->
  exists f, In f listing /\ is_gopro f = true /\ video_number_of f = k
            /\ p = OsPath.join input_directory f.
Proof.
  unfold members. rewrite List.in_map_iff. split.
  - intros [f [<- Hin]]. apply List.filter_In in Hin as [Hin Hk].
    apply List.filter_In in Hin as [Hin Hg]. apply String.eqb_eq in Hk.
    exists f. auto.
  - intros [f (Hin & Hg & Hk & ->)]. exists f. split; [reflexivity|].
    apply List.filter_In. split; [|now apply String.eqb_eq].
    apply List.filter_In. auto.
Qed.


Lemma filter_perm (h : string -> bool) (l l' : list string) :
  Permutation l l' -> Permutation (List.filter h l) (List.filter h l').
Proof.
  induction 1 as [|x l l' _ IH|x y l|l l' l'' _ IH1 _ IH2]; simpl.
  - constructor.
  - destruct (h x); [now constructor | exact IH].
  - destruct (h x), (h y); try reflexivity. apply perm_swap.
  - etransitivity; eassumption.
Qed.

Lemma members_perm (listing listing' : list string) (k : string) :
  Permutation listing listing' ->
  Permutation (members input_directory k listing)
              (members input_directory k listing').
Proof.
  intros Hp. unfold members.
  apply Permutation_map. now do 2 apply filter_perm.
Qed.

End GroupContents.

(** ** Grouping *)


Lemma gopro_listing_ok :
  List.NoDup ["GH020001.MP4"; "GH010001.MP4"; "GH010002.MP4"; "notes.txt"]
  /\ List.Forall (fun f => Grouper.plain_name f = true)
       ["GH020001.MP4"; "GH010001.MP4"; "GH010002.MP4"; "notes.txt"].
Proof.
  split.
  - repeat constructor; simpl; intuition discriminate.
  - repeat constructor.
Defined.


Example group_example :
  Grouper.group_gopro_files "."
    ["GH020001.MP4"; "GH010001.MP4"; "GH010002.MP4"; "notes.txt"] =
  [("0001", ["./GH010001.MP4"; "./GH020001.MP4"]);
   ("0002", ["./GH010002.MP4"])].
Proof. vm_compute. reflexivity. Qed.

(** ** Ordering *)

(** C3, as the code has it.  Every group is sorted ascending by the part
    key, the text [name[2:4]] of the file's base name, under the string
    order; and the ordered sequences do not depend on the order in which
    the directory was listed as long as no two parts of a recording share a
    part key. *)
Theorem parts_sorted_by_key (input_directory : string) (listing : list string) :
  List.Forall (fun f => Grouper.plain_name f = true) listing ->
  let G := Grouper.group_gopro_files input_directory listing in
  (forall k vs, In (k, vs) G ->
     StronglySorted Grouper.key_le vs
     /\ forall p, In p vs ->
          exists f, In f listing /\ p = OsPath.join input_directory f
                    /\ Grouper.part_key p = PyStr.slice 2 4 f)
  /\ (forall listing',
        Permutation listing listing' ->
        (forall f g, In f listing -> In g listing ->
           Grouper.is_gopro f = true -> Grouper.is_gopro g = true ->
           String.substring 4 4 f = String.substring 4 4 g ->
           PyStr.slice 2 4 f = PyStr.slice 2 4 g -> f = g) ->
        forall k,
          Grouper.dd_get k (Grouper.group_gopro_files input_directory listing')
          = Grouper.dd_get k G).
Proof.
  change (String.substring 4 4) with Grouper.video_number_of.
  intros Hplain G. rewrite List.Forall_forall in Hplain. split.
  - intros k vs HG. apply group_in in HG as [_ ->]. split.
    + apply sort_by_sorted.
    + intros p Hp.
      apply (Permutation_in _ (sort_by_perm _ _)) in Hp.
      apply members_in in Hp as [f (Hin & _ & _ & ->)].
      exists f. split; [exact Hin|]. split; [reflexivity|].
      apply part_key_join. now apply Hplain.
  - intros listing' Hperm Hdistinct k. unfold G. rewrite !group_get.
    pose proof (members_perm input_directory _ _ k Hperm) as Hm.
    destruct (Grouper.members input_directory k listing) as [|m ms] eqn:Hmem.
    + apply Permutation_nil in Hm. now rewrite Hm.
    + destruct (Grouper.members input_directory k listing') as [|m' ms'] eqn:Hmem'.
      * symmetry in Hm. apply Permutation_nil in Hm. discriminate.
      * f_equal. apply (sorted_perm_unique Grouper.part_key).
        -- apply sort_by_sorted.
        -- apply sort_by_sorted.
        -- rewrite !sort_by_perm. now symmetry.
        -- intros a b Ha Hb Hkey.
           apply (Permutation_in _ (sort_by_perm _ _)) in Ha, Hb.
           apply (Permutation_in _ (Permutation_sym Hm)) in Ha, Hb.
           rewrite <- Hmem in Ha, Hb.
           apply members_in in Ha as [f (Hf & Hgf & Hkf & ->)].
           apply members_in in Hb as [g (Hg & Hgg & Hkg & ->)].
           rewrite !part_key_join in Hkey by auto.
           f_equal. apply Hdistinct; auto. congruence.
Qed.

Lemma parts_sorted_by_key_witness :
  List.Forall (fun f => Grouper.plain_name f = true)
    ["GH020001.MP4"; "GH010001.MP4"; "GH010002.MP4"; "notes.txt"]
  /\ StronglySorted Grouper.key_le ["./GH010001.MP4"; "./GH020001.MP4"].
Proof.
  split; [apply gopro_listing_ok|].
  refine (proj1 (proj1 (parts_sorted_by_key "." _ (proj2 gopro_listing_ok))
                   "0001" _ _)).
  vm_compute. left. reflexivity.
Defined.

(** Where two parts of a recording share a part key, the order of the
    listing shows in the result: the same two files, listed in the two
    possible orders, give two different sequences. *)
Lemma tied_parts_follow_listing_order :
  Permutation ["GH010001.MP4"; "GH010001_copy.MP4"]
              ["GH010001_copy.MP4"; "GH010001.MP4"]
  /\ List.NoDup ["GH010001.MP4"; "GH010001_copy.MP4"]
  /\ List.Forall (fun f => Grouper.matches_spec_pattern f = true)
       ["GH010001.MP4"; "GH010001_copy.MP4"]
  /\ Grouper.group_gopro_files "." ["GH010001.MP4"; "GH010001_copy.MP4"]
     = [("0001", ["./GH010001.MP4"; "./GH010001_copy.MP4"])]
  /\ Grouper.group_gopro_files "." ["GH010001_copy.MP4"; "GH010001.MP4"]
     = [("0001", ["./GH010001_copy.MP4"; "./GH010001.MP4"])]
  /\ Grouper.group_gopro_files "." ["GH010001.MP4"; "GH010001_copy.MP4"]
     <> Grouper.group_gopro_files "." ["GH010001_copy.MP4"; "GH010001.MP4"].
Proof.
  split; [apply perm_swap|]. split.
  { repeat constructor; simpl; intuition discriminate. }
  split; [repeat constructor|].
  split; [vm_compute; reflexivity|].
  split; [vm_compute; reflexivity|].
  vm_compute. discriminate.
Qed.

(** The keys compare as text: ["10"] sorts before ["9_"]. *)
Example keys_compare_as_text :
  Grouper.group_gopro_files "." ["GH9_0001.MP4"; "GH100001.MP4"] =
  [("0001", ["./GH100001.MP4"; "./GH9_0001.MP4"])].
Proof. vm_compute. reflexivity. Qed.

(** Parts that share a part key keep the order of the listing. *)
Example ties_keep_listing_order :
  Grouper.group_gopro_files "." ["GH010001x.MP4"; "GH010001.MP4"] =
  [("0001", ["./GH010001x.MP4"; "./GH010001.MP4"])]
  /\ Grouper.group_gopro_files "." ["GH010001.MP4"; "GH010001x.MP4"] =
     [("0001", ["./GH010001.MP4"; "./GH010001x.MP4"])].
Proof. split; vm_compute; reflexivity. Qed.

(** ** The directory scan *)

Section ScanShape.
Import Grouper.

Lemma star_iff (k : list ascii -> bool) (s : list ascii) :
  star k s = true <->
  exists pre rest, s = List.app pre rest /\ k rest = true.
Proof.
  induction s as [|c s IH]; simpl.
  - rewrite orb_false_r. split.
    + intros H. now exists [], [].
    + intros (pre & rest & Heq & Hk).
      symmetry in Heq. apply List.app_eq_nil in Heq as [_ ->]. exact Hk.
  - rewrite orb_true_iff, IH. split.
    + intros [Hk|(pre & rest & -> & Hk)].
      * now exists [], (c :: s).
      * now exists (c :: pre), rest.
    + intros (pre & rest & Heq & Hk). destruct pre as [|d pre].
      * left. simpl in Heq. now subst.
      * right. injection Heq as -> ->. now exists pre, rest.
Qed.

Lemma glob_lit (c : ascii) (p s : list ascii) :
  Ascii.eqb c "*" = false -> Ascii.eqb c "?" = false ->
  glob (c :: p) s =
  match s with [] => false | d :: s' => Ascii.eqb c d && glob p s' end.
Proof. intros H1 H2. cbn [glob]. rewrite H1, H2. reflexivity. Qed.

Lemma glob_any (p s : list ascii) :
  glob ("?"%char :: p) s =
  match s with [] => false | _ :: s' => glob p s' end.
Proof. reflexivity. Qed.

Lemma glob_star (p s : list ascii) :
  glob ("*"%char :: p) s = star (glob p) s.
Proof. reflexivity. Qed.

Lemma glob_extension (s : list ascii) :
  glob (list_ascii_of_string ".MP4") s = true <->
  s = list_ascii_of_string ".MP4".
Proof.
  split.
  - cbn [list_ascii_of_string]. intros H.
    do 4 (rewrite glob_lit in H by reflexivity;
          destruct s as [|? s]; [discriminate|];
          apply andb_true_iff in H as [Hc H];
          apply Ascii.eqb_eq in Hc; subst).
    destruct s; [reflexivity | discriminate].
  - intros ->. reflexivity.
Qed.

Lemma list_ascii_app (a b : string) :
  list_ascii_of_string (String.append a b) =
  List.app (list_ascii_of_string a) (list_ascii_of_string b).
Proof.
  induction a as [|c a IH]; [reflexivity|].
  rewrite append_cons. simpl. now rewrite IH.
Qed.

Lemma list_ascii_inj (a b : string) :
  list_ascii_of_string a = list_ascii_of_string b -> a = b.
Proof.
  intros H. rewrite <- (string_of_list_ascii_of_string a),
    <- (string_of_list_ascii_of_string b). now rewrite H.
Qed.

Lemma star_extension (r : string) :
  star (glob (list_ascii_of_string ".MP4")) (list_ascii_of_string r) = true
  <-> PyStr.endswith ".MP4" r = true.
Proof.
  rewrite star_iff, endswith_iff. split.
  - intros (pre & rest & Heq & Hk). apply glob_extension in Hk. subst rest.
    exists (string_of_list_ascii pre). apply list_ascii_inj.
    now rewrite list_ascii_app, list_ascii_of_string_of_list_ascii.
  - intros [pre ->].
    exists (list_ascii_of_string pre), (list_ascii_of_string ".MP4").
    split; [apply list_ascii_app | reflexivity].
Qed.

Lemma endswith_tail (suf : string) (c : ascii) (s : string) :
  (String.length suf <= String.length s)%nat ->
  PyStr.endswith suf (String c s) = PyStr.endswith suf s.
Proof.
  intros Hlen.
  destruct (PyStr.endswith suf s) eqn:He.
  - apply endswith_iff in He as [pre ->]. apply endswith_iff.
    now exists (String c pre).
  - destruct (PyStr.endswith suf (String c s)) eqn:He'; [|reflexivity].
    apply endswith_iff in He' as [pre Hpre].
    destruct pre as [|d pre].
    + rewrite append_nil in Hpre. subst suf. simpl in Hlen. lia.
    + rewrite append_cons in Hpre. injection Hpre as _ ->.
      assert (PyStr.endswith suf (String.append pre suf) = true)
        by (apply endswith_iff; now exists pre).
      congruence.
Qed.

Lemma endswith_short (suf s : string) :
  (String.length s < String.length suf)%nat -> PyStr.endswith suf s = false.
Proof.
  intros H. unfold PyStr.endswith.
  apply Nat.leb_gt in H. now rewrite H.
Qed.

Lemma pattern_iff (f : string) :
  matches_spec_pattern f = true <->
  is_gopro f = true /\ (10 <= String.length f)%nat.
Proof.
  unfold matches_spec_pattern, spec_pattern, is_gopro, PyStr.startswith.
  cbn [list_ascii_of_string].
  rewrite glob_lit by reflexivity.
  destruct f as [|c1 f]; cbn [list_ascii_of_string];
    [split; [discriminate | intros [_ Hlen]; simpl in Hlen; lia]|].
  rewrite glob_lit by reflexivity.
  destruct f as [|c2 f]; cbn [list_ascii_of_string];
    [split; [rewrite ?andb_false_r; discriminate
            | intros [_ Hlen]; simpl in Hlen; lia]|].
  do 4 (rewrite glob_any;
        destruct f as [|? f]; cbn [list_ascii_of_string];
        [split; [rewrite ?andb_false_r; discriminate
                | intros [_ Hlen]; simpl in Hlen; lia]|]).
  rewrite glob_star.
  change ("."%char :: "M"%char :: "P"%char :: ["4"%char])
    with (list_ascii_of_string ".MP4").
  rewrite !prefix_cons, prefix_empty.
  destruct (ascii_dec "G" c1) as [<-|HG].
  2:{ apply Ascii.eqb_neq in HG.
      split; [intros H | intros [H _]];
        rewrite ?HG, ?andb_false_r in H; simpl in H; discriminate. }
  destruct (ascii_dec "H" c2) as [<-|HH].
  2:{ apply Ascii.eqb_neq in HH.
      split; [intros H | intros [H _]];
        rewrite ?HH, ?andb_false_r in H; simpl in H; discriminate. }
  rewrite !Ascii.eqb_refl, andb_true_r. rewrite !andb_true_l.
  destruct (Nat.le_gt_cases 4 (String.length f)) as [Hlen|Hlen].
  - rewrite !endswith_tail by (simpl; lia).
    rewrite star_extension. simpl String.length. intuition lia.
  - split.
    + rewrite star_extension, endswith_short by (simpl; lia). discriminate.
    + intros [_ H]. simpl in H. lia.
Qed.

End ScanShape.

(** C8, as the code has it.  The scan keeps exactly the names that start
    with [GH] and end with [.MP4], compared case-sensitively.  Every name of
    the shape [GH????*.MP4] is kept, and a kept name fails that shape only
    by being shorter than ten characters; the groups hold the kept names of
    the listing and nothing else. *)
Theorem scan_selection (f : string) :
  (Grouper.is_gopro f = true <->
     (exists r, f = String.append "GH" r)
     /\ (exists pre, f = String.append pre ".MP4"))
  /\ (Grouper.matches_spec_pattern f = true <->
        Grouper.is_gopro f = true /\ (10 <= String.length f)%nat)
  /\ (forall input_directory listing p,
        (exists k vs,
            In (k, vs) (Grouper.group_gopro_files input_directory listing)
            /\ In p vs)
        <-> (exists g, In g listing /\ Grouper.is_gopro g = true
                       /\ p = OsPath.join input_directory g))
  /\ Grouper.is_gopro "gh010001.MP4" = false
  /\ Grouper.is_gopro "GH010001.mp4" = false.
Proof.
  split; [|split; [|split; [|split; reflexivity]]].
  - unfold Grouper.is_gopro, PyStr.startswith.
    rewrite andb_true_iff, endswith_iff, prefix_iff. tauto.
  - apply pattern_iff.
  - intros input_directory listing p. split.
    + intros (k & vs & HG & Hp). apply group_in in HG as [_ ->].
      apply (Permutation_in _ (sort_by_perm _ _)) in Hp.
      apply members_in in Hp as [g (Hin & Hg & _ & ->)]. eauto.
    + intros (g & Hin & Hg & ->).
      assert (Hm : In (OsPath.join input_directory g)
                      (Grouper.members input_directory
                         (Grouper.video_number_of g) listing))
        by (apply members_in; eauto).
      exists (Grouper.video_number_of g),
             (Grouper.sort_by Grouper.part_key
                (Grouper.members input_directory
                   (Grouper.video_number_of g) listing)).
      split.
      * apply group_in. split; [|reflexivity].
        intros Hnil. rewrite Hnil in Hm. destruct Hm.
      * eapply Permutation_in; [symmetry; apply sort_by_perm | exact Hm].
Qed.

(** A name too short to hold an identifier is kept and grouped all the
    same: [GH.MP4] passes the filter, does not have the shape
    [GH????*.MP4], and is filed under ["P4"]. *)
Lemma short_name_is_grouped :
  Grouper.is_gopro "GH.MP4" = true
  /\ Grouper.matches_spec_pattern "GH.MP4" = false
  /\ Grouper.group_gopro_files "." ["GH.MP4"] = [("P4", ["./GH.MP4"])].
Proof. repeat split; vm_compute; reflexivity. Qed.

(** ** Running the monad *)

Section Running.
Import Eff.

Lemma run_result {A} (r : fs * list event * (exn + A)) :
  r = (final_fs r, trace r, outcome r).
Proof. now destruct r as [[? ?] ?]. Qed.

Lemma bind_emit {B} (e : event) (k : unit -> M B) (s : fs) :
  bind (emit e) k s = prepend [e] (k tt s).
Proof.
  unfold bind, emit, prepend. now destruct (k tt s) as [[? ?] ?].
Qed.

Lemma bind_ret {A B} (a : A) (k : A -> M B) (s : fs) :
  bind (ret a) k s = k a s.
Proof. unfold bind, ret. now destruct (k a s) as [[? ?] ?]. Qed.

Lemma bind_raise {A B} (e : exn) (k : A -> M B) (s : fs) :
  bind (raise e) k s = (s, [], inl e).
Proof. reflexivity. Qed.

Lemma bind_modify {B} (f : fs -> fs) (k : unit -> M B) (s : fs) :
  bind (modify f) k s = k tt (f s).
Proof. unfold bind, modify. now destruct (k tt (f s)) as [[? ?] ?]. Qed.

Lemma bind_run {A B} (m : M A) (k : A -> M B) (s : fs) :
  bind m k s =
  match outcome (m s) with
  | inl e => (final_fs (m s), trace (m s), inl e)
  | inr a => prepend (trace (m s)) (k a (final_fs (m s)))
  end.
Proof.
  unfold bind, prepend, outcome, final_fs, trace.
  destruct (m s) as [[s1 t1] [e|a]]; simpl; [reflexivity|].
  now destruct (k a s1) as [[? ?] ?].
Qed.

Lemma bind_assoc {A B C} (m : M A) (k1 : A -> M B) (k2 : B -> M C) (s : fs) :
  bind (bind m k1) k2 s = bind m (fun a => bind (k1 a) k2) s.
Proof.
  unfold bind. destruct (m s) as [[s1 t1] [e|a]]; [reflexivity|].
  destruct (k1 a s1) as [[s2 t2] [e|b]]; [reflexivity|].
  destruct (k2 b s2) as [[s3 t3] r]. now rewrite List.app_assoc.
Qed.


Lemma prepend_prepend {A} (t1 t2 : list event)
    (r : fs * list event * (exn + A)) :
  prepend t1 (prepend t2 r) = prepend (t1 ++ t2) r.
Proof.
  destruct r as [[? ?] ?]. unfold prepend. simpl. now rewrite List.app_assoc.
Qed.

Lemma trace_prepend {A} (t : list event) (r : fs * list event * (exn + A)) :
  trace (prepend t r) = t ++ trace r.
Proof. reflexivity. Qed.

Lemma outcome_prepend {A} (t : list event) (r : fs * list event * (exn + A)) :
  outcome (prepend t r) = outcome r.
Proof. reflexivity. Qed.

Lemma final_fs_prepend {A} (t : list event) (r : fs * list event * (exn + A)) :
  final_fs (prepend t r) = final_fs r.
Proof. reflexivity. Qed.

End Running.

Ltac mstep := repeat (rewrite bind_assoc || rewrite bind_ret).

(** ** Numbers *)

(** [floor] is the floor of the number the float stands for. *)
Lemma floor_is_exact_floor (x : PyNum.float) (q : Q) :
  PyNum.exact_value x = Some q -> PyNum.floor x = Some (Qfloor q).
Proof.
  destruct x as [sg|sg| |sg m e]; unfold PyNum.exact_value, PyNum.floor;
    cbv zeta; try discriminate.
  - intros H; injection H as <-. reflexivity.
  - intros H; injection H as <-. f_equal.
    destruct e as [|k|k].
    + rewrite Z.shiftl_0_r, Z.mul_1_r. symmetry. apply Qfloor_Z.
    + rewrite Z.shiftl_mul_pow2 by lia. symmetry. apply Qfloor_Z.
    + rewrite Z.shiftr_div_pow2 by lia.
      assert (Hred :
        Qfloor (Qred (Qmake (if sg then Z.neg m else Z.pos m)
                            (2 ^ k)%positive))
        = Qfloor (Qmake (if sg then Z.neg m else Z.pos m) (2 ^ k)%positive))
        by (apply Qfloor_comp, Qred_correct).
      etransitivity; [|symmetry; exact Hred].
      unfold Qfloor. now rewrite Pos2Z.inj_pow.
Qed.

(** A guarded division does not raise [ZeroDivisionError]. *)
Lemma div_never_by_zero (a : PyNum.float) (b : PyNum.number) :
  PyNum.truthy b = true -> Gopro.div_result a b <> inl Eff.ZeroDivisionError.
Proof.
  unfold PyNum.truthy, Gopro.div_result. intros Ht.
  apply negb_true_iff in Ht. destruct b as [z|f]; simpl in Ht.
  - rewrite Ht. destruct (PyNum.is_finite (PyNum.of_Z z)); discriminate.
  - rewrite Ht. discriminate.
Qed.

Lemma int_result_error (x : PyNum.float) (e : Eff.exn) :
  Gopro.int_result x = inl e -> e = Eff.ValueError \/ e = Eff.OverflowError.
Proof.
  unfold Gopro.int_result.
  destruct (PyNum.trunc x); [discriminate|].
  destruct x; intros H; injection H as <-; auto.
Qed.

(** [int(x)] is the floor of [x] where it is positive. *)
Lemma int_of_float_floor (x : PyNum.float) (z : Z) :
  Gopro.int_result x = inr z -> (0 < z)%Z -> PyNum.floor x = Some z.
Proof.
  unfold Gopro.int_result.
  destruct x as [sg|sg| |sg m e]; simpl; try discriminate.
  - intros H; injection H as <-. lia.
  - destruct sg.
    + intros H Hpos. injection H as <-. exfalso.
      destruct e as [|k|k].
      * rewrite Z.shiftl_0_r in Hpos. lia.
      * pose proof (Z.shiftl_nonneg (Z.pos m) (Z.pos k)). lia.
      * pose proof (Z.shiftr_nonneg (Z.pos m) (Z.pos k)). lia.
    + intros H _. injection H as <-. reflexivity.
Qed.

Lemma positive_duration_truthy (total : PyNum.number) :
  PyNum.positive total = true -> PyNum.truthy total = true.
Proof.
  unfold PyNum.positive, PyNum.truthy, PyNum.is_zero.
  destruct total as [z|f]; intros Hpos.
  - apply Z.ltb_lt in Hpos. apply negb_true_iff, Z.eqb_neq. lia.
  - destruct f as [[]|[]| |[] m e]; try discriminate; reflexivity.
Qed.

(** A division that returns gives the quotient of the two floats. *)
Lemma div_result_value (a : PyNum.float) (b : PyNum.number)
    (ratio : PyNum.float) :
  Gopro.div_result a b = inr ratio ->
  ratio = PyNum.fdiv a (PyNum.to_float b).
Proof.
  unfold Gopro.div_result. destruct b as [z|f]; simpl.
  - destruct (PyNum.is_finite (PyNum.of_Z z)); [|discriminate].
    destruct (z =? 0)%Z; [discriminate|]. now intros H; injection H as <-.
  - destruct (SFeqb f PyNum.zero); [discriminate|].
    now intros H; injection H as <-.
Qed.

(** ** One diagnostic line *)

Section ProgressLoop.
Import Eff Gopro.

Variable E : Env.

Lemma progress_loop_step (total : PyNum.number) (line : string) (rest : list string)
    (last : Z) (s : fs) :
  progress_loop E total (line :: rest) last s =
  if PyStr.is_empty line then (s, [EvReadline line], inr tt)
  else
    match line_progress E total line with
    | inl e => (s, [EvReadline line], inl e)
    | inr None =>
        prepend [EvReadline line] (progress_loop E total rest last s)
    | inr (Some p) =>
        if (last <? p)%Z then
          prepend [EvReadline line; EvPbarUpdate (p - last)]
                  (progress_loop E total rest p s)
        else prepend [EvReadline line] (progress_loop E total rest last s)
    end.
Proof.
  cbn [progress_loop]. rewrite bind_emit. unfold line_progress.
  destruct (PyStr.is_empty line); [reflexivity|].
  destruct (PyStr.contains "time=" line); [|reflexivity].
  unfold py_index.
  destruct (nth_error (PyStr.split "time=" line) 1) as [after|];
    [|reflexivity].
  rewrite bind_ret.
  destruct (nth_error (PyStr.split_ws after) 0) as [time_str|];
    [|reflexivity].
  rewrite bind_ret. unfold unpack3_floats.
  destruct (PyStr.split ":" time_str) as [|a [|b [|c [|d l]]]];
    try reflexivity.
  unfold float. mstep.
  destruct (float_of_string E a) as [h|]; [|reflexivity].
  mstep.
  destruct (float_of_string E b) as [m|]; [|reflexivity].
  mstep.
  destruct (float_of_string E c) as [sec|]; [|reflexivity].
  mstep. unfold py_div, py_int, lift.
  destruct (div_result _ total) as [e|ratio]; [reflexivity|].
  mstep.
  destruct (int_result _) as [e|percent]; [reflexivity|].
  mstep.
  destruct (last <? _)%Z; [|reflexivity].
  rewrite bind_emit, prepend_prepend. reflexivity.
Qed.

Lemma line_progress_marker (total : PyNum.number) (line : string) (p : Z) :
  line_progress E total line = inr (Some p) ->
  exists a b c hours minutes seconds,
    time_marker line = Some (a, b, c)
    /\ float_of_string E a = Some hours
    /\ float_of_string E b = Some minutes
    /\ float_of_string E c = Some seconds
    /\ exists ratio percent,
         div_result (elapsed_seconds hours minutes seconds) total = inr ratio
         /\ int_result (PyNum.fmul ratio (PyNum.of_Z 100)) = inr percent
         /\ p = Z.min 100 percent.
Proof.
  unfold line_progress, time_marker.
  destruct (PyStr.contains "time=" line); [|discriminate].
  destruct (nth_error (PyStr.split "time=" line) 1) as [after|];
    [|discriminate].
  destruct (nth_error (PyStr.split_ws after) 0) as [time_str|];
    [|discriminate].
  destruct (PyStr.split ":" time_str) as [|a [|b [|c [|d l]]]];
    try discriminate.
  destruct (float_of_string E a) as [h|] eqn:Ha; [|discriminate].
  destruct (float_of_string E b) as [m|] eqn:Hb; [|discriminate].
  destruct (float_of_string E c) as [sec|] eqn:Hc; [|discriminate].
  destruct (div_result _ total) as [e|ratio] eqn:Hdiv; [discriminate|].
  destruct (int_result _) as [e|percent] eqn:Hint; [discriminate|].
  intros H. injection H as <-.
  exists a, b, c, h, m, sec. repeat split; try assumption.
  exists ratio, percent. repeat split; assumption.
Qed.

Lemma line_progress_bounded (total : PyNum.number) (line : string) (p : Z) :
  line_progress E total line = inr (Some p) -> (p <= 100)%Z.
Proof.
  intros H. apply line_progress_marker in H
    as (a & b & c & h & m & sec & _ & _ & _ & _ & ratio & percent & _ & _ & ->).
  lia.
Qed.

Lemma line_progress_no_division_error (total : PyNum.number) (line : string) :
  PyNum.truthy total = true ->
  line_progress E total line <> inl ZeroDivisionError.
Proof.
  unfold line_progress. intros Ht.
  destruct (PyStr.contains "time=" line); [|discriminate].
  destruct (nth_error (PyStr.split "time=" line) 1) as [after|];
    [|discriminate].
  destruct (nth_error (PyStr.split_ws after) 0) as [time_str|];
    [|discriminate].
  destruct (PyStr.split ":" time_str) as [|a [|b [|c [|d l]]]];
    try discriminate.
  destruct (float_of_string E a) as [h|]; [|discriminate].
  destruct (float_of_string E b) as [m|]; [|discriminate].
  destruct (float_of_string E c) as [sec|]; [|discriminate].
  pose proof (div_never_by_zero (elapsed_seconds h m sec) total Ht) as Hdiv.
  destruct (div_result _ total) as [e|ratio]; [congruence|].
  destruct (int_result _) as [e|percent] eqn:Hint; [|discriminate].
  apply int_result_error in Hint. destruct Hint; congruence.
Qed.

Lemma loop_trace (total : PyNum.number) (lines : list string) (last : Z) (s : fs) :
  final_fs (progress_loop E total lines last s) = s
  /\ StronglySorted Z.lt
       (pbar_positions last (trace (progress_loop E total lines last s)))
  /\ List.Forall (fun v => (last < v)%Z)
       (pbar_positions last (trace (progress_loop E total lines last s)))
  /\ List.Forall
       (fun v => exists line,
                   In line lines /\ line_progress E total line = inr (Some v))
       (pbar_positions last (trace (progress_loop E total lines last s))).
Proof.
  revert last; induction lines as [|line rest IH]; intros last.
  - repeat split; constructor.
  - rewrite progress_loop_step.
    assert (Hskip :
      final_fs (prepend [EvReadline line]
                  (progress_loop E total rest last s)) = s
      /\ StronglySorted Z.lt
           (pbar_positions last
              (trace (prepend [EvReadline line]
                        (progress_loop E total rest last s))))
      /\ List.Forall (fun v => (last < v)%Z)
           (pbar_positions last
              (trace (prepend [EvReadline line]
                        (progress_loop E total rest last s))))
      /\ List.Forall
           (fun v => exists l,
                       In l (line :: rest)
                       /\ line_progress E total l = inr (Some v))
           (pbar_positions last
              (trace (prepend [EvReadline line]
                        (progress_loop E total rest last s))))).
    { destruct (IH last) as (Hfs & Hsorted & Hgt & Hsrc).
      rewrite final_fs_prepend, trace_prepend. simpl.
      repeat split; auto.
      eapply List.Forall_impl; [|exact Hsrc].
      intros v (l & Hin & Hl). exists l. split; [now right | exact Hl]. }
    destruct (PyStr.is_empty line); [repeat split; constructor|].
    destruct (line_progress E total line) as [e|[p|]] eqn:Hline.
    + repeat split; constructor.
    + destruct (last <? p)%Z eqn:Hlt; [|exact Hskip].
      apply Z.ltb_lt in Hlt.
      destruct (IH p) as (Hfs & Hsorted & Hgt & Hsrc).
      rewrite final_fs_prepend, trace_prepend. simpl.
      replace (last + (p - last))%Z with p by lia.
      split; [exact Hfs|]. split; [|split].
      * constructor; assumption.
      * constructor; [exact Hlt|].
        eapply List.Forall_impl; [|exact Hgt]. simpl. intros; lia.
      * constructor.
        -- exists line. split; [now left | exact Hline].
        -- eapply List.Forall_impl; [|exact Hsrc].
           intros v (l & Hin & Hl). exists l. split; [now right | exact Hl].
    + exact Hskip.
Qed.

End ProgressLoop.


(** ** One merge *)

Section Merge.
Import Eff Gopro.

Variable E : Env.

Lemma create_concat_file_run (video_paths : list string) (cf : string) (s : fs) :
  create_concat_file E video_paths cf s =
  if open_fails E cf then (s, [], inl OSError)
  else ({[cf]} ∪ s,
        [EvWriteFile cf (List.map (concat_line E) video_paths)], inr tt).
Proof.
  unfold create_concat_file. destruct (open_fails E cf); reflexivity.
Qed.

Lemma popen_run (cmd : list string) (s : fs) :
  popen E cmd s =
  match run E cmd with
  | NotFound => (s, [EvPopen cmd], inl FileNotFoundError)
  | Exited rc _ err => (s, [EvPopen cmd], inr (err, rc))
  end.
Proof.
  unfold popen. rewrite bind_emit. destruct (run E cmd); reflexivity.
Qed.

Lemma os_remove_run (path : string) (s : fs) :
  os_remove E path s =
  if bool_decide (path ∈ s) then
    if remove_fails E path then (s, [EvRemove path], inl OSError)
    else (s ∖ {[path]}, [EvRemove path], inr tt)
  else (s, [EvRemove path], inl FileNotFoundError).
Proof.
  unfold os_remove. rewrite bind_emit. unfold exists_file, bind.
  destruct (bool_decide (path ∈ s)); [|reflexivity].
  destruct (remove_fails E path); reflexivity.
Qed.

Lemma finish_merge_run (cf out : string) (rc : Z) (s : fs) :
  finish_merge E cf out rc s =
  if bool_decide (cf ∈ s) then
    if remove_fails E cf then (s, [EvWait; EvRemove cf], inl OSError)
    else (s ∖ {[cf]},
          [EvWait; EvRemove cf;
           EvPrint (if (rc =? 0)%Z then MsgMerged out else MsgMergeReturned rc)],
          inr tt)
  else (s, [EvWait; EvRemove cf], inl FileNotFoundError).
Proof.
  unfold finish_merge. rewrite bind_emit, bind_run, os_remove_run.
  destruct (bool_decide (cf ∈ s)); [|reflexivity].
  destruct (remove_fails E cf); [reflexivity|].
  destruct (rc =? 0)%Z; reflexivity.
Qed.

Lemma show_progress_run (out : string) (total : option PyNum.number)
    (stderr : list string) (s : fs) :
  show_progress E out total stderr s =
  if duration_truthy total then
    match total with
    | Some t =>
        match outcome (progress_loop E t stderr 0 s) with
        | inl e =>
            (s,
             EvPbarOpen (String.append "Merging " (OsPath.basename out))
               :: trace (progress_loop E t stderr 0 s),
             inl e)
        | inr _ =>
            (s,
             EvPbarOpen (String.append "Merging " (OsPath.basename out))
               :: trace (progress_loop E t stderr 0 s) ++ [EvPbarClose],
             inr tt)
        end
    | None => (s, [], inr tt)
    end
  else (s, [], inr tt).
Proof.
  unfold show_progress, duration_truthy.
  destruct total as [t|]; [|reflexivity].
  destruct (PyNum.truthy t); [|reflexivity].
  rewrite bind_emit, bind_run.
  destruct (loop_trace E t stderr 0 s) as [Hfs _].
  rewrite Hfs.
  destruct (outcome (progress_loop E t stderr 0 s)) as [e|[]];
    reflexivity.
Qed.

Lemma merge_try_block_run (video_paths : list string) (out : string)
    (total : option PyNum.number) (s : fs) :
  merge_try_block E video_paths out total s =
  if open_fails E (String.append out ".txt") then (s, [], inl OSError)
  else
    match run E (ffmpeg_cmd (String.append out ".txt") out) with
    | NotFound =>
        ({[String.append out ".txt"]} ∪ s,
         [EvWriteFile (String.append out ".txt")
            (List.map (concat_line E) video_paths);
          EvPopen (ffmpeg_cmd (String.append out ".txt") out)],
         inl FileNotFoundError)
    | Exited rc _ err =>
        prepend
          [EvWriteFile (String.append out ".txt")
             (List.map (concat_line E) video_paths);
           EvPopen (ffmpeg_cmd (String.append out ".txt") out)]
          (bind (show_progress E out total err)
                (fun _ => finish_merge E (String.append out ".txt") out rc)
                ({[String.append out ".txt"]} ∪ s))
    end.
Proof.
  unfold merge_try_block. rewrite bind_run, create_concat_file_run.
  destruct (open_fails E (String.append out ".txt")); [reflexivity|].
  cbn [outcome final_fs trace fst snd].
  rewrite bind_run, popen_run.
  destruct (run E _) as [|rc o err]; [reflexivity|].
  cbn [outcome final_fs trace fst snd]. rewrite prepend_prepend. reflexivity.
Qed.

Lemma try_except_any_run {A} (m : M A) (h : exn -> M A) (s : fs) :
  try_except m any_exception h s =
  match outcome (m s) with
  | inl e => prepend (trace (m s)) (h e (final_fs (m s)))
  | inr _ => m s
  end.
Proof.
  unfold try_except, any_exception, prepend, outcome, trace, final_fs.
  destruct (m s) as [[s1 t1] [e|a]]; simpl; [|reflexivity].
  now destruct (h e s1) as [[? ?] ?].
Qed.

Lemma merge_never_raises (video_paths : list string) (out : string)
    (total : option PyNum.number) (s : fs) :
  outcome (merge_videos_fast E video_paths out total s) = inr tt.
Proof.
  unfold merge_videos_fast. rewrite try_except_any_run.
  destruct (outcome (merge_try_block E video_paths out total s))
    as [e|[]] eqn:Ho; [reflexivity | exact Ho].
Qed.

End Merge.

Lemma pbar_positions_app_quiet (n : Z) (t u : list Eff.event) :
  (forall m, Gopro.pbar_positions m u = []) ->
  Gopro.pbar_positions n (t ++ u) = Gopro.pbar_positions n t.
Proof.
  intros Hu. revert n; induction t as [|e t IH]; intros n; simpl.
  - apply Hu.
  - destruct e; try apply IH. now rewrite IH.
Qed.

Section MergeProgress.
Import Eff Gopro.

Variable E : Env.

(** The bar positions of a merge are those of its read loop. *)
Lemma merge_positions (video_paths : list string) (out : string)
    (total : option PyNum.number) (s : fs) :
  pbar_positions 0 (trace (merge_videos_fast E video_paths out total s)) =
  if open_fails E (String.append out ".txt") then []
  else
    match run E (ffmpeg_cmd (String.append out ".txt") out), total with
    | Exited _ _ err, Some t =>
        if PyNum.truthy t then
          pbar_positions 0
            (trace (progress_loop E t err 0
                      ({[String.append out ".txt"]} ∪ s)))
        else []
    | _, _ => []
    end.
Proof.
  unfold merge_videos_fast.
  rewrite try_except_any_run, merge_try_block_run.
  destruct (open_fails E (String.append out ".txt")); [reflexivity|].
  destruct (run E _) as [|rc o err]; [reflexivity|].
  rewrite bind_run, show_progress_run, finish_merge_run.
  destruct total as [t|]; cbn [duration_truthy].
  2:{ cbn [outcome final_fs trace fst snd prepend].
      destruct (bool_decide _); [destruct (remove_fails E _)|]; reflexivity. }
  destruct (PyNum.truthy t).
  2:{ cbn [outcome final_fs trace fst snd prepend].
      destruct (bool_decide _); [destruct (remove_fails E _)|]; reflexivity. }
  destruct (outcome (progress_loop E t err 0 _)) as [e|u].
  - cbn [outcome final_fs trace fst snd prepend print bind emit List.app].
    cbn [pbar_positions].
    apply pbar_positions_app_quiet. reflexivity.
  - cbn [outcome final_fs trace fst snd prepend].
    destruct (bool_decide _); [destruct (remove_fails E _)|];
      cbn [outcome final_fs trace fst snd prepend print bind emit List.app];
      cbn [pbar_positions];
      rewrite <- ?List.app_assoc;
      apply pbar_positions_app_quiet; reflexivity.
Qed.

End MergeProgress.

Lemma sorted_adjacent (pre post : list Z) (v w : Z) :
  StronglySorted Z.lt (pre ++ v :: w :: post) -> (v < w)%Z.
Proof.
  induction pre as [|x pre IH]; simpl; intros H.
  - inversion H as [|? ? _ Hall]; subst.
    now inversion Hall.
  - inversion H; subst. auto.
Qed.

(** ** Progress *)

(** C1, as the code has it.  With a total duration above zero, the values
    the progress bar shows during one merge are strictly increasing and lie
    in [0,100], so none is shown twice in a row; each of them is
    [min(100, floor(x))] for a diagnostic line of the merge process whose
    [time=] marker reads [h:m:s], where [x] is the float the code computes:
    [h*3600 + m*60 + s], divided by the total, times [100], each operation
    rounded to a double. *)
Theorem progress_values (E : Eff.Env) (video_paths : list string)
    (output_path : string) (total_duration : PyNum.number) (s : gset string) :
  PyNum.positive total_duration = true ->
  let shown :=
    Gopro.pbar_positions 0
      (Eff.trace
         (Gopro.merge_videos_fast E video_paths output_path
            (Some total_duration) s)) in
  StronglySorted Z.lt shown
  /\ List.Forall (fun v => (0 <= v <= 100)%Z) shown
  /\ (forall pre v w post, shown = pre ++ v :: w :: post -> (v < w)%Z)
  /\ List.Forall
       (fun v =>
          exists rc out err line a b c hours minutes seconds whole,
            Eff.run E
              (Gopro.ffmpeg_cmd (String.append output_path ".txt") output_path)
            = Eff.Exited rc out err
            /\ In line err
            /\ Gopro.time_marker line = Some (a, b, c)
            /\ Eff.float_of_string E a = Some hours
            /\ Eff.float_of_string E b = Some minutes
            /\ Eff.float_of_string E c = Some seconds
            /\ PyNum.floor
                 (PyNum.fmul
                    (PyNum.fdiv
                       (PyNum.fadd
                          (PyNum.fadd (PyNum.fmul hours (PyNum.of_Z 3600))
                                      (PyNum.fmul minutes (PyNum.of_Z 60)))
                          seconds)
                       (PyNum.to_float total_duration))
                    (PyNum.of_Z 100))
               = Some whole
            /\ v = Z.min 100 whole)
       shown.
Proof.
  intros Hpos shown.
  assert (Hshown :
    shown = [] \/
    exists rc out err s',
      Eff.run E (Gopro.ffmpeg_cmd (String.append output_path ".txt") output_path)
      = Eff.Exited rc out err
      /\ shown = Gopro.pbar_positions 0
                   (Eff.trace (Gopro.progress_loop E total_duration err 0 s'))).
  { unfold shown. rewrite merge_positions.
    destruct (Eff.open_fails E _); [now left|].
    destruct (Eff.run E _) as [|rc out err]; [now left|].
    rewrite (positive_duration_truthy _ Hpos).
    right. now exists rc, out, err, ({[String.append output_path ".txt"]} ∪ s). }
  destruct Hshown as [->|(rc & out & err & s' & Hrun & ->)].
  { repeat split; try constructor.
    intros pre v w post H. now destruct pre. }
  destruct (loop_trace E total_duration err 0 s') as (_ & Hsorted & Hgt & Hsrc).
  assert (Hvalue :
    List.Forall
      (fun v =>
         (0 < v <= 100)%Z /\
         exists line a b c hours minutes seconds whole,
           In line err
           /\ Gopro.time_marker line = Some (a, b, c)
           /\ Eff.float_of_string E a = Some hours
           /\ Eff.float_of_string E b = Some minutes
           /\ Eff.float_of_string E c = Some seconds
           /\ PyNum.floor
                (PyNum.fmul
                   (PyNum.fdiv (Gopro.elapsed_seconds hours minutes seconds)
                               (PyNum.to_float total_duration))
                   (PyNum.of_Z 100))
              = Some whole
           /\ v = Z.min 100 whole)
      (Gopro.pbar_positions 0
         (Eff.trace (Gopro.progress_loop E total_duration err 0 s')))).
  { rewrite List.Forall_forall in *. intros v Hv.
    specialize (Hgt v Hv). destruct (Hsrc v Hv) as (line & Hin & Hline).
    apply line_progress_marker in Hline
      as (a & b & c & h & m & sec & Hm & Ha & Hb & Hc
          & ratio & percent & Hdiv & Hint & Hval).
    apply div_result_value in Hdiv. subst ratio.
    apply int_of_float_floor in Hint; [|lia].
    split; [lia|]. exists line, a, b, c, h, m, sec, percent. auto 10. }
  split; [exact Hsorted|]. split; [|split].
  - eapply List.Forall_impl; [|exact Hvalue]. simpl. intros v [Hb _]. lia.
  - intros pre v w post Heq. rewrite Heq in Hsorted.
    eapply sorted_adjacent; exact Hsorted.
  - eapply List.Forall_impl; [|exact Hvalue].
    intros v [_ (line & a & b & c & h & m & sec & whole & H)].
    exists rc, out, err, line, a, b, c, h, m, sec, whole. tauto.
Qed.

Lemma progress_values_witness :
  PyNum.positive (Scenario.seconds 10) = true
  /\ StronglySorted Z.lt
       (Gopro.pbar_positions 0
          (Eff.trace
             (Gopro.merge_videos_fast Scenario.steady_env
                ["./GH010001.MP4"; "./GH020001.MP4"]
                "./processed_videos/0001.MP4" (Some (Scenario.seconds 10)) ∅))).
Proof.
  split; [reflexivity|].
  exact (proj1 (progress_values Scenario.steady_env
                  ["./GH010001.MP4"; "./GH020001.MP4"]
                  "./processed_videos/0001.MP4" (Scenario.seconds 10) ∅ eq_refl)).
Defined.

(** The value shown is not the floor of the exact quotient.  ffmpeg reports
    [time=00:00:29.00] in a merge of [100.0] seconds: the three fields and
    the total are exact as floats, [29.0 / 100.0] is rounded to a double
    below 0.29, and the bar shows [28] where
    [min(100, floor(29 / 100 * 100))] is [29]. *)
Lemma exact_quotient_is_not_shown :
  PyNum.positive (Scenario.seconds 100) = true
  /\ PyNum.exact_value (PyNum.to_float (Scenario.seconds 100)) = Some 100%Q
  /\ Eff.run Scenario.rounding_env
       (Gopro.ffmpeg_cmd "./processed_videos/0001.MP4.txt"
          "./processed_videos/0001.MP4")
     = Eff.Exited 0 EmptyString [Scenario.rounding_line]
  /\ Gopro.time_marker Scenario.rounding_line = Some ("00", "00", "29.00")
  /\ PyNum.literal_value "00" = Some 0%Q
  /\ PyNum.literal_value "29.00" = Some (Qmake 2900 100)
  /\ Eff.float_of_string Scenario.rounding_env "00" = Some (PyNum.of_Z 0)
  /\ Eff.float_of_string Scenario.rounding_env "29.00" = Some (PyNum.of_Z 29)
  /\ Observe.exact_percent 0 0 (Qmake 2900 100) 100 = 29%Z
  /\ Gopro.pbar_positions 0
       (Eff.trace
          (Gopro.merge_videos_fast Scenario.rounding_env
             ["./GH010001.MP4"; "./GH020001.MP4"]
             "./processed_videos/0001.MP4" (Some (Scenario.seconds 100)) ∅))
     = [28%Z]
  /\ ~ List.Forall
         (fun v => v = Observe.exact_percent 0 0 (Qmake 2900 100) 100)
         (Gopro.pbar_positions 0
            (Eff.trace
               (Gopro.merge_videos_fast Scenario.rounding_env
                  ["./GH010001.MP4"; "./GH020001.MP4"]
                  "./processed_videos/0001.MP4"
                  (Some (Scenario.seconds 100)) ∅))).
Proof.
  assert (Hshown :
    Gopro.pbar_positions 0
      (Eff.trace
         (Gopro.merge_videos_fast Scenario.rounding_env
            ["./GH010001.MP4"; "./GH020001.MP4"] "./processed_videos/0001.MP4"
            (Some (Scenario.seconds 100)) ∅)) = [28%Z])
    by (vm_compute; reflexivity).
  rewrite Hshown.
  do 10 (split; [vm_compute; reflexivity|]).
  intros H. inversion H as [|? ? Hv _]. vm_compute in Hv. discriminate.
Qed.

(** The same in a whole run: two parts of 50 seconds each, one report at
    29 seconds. *)
Example rounding_run_positions :
  Gopro.pbar_positions 0
    (Eff.trace (Gopro.process_gopro_videos Scenario.rounding_env "." true ∅))
  = [28%Z].
Proof. vm_compute. reflexivity. Qed.

Example steady_run_positions :
  Gopro.pbar_positions 0
    (Eff.trace
       (Gopro.merge_videos_fast Scenario.steady_env
          ["./GH010001.MP4"; "./GH020001.MP4"]
          "./processed_videos/0001.MP4" (Some (Scenario.seconds 10)) ∅))
  = [10; 55; 100]%Z.
Proof. vm_compute. reflexivity. Qed.

(** ** The guard on the total duration *)

Section Guard.
Import Eff Gopro.

Variable E : Env.

Lemma loop_no_division_error (total : PyNum.number) (lines : list string) (last : Z)
    (s : fs) :
  PyNum.truthy total = true ->
  outcome (progress_loop E total lines last s) <> inl ZeroDivisionError.
Proof.
  intros Ht. revert last; induction lines as [|line rest IH]; intros last.
  - discriminate.
  - rewrite progress_loop_step.
    destruct (PyStr.is_empty line); [discriminate|].
    pose proof (line_progress_no_division_error E total line Ht) as Hline.
    destruct (line_progress E total line) as [e|[p|]].
    + simpl. congruence.
    + destruct (last <? p)%Z; rewrite outcome_prepend; apply IH.
    + rewrite outcome_prepend. apply IH.
Qed.

Lemma show_progress_no_division_error (out : string) (total : option PyNum.number)
    (stderr : list string) (s : fs) :
  outcome (show_progress E out total stderr s) <> inl ZeroDivisionError.
Proof.
  rewrite show_progress_run.
  destruct (duration_truthy total) eqn:Ht; [|discriminate].
  destruct total as [t|]; [|discriminate]. cbn [duration_truthy] in Ht.
  pose proof (loop_no_division_error t stderr 0 s Ht) as Hloop.
  destruct (outcome (progress_loop E t stderr 0 s)) as [e|u];
    cbn [outcome snd]; congruence.
Qed.

Lemma finish_merge_no_division_error (cf out : string) (rc : Z) (s : fs) :
  outcome (finish_merge E cf out rc s) <> inl ZeroDivisionError.
Proof.
  rewrite finish_merge_run.
  destruct (bool_decide _); [destruct (remove_fails E _)|]; discriminate.
Qed.

Lemma try_block_no_division_error (video_paths : list string) (out : string)
    (total : option PyNum.number) (s : fs) :
  outcome (merge_try_block E video_paths out total s)
  <> inl ZeroDivisionError.
Proof.
  rewrite merge_try_block_run.
  destruct (open_fails E _); [discriminate|].
  destruct (run E _) as [|rc o err]; [discriminate|].
  rewrite outcome_prepend, bind_run.
  pose proof (show_progress_no_division_error out total err
                ({[String.append out ".txt"]} ∪ s)) as Hshow.
  destruct (outcome (show_progress E out total err _)) as [e|u].
  - cbn [outcome snd]. congruence.
  - rewrite outcome_prepend. apply finish_merge_no_division_error.
Qed.

Lemma merge_without_duration (video_paths : list string) (out : string)
    (total : option PyNum.number) (s : fs) :
  duration_truthy total = false ->
  List.Forall (fun e => is_progress_event e = false)
    (trace (merge_videos_fast E video_paths out total s)).
Proof.
  intros Ht. unfold merge_videos_fast.
  rewrite try_except_any_run, merge_try_block_run.
  destruct (open_fails E _); [repeat constructor|].
  destruct (run E _) as [|rc o err]; [repeat constructor|].
  rewrite bind_run, show_progress_run, finish_merge_run, Ht.
  cbn [outcome final_fs trace fst snd prepend].
  destruct (bool_decide _); [destruct (remove_fails E _)|];
    repeat constructor.
Qed.

End Guard.

(** C10.  The division by the total duration sits behind [if
    total_duration:]: the [try] block of a merge never raises
    [ZeroDivisionError], whatever the total and the diagnostic lines; and
    when the total is [None] or [0] the merge opens no progress bar, reads
    no diagnostic line and shows no progress. *)
Theorem division_is_guarded (E : Eff.Env) (video_paths : list string)
    (output_path : string) (total_duration : option PyNum.number) (s : gset string) :
  Eff.outcome (Gopro.merge_try_block E video_paths output_path
                 total_duration s)
  <> inl Eff.ZeroDivisionError
  /\ (Gopro.duration_truthy total_duration = false ->
      List.Forall (fun e => Eff.is_progress_event e = false)
        (Eff.trace (Gopro.merge_videos_fast E video_paths output_path
                      total_duration s))
      /\ Gopro.pbar_positions 0
           (Eff.trace (Gopro.merge_videos_fast E video_paths output_path
                         total_duration s)) = []).
Proof.
  split; [apply try_block_no_division_error|].
  intros Ht. split; [now apply merge_without_duration|].
  rewrite merge_positions.
  destruct (Eff.open_fails E _); [reflexivity|].
  destruct (Eff.run E _); [reflexivity|].
  destruct total_duration as [t|]; [|reflexivity].
  cbn [Gopro.duration_truthy] in Ht. now rewrite Ht.
Qed.

Lemma division_is_guarded_witness :
  Gopro.duration_truthy (Some (PyNum.PInt 0)) = false
  /\ List.Forall (fun e => Eff.is_progress_event e = false)
       (Eff.trace
          (Gopro.merge_videos_fast Scenario.steady_env
             ["./GH010001.MP4"; "./GH020001.MP4"]
             "./processed_videos/0001.MP4" (Some (PyNum.PInt 0)) ∅)).
Proof.
  split; [reflexivity|].
  exact (proj1 (proj2 (division_is_guarded Scenario.steady_env
                         ["./GH010001.MP4"; "./GH020001.MP4"]
                         "./processed_videos/0001.MP4" (Some (PyNum.PInt 0)) ∅)
                 eq_refl)).
Defined.

Example merge_with_zero_duration :
  Eff.trace
    (Gopro.merge_videos_fast Scenario.steady_env
       ["./GH010001.MP4"; "./GH020001.MP4"]
       "./processed_videos/0001.MP4" (Some (PyNum.PInt 0)) ∅)
  = [Eff.EvWriteFile "./processed_videos/0001.MP4.txt"
       [String.append "file '/videos/./GH010001.MP4'" Scenario.nl;
        String.append "file '/videos/./GH020001.MP4'" Scenario.nl];
     Eff.EvPopen
       (Gopro.ffmpeg_cmd "./processed_videos/0001.MP4.txt"
          "./processed_videos/0001.MP4");
     Eff.EvWait;
     Eff.EvRemove "./processed_videos/0001.MP4.txt";
     Eff.EvPrint (Eff.MsgMerged "./processed_videos/0001.MP4")].
Proof. vm_compute. reflexivity. Qed.

(** ** The duration probe *)

(** C7.  [get_video_duration] always returns a number and never raises: it
    runs the probe once, leaves the files alone, and returns [0] when the
    binary is missing, when it exits with a non-zero status, when its
    output cannot be decoded, or when the output is not a number;
    otherwise it returns the float read. *)
Theorem probe_never_raises (E : Eff.Env) (filepath : string) (s : gset string) :
  exists q,
    Gopro.get_video_duration E filepath s
    = (s, [Eff.EvCheckOutput (Gopro.ffprobe_cmd filepath)], inr q)
    /\ (Eff.run E (Gopro.ffprobe_cmd filepath) = Eff.NotFound -> q = PyNum.PInt 0)
    /\ (forall rc out err,
          Eff.run E (Gopro.ffprobe_cmd filepath) = Eff.Exited rc out err ->
          rc <> 0%Z -> q = PyNum.PInt 0)
    /\ (forall out err,
          Eff.run E (Gopro.ffprobe_cmd filepath) = Eff.Exited 0 out err ->
          Eff.decode E out = None -> q = PyNum.PInt 0)
    /\ (forall out err decoded,
          Eff.run E (Gopro.ffprobe_cmd filepath) = Eff.Exited 0 out err ->
          Eff.decode E out = Some decoded ->
          Eff.float_of_string E (PyStr.strip decoded) = None -> q = PyNum.PInt 0)
    /\ (forall out err decoded v,
          Eff.run E (Gopro.ffprobe_cmd filepath) = Eff.Exited 0 out err ->
          Eff.decode E out = Some decoded ->
          Eff.float_of_string E (PyStr.strip decoded) = Some v ->
          q = PyNum.PFloat v).
Proof.
  unfold Gopro.get_video_duration, Gopro.check_output, Gopro.bytes_decode,
    Gopro.float.
  rewrite try_except_any_run, bind_assoc, bind_emit.
  destruct (Eff.run E (Gopro.ffprobe_cmd filepath)) as [|rc out err] eqn:Hrun.
  { exists (PyNum.PInt 0). split; [reflexivity|]. repeat split; intros; congruence. }
  destruct (rc =? 0)%Z eqn:Hrc.
  2:{ exists (PyNum.PInt 0). split; [reflexivity|].
      apply Z.eqb_neq in Hrc. repeat split; intros; congruence. }
  apply Z.eqb_eq in Hrc. subst rc. mstep.
  destruct (Eff.decode E out) as [decoded|] eqn:Hdec.
  2:{ exists (PyNum.PInt 0). split; [reflexivity|]. repeat split; intros; congruence. }
  mstep.
  destruct (Eff.float_of_string E (PyStr.strip decoded)) as [v|] eqn:Hfloat.
  - exists (PyNum.PFloat v). split; [reflexivity|]. repeat split; intros; congruence.
  - exists (PyNum.PInt 0). split; [reflexivity|]. repeat split; intros; congruence.
Qed.

Example probe_reads_duration :
  Gopro.get_video_duration Scenario.steady_env "./GH010001.MP4" ∅
  = (∅, [Eff.EvCheckOutput (Gopro.ffprobe_cmd "./GH010001.MP4")],
     inr (PyNum.PFloat (PyNum.of_Z 5))).
Proof. vm_compute. reflexivity. Qed.

Example probe_without_binary :
  Gopro.get_video_duration Scenario.no_ffmpeg_env "./GH010001.MP4" ∅
  = (∅, [Eff.EvCheckOutput (Gopro.ffprobe_cmd "./GH010001.MP4")], inr (PyNum.PInt 0)).
Proof. vm_compute. reflexivity. Qed.

Example probe_unparsable_output :
  Gopro.get_video_duration
    (Scenario.env_of [] (Scenario.binaries "N/A" [] 0) Scenario.never_fails)
    "./GH010001.MP4" ∅
  = (∅, [Eff.EvCheckOutput (Gopro.ffprobe_cmd "./GH010001.MP4")], inr (PyNum.PInt 0)).
Proof. vm_compute. reflexivity. Qed.

(** ** The plan file *)

Section PlanFile.
Import Eff Gopro.

Variable E : Env.

Lemma show_progress_keeps_files (out : string) (total : option PyNum.number)
    (stderr : list string) (s : fs) :
  final_fs (show_progress E out total stderr s) = s.
Proof.
  rewrite show_progress_run.
  destruct (duration_truthy total); [|reflexivity].
  destruct total as [t|]; [|reflexivity].
  destruct (outcome (progress_loop E t stderr 0 s)); reflexivity.
Qed.

(** When the [try] block runs to its end, the plan file is gone. *)
Lemma plan_file_removed_on_completion (video_paths : list string)
    (out : string) (total : option PyNum.number) (s : fs) :
  outcome (merge_try_block E video_paths out total s) = inr tt ->
  String.append out ".txt"
    ∉ final_fs (merge_try_block E video_paths out total s).
Proof.
  rewrite merge_try_block_run.
  destruct (open_fails E _); [discriminate|].
  destruct (run E _) as [|rc o err]; [discriminate|].
  rewrite outcome_prepend, final_fs_prepend, bind_run.
  destruct (outcome (show_progress E out total err _)); [discriminate|].
  rewrite outcome_prepend, final_fs_prepend, finish_merge_run.
  destruct (bool_decide _); [destruct (remove_fails E _)|];
    try discriminate.
  intros _. cbn [final_fs fst].
  apply not_elem_of_difference. right. now apply elem_of_singleton.
Qed.

(** When the process cannot be started, the plan file stays. *)
Lemma plan_file_left_when_popen_fails (video_paths : list string)
    (out : string) (total : option PyNum.number) (s : fs) :
  open_fails E (String.append out ".txt") = false ->
  run E (ffmpeg_cmd (String.append out ".txt") out) = NotFound ->
  String.append out ".txt"
    ∈ final_fs (merge_videos_fast E video_paths out total s).
Proof.
  intros Hopen Hrun. unfold merge_videos_fast.
  rewrite try_except_any_run, merge_try_block_run, Hopen, Hrun.
  cbn. set_solver.
Qed.

End PlanFile.

(** C4 at a failing input: [ffmpeg] is not installed.  The plan file is
    written, [Popen] raises, the handler prints the error, and the file is
    still there when [merge_videos_fast] returns. *)
Theorem plan_file_left_behind :
  Eff.trace
    (Gopro.merge_videos_fast Scenario.no_ffmpeg_env
       ["./GH010001.MP4"; "./GH020001.MP4"]
       "./processed_videos/0001.MP4" (Some (Scenario.seconds 10)) ∅)
  = [Eff.EvWriteFile "./processed_videos/0001.MP4.txt"
       [String.append "file '/videos/./GH010001.MP4'" Scenario.nl;
        String.append "file '/videos/./GH020001.MP4'" Scenario.nl];
     Eff.EvPopen
       (Gopro.ffmpeg_cmd "./processed_videos/0001.MP4.txt"
          "./processed_videos/0001.MP4");
     Eff.EvPrint (Eff.MsgMergeError Eff.FileNotFoundError)]
  /\ elements
       (Eff.final_fs
          (Gopro.merge_videos_fast Scenario.no_ffmpeg_env
             ["./GH010001.MP4"; "./GH020001.MP4"]
             "./processed_videos/0001.MP4" (Some (Scenario.seconds 10)) ∅))
     = ["./processed_videos/0001.MP4.txt"].
Proof. split; vm_compute; reflexivity. Qed.

(** A line whose marker cannot be read ends the loop with the exception:
    none of the lines after it is looked at. *)
Lemma unreadable_line_stops_loop (E : Eff.Env) (total : PyNum.number) (line : string)
    (rest : list string) (last : Z) (s : gset string) (e : Eff.exn) :
  PyStr.is_empty line = false ->
  Gopro.line_progress E total line = inl e ->
  Gopro.progress_loop E total (line :: rest) last s
  = (s, [Eff.EvReadline line], inl e).
Proof.
  intros Hline He. now rewrite progress_loop_step, Hline, He.
Qed.

(** C5 at a failing input: the first diagnostic line carries [time=N/A].
    [float] raises [ValueError], which leaves the read loop and the [try]
    block: the second line is never read, the process is not waited for,
    the plan file is not removed, and the merge is reported as failed. *)
Theorem malformed_marker_aborts_merge :
  Eff.trace
    (Gopro.merge_videos_fast Scenario.na_env
       ["./GH010001.MP4"; "./GH020001.MP4"]
       "./processed_videos/0001.MP4" (Some (Scenario.seconds 10)) ∅)
  = [Eff.EvWriteFile "./processed_videos/0001.MP4.txt"
       [String.append "file '/videos/./GH010001.MP4'" Scenario.nl;
        String.append "file '/videos/./GH020001.MP4'" Scenario.nl];
     Eff.EvPopen
       (Gopro.ffmpeg_cmd "./processed_videos/0001.MP4.txt"
          "./processed_videos/0001.MP4");
     Eff.EvPbarOpen "Merging 0001.MP4";
     Eff.EvReadline
       (String.append "frame=0 fps=0.0 size=0kB time=N/A bitrate=N/A"
          Scenario.nl);
     Eff.EvPrint (Eff.MsgMergeError Eff.ValueError)]
  /\ elements
       (Eff.final_fs
          (Gopro.merge_videos_fast Scenario.na_env
             ["./GH010001.MP4"; "./GH020001.MP4"]
             "./processed_videos/0001.MP4" (Some (Scenario.seconds 10)) ∅))
     = ["./processed_videos/0001.MP4.txt"].
Proof. split; vm_compute; reflexivity. Qed.

(** ** The batch *)

Section Batch.
Import Eff Gopro.

Variable E : Env.


Lemma for_each_total {A} (l : list A) (body : A -> M unit) (s : fs) :
  (forall a s', outcome (body a s') = inr tt) ->
  outcome (for_each l body s) = inr tt.
Proof.
  intros Hbody. revert s; induction l as [|a l IH]; intros s; [reflexivity|].
  simpl. rewrite bind_run, Hbody, outcome_prepend. apply IH.
Qed.

Lemma shutil_copy2_run (src dst : string) (s : fs) :
  shutil_copy2 E src dst s =
  if copy2_fails E src dst then (s, [EvCopy2 src dst], inl OSError)
  else ({[dst]} ∪ s, [EvCopy2 src dst], inr tt).
Proof.
  unfold shutil_copy2. rewrite bind_emit.
  destruct (copy2_fails E src dst); reflexivity.
Qed.

(** In rename mode a failed copy is reported and the loop goes on. *)
Lemma rename_one_part_run (output_directory video_number : string)
    (part_number : nat) (old_path : string) (s : fs) :
  rename_one_part E output_directory video_number (part_number, old_path) s =
  let new_filename :=
    mp4_name (String.append video_number
                (String.append "_" (PyNum.str_of_nat part_number))) in
  let new_path := OsPath.join output_directory new_filename in
  if copy2_fails E old_path new_path then
    (s, [EvCopy2 old_path new_path;
         EvPrint (MsgErrorProcessing (OsPath.basename old_path) OSError)],
     inr tt)
  else
    ({[new_path]} ∪ s,
     [EvCopy2 old_path new_path;
      EvPrint (MsgCopiedRenamed (OsPath.basename old_path) new_filename)],
     inr tt).
Proof.
  unfold rename_one_part, try_except. cbv zeta.
  rewrite bind_run, shutil_copy2_run.
  destruct (copy2_fails E old_path _); reflexivity.
Qed.

Lemma rename_mode_never_raises (output_directory : string)
    (video_groups : Grouper.groups) (s : fs) :
  outcome (process_groups E output_directory video_groups false s) = inr tt.
Proof.
  unfold process_groups. apply for_each_total.
  intros [video_number group_files] s'. unfold rename_one_group.
  apply for_each_total. intros [part_number old_path] s''.
  rewrite rename_one_part_run. cbv zeta.
  destruct (copy2_fails E old_path _); reflexivity.
Qed.

Lemma get_video_duration_returns (filepath : string) (s : fs) :
  exists q,
    get_video_duration E filepath s
    = (s, [EvCheckOutput (ffprobe_cmd filepath)], inr q)
    /\ (PyNum.is_int q = true -> q = PyNum.PInt 0).
Proof.
  unfold get_video_duration, check_output, bytes_decode, float.
  rewrite try_except_any_run, bind_assoc, bind_emit.
  destruct (run E (ffprobe_cmd filepath)) as [|rc out err];
    [now exists (PyNum.PInt 0)|].
  destruct (rc =? 0)%Z; [|now exists (PyNum.PInt 0)].
  mstep. destruct (decode E out) as [decoded|]; [|now exists (PyNum.PInt 0)].
  mstep. destruct (float_of_string E (PyStr.strip decoded)) as [v|];
    [|now exists (PyNum.PInt 0)].
  exists (PyNum.PFloat v). split; [reflexivity | discriminate].
Qed.


(** Probing the parts of a group: one probe per part, in order, and a
    duration for each. *)
Lemma probe_all (file_paths : list string) (s : fs) :
  exists durations,
    map_m (get_video_duration E) file_paths s
    = (s, List.map (fun p => EvCheckOutput (ffprobe_cmd p)) file_paths,
       inr durations)
    /\ List.Forall (fun q => PyNum.is_int q = true -> q = PyNum.PInt 0)
         durations
    /\ List.length durations = List.length file_paths.
Proof.
  induction file_paths as [|p file_paths IH].
  - exists []. repeat split. constructor.
  - destruct IH as (ds & Hds & Hints & Hlen).
    destruct (get_video_duration_returns p s) as (q & Hq & Hq0).
    exists (q :: ds).
    split; [|split; [now constructor | simpl; now rewrite Hlen]].
    cbn [map_m]. rewrite bind_run, Hq.
    cbn [outcome final_fs trace fst snd].
    rewrite bind_run, Hds.
    cbn [outcome final_fs trace fst snd].
    unfold prepend, ret. cbn [fst snd List.app List.map].
    now rewrite List.app_nil_r.
Qed.

End Batch.



(** A whole run in merge mode: the two parts of recording 0001 are probed
    and merged, the single part of 0002 is copied. *)
Example merge_mode_end_to_end :
  Eff.trace (Gopro.process_gopro_videos Scenario.steady_env "." true ∅)
  = [Eff.EvMakedirs "./processed_videos"; Eff.EvListdir ".";
     Eff.EvPrint Eff.MsgProcessing;
     Eff.EvCheckOutput (Gopro.ffprobe_cmd "./GH010001.MP4");
     Eff.EvCheckOutput (Gopro.ffprobe_cmd "./GH020001.MP4");
     Eff.EvPrint (Eff.MsgMergingParts "0001");
     Eff.EvWriteFile "./processed_videos/0001.MP4.txt"
       [String.append "file '/videos/./GH010001.MP4'" Scenario.nl;
        String.append "file '/videos/./GH020001.MP4'" Scenario.nl];
     Eff.EvPopen
       (Gopro.ffmpeg_cmd "./processed_videos/0001.MP4.txt"
          "./processed_videos/0001.MP4");
     Eff.EvPbarOpen "Merging 0001.MP4";
     Eff.EvReadline (List.nth 0 Scenario.steady_lines EmptyString);
     Eff.EvPbarUpdate 10;
     Eff.EvReadline (List.nth 1 Scenario.steady_lines EmptyString);
     Eff.EvPbarUpdate 45;
     Eff.EvReadline (List.nth 2 Scenario.steady_lines EmptyString);
     Eff.EvReadline (List.nth 3 Scenario.steady_lines EmptyString);
     Eff.EvReadline (List.nth 4 Scenario.steady_lines EmptyString);
     Eff.EvPbarUpdate 45;
     Eff.EvReadline EmptyString;
     Eff.EvPbarClose; Eff.EvWait;
     Eff.EvRemove "./processed_videos/0001.MP4.txt";
     Eff.EvPrint (Eff.MsgMerged "./processed_videos/0001.MP4");
     Eff.EvCopy2 "./GH010002.MP4" "./processed_videos/0002.MP4";
     Eff.EvPrint (Eff.MsgCopiedSingle "GH010002.MP4" "0002")].
Proof. vm_compute. reflexivity. Qed.

(** A whole run in rename mode. *)
Example rename_mode_end_to_end :
  Eff.trace (Gopro.process_gopro_videos Scenario.steady_env "." false ∅)
  = [Eff.EvMakedirs "./processed_videos"; Eff.EvListdir ".";
     Eff.EvCopy2 "./GH010001.MP4" "./processed_videos/0001_1.MP4";
     Eff.EvPrint (Eff.MsgCopiedRenamed "GH010001.MP4" "0001_1.MP4");
     Eff.EvCopy2 "./GH020001.MP4" "./processed_videos/0001_2.MP4";
     Eff.EvPrint (Eff.MsgCopiedRenamed "GH020001.MP4" "0001_2.MP4");
     Eff.EvCopy2 "./GH010002.MP4" "./processed_videos/0002_1.MP4";
     Eff.EvPrint (Eff.MsgCopiedRenamed "GH010002.MP4" "0002_1.MP4")].
Proof. vm_compute. reflexivity. Qed.

(** C6 at a failing input: merge mode, two single-part recordings, and the
    copy of the first one fails.  [OSError] leaves the loop and
    [process_gopro_videos]: the second recording is never copied.  Rename
    mode, on the same input, reports the failure and goes on. *)
Theorem single_copy_failure_aborts_batch :
  Gopro.process_gopro_videos Scenario.copy_fail_env "." true ∅
  = ({["./processed_videos"]} ∪ ∅,
     [Eff.EvMakedirs "./processed_videos"; Eff.EvListdir ".";
      Eff.EvPrint Eff.MsgProcessing;
      Eff.EvCopy2 "./GH010001.MP4" "./processed_videos/0001.MP4"],
     inl Eff.OSError)
  /\ Eff.trace (Gopro.process_gopro_videos Scenario.copy_fail_env "." false ∅)
     = [Eff.EvMakedirs "./processed_videos"; Eff.EvListdir ".";
        Eff.EvCopy2 "./GH010001.MP4" "./processed_videos/0001_1.MP4";
        Eff.EvPrint (Eff.MsgErrorProcessing "GH010001.MP4" Eff.OSError);
        Eff.EvCopy2 "./GH010002.MP4" "./processed_videos/0002_1.MP4";
        Eff.EvPrint (Eff.MsgCopiedRenamed "GH010002.MP4" "0002_1.MP4")]
  /\ Eff.outcome
       (Gopro.process_gopro_videos Scenario.copy_fail_env "." false ∅)
     = inr tt.
Proof. repeat split; vm_compute; reflexivity. Qed.

(** C9 at a failing input: the same run.  Recording 0002 is a group of
    exactly one part, yet the batch never copies it: the one copy it
    attempts is that of recording 0001, whose failure ends the run, and
    [0002.MP4] is not made. *)
Theorem later_single_part_is_not_copied :
  Grouper.group_gopro_files "." ["GH010001.MP4"; "GH010002.MP4"]
  = [("0001", ["./GH010001.MP4"]); ("0002", ["./GH010002.MP4"])]
  /\ Eff.listdir Scenario.copy_fail_env "."
     = Some ["GH010001.MP4"; "GH010002.MP4"]
  /\ Eff.copy2_fails Scenario.copy_fail_env
       "./GH010002.MP4" "./processed_videos/0002.MP4" = false
  /\ Observe.copies
       (Eff.trace
          (Gopro.process_gopro_videos Scenario.copy_fail_env "." true ∅))
     = [("./GH010001.MP4", "./processed_videos/0001.MP4")]
  /\ ("./processed_videos/0002.MP4"
      ∉ Eff.final_fs
          (Gopro.process_gopro_videos Scenario.copy_fail_env "." true ∅))
  /\ Eff.outcome
       (Gopro.process_gopro_videos Scenario.copy_fail_env "." true ∅)
     = inl Eff.OSError.
Proof.
  split; [vm_compute; reflexivity|].
  split; [reflexivity|]. split; [reflexivity|].
  split; [vm_compute; reflexivity|].
  split; [|vm_compute; reflexivity].
  assert (Hrun :
    Eff.final_fs
      (Gopro.process_gopro_videos Scenario.copy_fail_env "." true ∅)
    = {["./processed_videos"]} ∪ ∅) by (vm_compute; reflexivity).
  rewrite Hrun, elem_of_union, elem_of_singleton, elem_of_empty.
  intros [H|[]]. discriminate H.
Qed.

(** * Further properties of the scan *)

Section ScanExtras.
Import Grouper.

Variable input_directory : string.

Lemma dd_append_contents (k v : string) (d : groups) :
  Permutation (List.concat (List.map snd (dd_append k v d)))
              (v :: List.concat (List.map snd d)).
Proof.
  induction d as [|[k' vs] d IH]; simpl.
  - reflexivity.
  - destruct (String.eqb k k'); simpl.
    + rewrite <- List.app_assoc. simpl.
      symmetry. apply Permutation_middle.
    + rewrite IH. symmetry. apply Permutation_middle.
Qed.

Lemma fold_contents (files : list string) (d0 : groups) :
  Permutation
    (List.concat
       (List.map snd
          (fold_left
             (fun d filename =>
                dd_append (video_number_of filename)
                          (OsPath.join input_directory filename) d)
             files d0)))
    (List.concat (List.map snd d0)
     ++ List.map (OsPath.join input_directory) files).
Proof.
  revert d0; induction files as [|f files IH]; intros d0; simpl.
  - now rewrite List.app_nil_r.
  - rewrite IH, dd_append_contents. simpl. apply Permutation_middle.
Qed.

Lemma sorted_contents (d : groups) :
  Permutation
    (List.concat
       (List.map snd
          (List.map (fun g => (fst g, sort_by part_key (snd g))) d)))
    (List.concat (List.map snd d)).
Proof.
  induction d as [|[k vs] d IH]; simpl; [reflexivity|].
  now rewrite sort_by_perm, IH.
Qed.

End ScanExtras.

(** X1.  Nothing is lost and nothing is doubled by the scan: put end to
    end, the groups hold exactly the paths of the selected names, each as
    often as the listing has it. *)
Theorem scan_keeps_every_file (input_directory : string)
    (listing : list string) :
  Permutation
    (List.concat
       (List.map snd (Grouper.group_gopro_files input_directory listing)))
    (List.map (OsPath.join input_directory)
       (List.filter Grouper.is_gopro listing)).
Proof.
  unfold Grouper.group_gopro_files.
  rewrite sorted_contents, fold_contents. reflexivity.
Qed.

Section ScanOrder.
Import Grouper.

Lemma insert_by_stable (key : string -> string) (c x : string)
    (l : list string) :
  List.filter (fun p => String.eqb (key p) c) (insert_by key x l) =
  List.filter (fun p => String.eqb (key p) c) (x :: l).
Proof.
  induction l as [|y l IH]; [reflexivity|].
  cbn [insert_by].
  destruct (String.leb (key x) (key y)) eqn:Hle; [reflexivity|].
  cbn [List.filter] in *. rewrite IH.
  destruct (String.eqb (key x) c) eqn:Hx; [|reflexivity].
  destruct (String.eqb (key y) c) eqn:Hy; [|reflexivity].
  apply String.eqb_eq in Hx, Hy. rewrite Hx, Hy in Hle.
  now rewrite string_leb_refl in Hle.
Qed.

Lemma sort_by_stable (key : string -> string) (c : string) (l : list string) :
  List.filter (fun p => String.eqb (key p) c) (sort_by key l) =
  List.filter (fun p => String.eqb (key p) c) l.
Proof.
  induction l as [|x l IH]; [reflexivity|].
  cbn [sort_by]. rewrite insert_by_stable. cbn [List.filter].
  now rewrite IH.
Qed.

Lemma dd_keys_append_eq (k v : string) (d : groups) :
  List.map fst (dd_append k v d) =
  if List.existsb (String.eqb k) (List.map fst d) then List.map fst d
  else List.map fst d ++ [k].
Proof.
  induction d as [|[k' vs] d IH]; [reflexivity|].
  cbn [dd_append List.map fst List.existsb].
  destruct (String.eqb k k'); [reflexivity|].
  cbn [List.map fst orb]. rewrite IH.
  now destruct (List.existsb (String.eqb k) (List.map fst d)).
Qed.

Lemma fold_keys (input_directory : string) (files : list string) (d0 : groups) :
  List.map fst
    (fold_left
       (fun d filename =>
          dd_append (video_number_of filename)
                    (OsPath.join input_directory filename) d)
       files d0) =
  fold_left
    (fun acc k => if List.existsb (String.eqb k) acc then acc else acc ++ [k])
    (List.map video_number_of files) (List.map fst d0).
Proof.
  revert d0; induction files as [|f files IH]; intros d0; [reflexivity|].
  cbn [fold_left List.map]. rewrite IH, dd_keys_append_eq. reflexivity.
Qed.

End ScanOrder.

(** X2.  A group is never empty, and the identifiers that have a group are
    exactly the [filename[4:8]] of the selected names. *)
Theorem groups_are_nonempty (input_directory : string) (listing : list string) :
  List.Forall (fun g => snd g <> [])
    (Grouper.group_gopro_files input_directory listing)
  /\ forall k,
       In k (List.map fst (Grouper.group_gopro_files input_directory listing))
       <-> exists f, In f listing /\ Grouper.is_gopro f = true
                     /\ String.substring 4 4 f = k.
Proof.
  change (String.substring 4 4) with Grouper.video_number_of.
  assert (Hne : forall k,
            Grouper.members input_directory k listing <> [] <->
            exists f, In f listing /\ Grouper.is_gopro f = true
                      /\ Grouper.video_number_of f = k).
  { intros k. split.
    - destruct (Grouper.members input_directory k listing) as [|p ps] eqn:Hm;
        [congruence|]. intros _.
      assert (Hp : In p (Grouper.members input_directory k listing))
        by (rewrite Hm; now left).
      apply members_in in Hp as [f (Hin & Hg & Hk & _)]. eauto.
    - intros (f & Hin & Hg & Hk) Hnil.
      assert (Hp : In (OsPath.join input_directory f)
                      (Grouper.members input_directory k listing))
        by (apply members_in; eauto).
      rewrite Hnil in Hp. destruct Hp. }
  split.
  - apply List.Forall_forall. intros [k vs] HG. apply group_in in HG as [Hm ->].
    cbn [snd]. intros Hnil. apply Hm.
    eapply Permutation_nil. rewrite <- Hnil. apply sort_by_perm.
  - intros k. rewrite <- Hne. split.
    + intros Hk. apply List.in_map_iff in Hk as [[k' vs] [Heq HG]].
      cbn [fst] in Heq. subst k'. now apply group_in in HG as [Hm _].
    + intros Hm. apply List.in_map_iff.
      exists (k, Grouper.sort_by Grouper.part_key
                   (Grouper.members input_directory k listing)).
      split; [reflexivity|]. apply group_in. auto.
Qed.

(** X3.  The sort is stable: among the parts of a group, those that share
    a part key stay in the order of the directory listing. *)
Theorem equal_keys_keep_listing_order (input_directory : string)
    (listing : list string) :
  List.Forall
    (fun g =>
       forall c,
         List.filter (fun p => String.eqb (Grouper.part_key p) c) (snd g) =
         List.filter (fun p => String.eqb (Grouper.part_key p) c)
           (Grouper.members input_directory (fst g) listing))
    (Grouper.group_gopro_files input_directory listing).
Proof.
  apply List.Forall_forall. intros [k vs] HG c.
  apply group_in in HG as [_ ->]. cbn [fst snd]. apply sort_by_stable.
Qed.

(** X4.  The groups come in the order in which their identifiers first
    appear among the selected names of the listing; this is the order the
    batch goes through them. *)
Theorem groups_in_first_seen_order (input_directory : string)
    (listing : list string) :
  List.map fst (Grouper.group_gopro_files input_directory listing) =
  Observe.first_seen
    (List.map (String.substring 4 4)
       (List.filter Grouper.is_gopro listing)).
Proof.
  change (String.substring 4 4) with Grouper.video_number_of.
  unfold Grouper.group_gopro_files, Observe.first_seen.
  rewrite dd_keys_map. apply (fold_keys input_directory _ []).
Qed.

Example first_seen_order_ex :
  List.map fst
    (Grouper.group_gopro_files "."
       ["GH010007.MP4"; "GH010002.MP4"; "GH020007.MP4"; "GH010001.MP4"])
  = ["0007"; "0002"; "0001"].
Proof. vm_compute. reflexivity. Qed.

(** * Further properties of a merge *)

Section MergeExtras.
Import Eff Gopro.

Variable E : Env.

(** A merge's trace: either it has no progress event at all, or it is the
    set-up, the read loop, and a tail that does not touch the bar. *)
Lemma merge_trace_shape (video_paths : list string) (out : string)
    (total : option PyNum.number) (s : fs) :
  List.Forall (fun e => is_progress_event e = false)
    (trace (merge_videos_fast E video_paths out total s))
  \/ exists t rc o err tail,
       total = Some t /\ PyNum.truthy t = true
       /\ run E (ffmpeg_cmd (String.append out ".txt") out) = Exited rc o err
       /\ trace (merge_videos_fast E video_paths out total s)
          = [EvWriteFile (String.append out ".txt")
               (List.map (concat_line E) video_paths);
             EvPopen (ffmpeg_cmd (String.append out ".txt") out);
             EvPbarOpen (String.append "Merging " (OsPath.basename out))]
            ++ trace (progress_loop E t err 0
                        ({[String.append out ".txt"]} ∪ s))
            ++ tail
       /\ Observe.update_amounts tail = []
       /\ (forall n, Observe.pbar_final n tail = n).
Proof.
  destruct (duration_truthy total) eqn:Ht.
  2:{ left. now apply merge_without_duration. }
  destruct total as [t|]; [|discriminate]. cbn [duration_truthy] in Ht.
  unfold merge_videos_fast.
  rewrite try_except_any_run, merge_try_block_run.
  destruct (open_fails E _); [left; repeat constructor|].
  destruct (run E _) as [|rc o err] eqn:Hrun; [left; repeat constructor|].
  right. exists t, rc, o, err.
  rewrite bind_run, show_progress_run, finish_merge_run.
  cbn [duration_truthy]. rewrite Ht.
  destruct (outcome (progress_loop E t err 0 _)) as [e|u].
  - exists [EvPrint (MsgMergeError e)].
    repeat split; auto.
  - cbn [outcome final_fs trace fst snd prepend].
    destruct (bool_decide _); [destruct (remove_fails E _)|];
      cbn [outcome final_fs trace fst snd prepend print bind emit List.app];
      eexists; (split; [reflexivity|]); (split; [reflexivity|]);
      (split; [reflexivity|]);
      (split; [rewrite <- ?List.app_assoc; cbn [List.app]; reflexivity|]);
      split; reflexivity.
Qed.

Lemma update_amounts_app (t u : list event) :
  Observe.update_amounts (t ++ u)
  = Observe.update_amounts t ++ Observe.update_amounts u.
Proof.
  induction t as [|e t IH]; [reflexivity|].
  destruct e; simpl; rewrite ?IH; reflexivity.
Qed.

Lemma update_amounts_quiet (t : list event) :
  List.Forall (fun e => is_progress_event e = false) t ->
  Observe.update_amounts t = [].
Proof.
  induction 1 as [|e t He _ IH]; [reflexivity|].
  destruct e; try discriminate; exact IH.
Qed.

Lemma pbar_final_app (n : Z) (t u : list event) :
  Observe.pbar_final n (t ++ u)
  = Observe.pbar_final (Observe.pbar_final n t) u.
Proof.
  revert n; induction t as [|e t IH]; intros n; [reflexivity|].
  destruct e; simpl; apply IH.
Qed.

(** Each update of the loop is positive and the bar stays within 100. *)
Lemma loop_updates (total : PyNum.number) (lines : list string) (last : Z) (s : fs) :
  (last <= 100)%Z ->
  List.Forall (fun d => (0 < d)%Z)
    (Observe.update_amounts (trace (progress_loop E total lines last s)))
  /\ (last <= Observe.pbar_final last
                (trace (progress_loop E total lines last s)) <= 100)%Z
  /\ (last + List.fold_right Z.add 0%Z
               (Observe.update_amounts
                  (trace (progress_loop E total lines last s))))%Z
     = Observe.pbar_final last (trace (progress_loop E total lines last s)).
Proof.
  revert last; induction lines as [|line rest IH]; intros last Hlast.
  - simpl. repeat split; try constructor; lia.
  - rewrite progress_loop_step.
    destruct (PyStr.is_empty line);
      [simpl; repeat split; try constructor; lia|].
    destruct (line_progress E total line) as [e|[p|]] eqn:Hline.
    + simpl. repeat split; try constructor; lia.
    + assert (Hp100 : (p <= 100)%Z)
        by exact (line_progress_bounded E total line p Hline).
      destruct (last <? p)%Z eqn:Hlt.
      * apply Z.ltb_lt in Hlt.
        destruct (IH p Hp100) as (Hpos & Hrange & Hsum).
        rewrite trace_prepend. simpl.
        replace (last + (p - last))%Z with p by lia.
        repeat split; try lia.
        constructor; [lia | exact Hpos].
      * destruct (IH last Hlast) as (Hpos & Hrange & Hsum).
        rewrite trace_prepend. simpl. repeat split; auto; lia.
    + destruct (IH last Hlast) as (Hpos & Hrange & Hsum).
      rewrite trace_prepend. simpl. repeat split; auto; lia.
Qed.

End MergeExtras.

(** X5.  Whatever the total duration and the diagnostic lines, every
    amount passed to [pbar.update] during a merge is positive and the
    amounts add up to at most 100, the total the bar was opened with. *)
Theorem bar_is_never_overfilled (E : Eff.Env) (video_paths : list string)
    (output_path : string) (total_duration : option PyNum.number) (s : gset string) :
  List.Forall (fun d => (0 < d)%Z)
    (Observe.update_amounts
       (Eff.trace
          (Gopro.merge_videos_fast E video_paths output_path
             total_duration s)))
  /\ (List.fold_right Z.add 0%Z
        (Observe.update_amounts
           (Eff.trace
              (Gopro.merge_videos_fast E video_paths output_path
                 total_duration s))) <= 100)%Z.
Proof.
  destruct (merge_trace_shape E video_paths output_path total_duration s)
    as [Hquiet|(t & rc & o & err & tail & _ & _ & _ & -> & Htail & _)].
  - rewrite (update_amounts_quiet _ Hquiet). split; [constructor | simpl; lia].
  - rewrite !update_amounts_app, Htail, List.app_nil_r. cbn [List.app].
    change (Observe.update_amounts [_; _; _]) with (@nil Z).
    cbn [List.app].
    destruct (loop_updates E t err 0
                ({[String.append output_path ".txt"]} ∪ s))
      as (Hpos & Hrange & Hsum); [lia|].
    split; [exact Hpos | lia].
Qed.

Section MergeOutcome.
Import Eff Gopro.

Variable E : Env.

Lemma loop_completes (total : PyNum.number) (lines : list string) (last : Z) (s : fs) :
  List.Forall (fun l => Observe.readable E total l = true) lines ->
  outcome (progress_loop E total lines last s) = inr tt.
Proof.
  intros Hall. revert last; induction Hall as [|line rest Hline _ IH];
    intros last; [reflexivity|].
  rewrite progress_loop_step. unfold Observe.readable in Hline.
  destruct (PyStr.is_empty line); [reflexivity|].
  destruct (line_progress E total line) as [e|[p|]]; [discriminate| |].
  - destruct (last <? p)%Z; rewrite outcome_prepend; apply IH.
  - rewrite outcome_prepend. apply IH.
Qed.

Lemma loop_ends_at_maximum (total : PyNum.number) (lines : list string) (last : Z)
    (s : fs) :
  (last <= 100)%Z ->
  List.Forall (fun l => PyStr.is_empty l = false) lines ->
  List.Forall (fun l => Observe.readable E total l = true) lines ->
  forall line p,
    In line lines -> line_progress E total line = inr (Some p) ->
    (p <= Observe.pbar_final last
            (trace (progress_loop E total lines last s)))%Z.
Proof.
  intros Hlast Hne Hall. revert last Hlast.
  induction lines as [|l rest IH]; intros last Hlast line p Hin Hp;
    [destruct Hin|].
  inversion Hne as [|? ? Hl Hne']; subst.
  inversion Hall as [|? ? _ Hall']; subst.
  rewrite progress_loop_step, Hl.
  destruct (line_progress E total l) as [e|[q|]] eqn:Hline.
  - destruct Hin as [->|Hin]; [congruence|].
    assert (Hr : Observe.readable E total l = true)
      by now inversion Hall.
    unfold Observe.readable in Hr. rewrite Hline in Hr. discriminate.
  - assert (Hq100 : (q <= 100)%Z)
      by exact (line_progress_bounded E total l q Hline).
    destruct (last <? q)%Z eqn:Hlt.
    + apply Z.ltb_lt in Hlt. rewrite trace_prepend. simpl.
      replace (last + (q - last))%Z with q by lia.
      destruct Hin as [->|Hin].
      * assert (p = q) by congruence. subst p.
        destruct (loop_updates E total rest q s Hq100) as (_ & Hrange & _).
        lia.
      * eapply IH; eauto.
    + apply Z.ltb_ge in Hlt. rewrite trace_prepend. simpl.
      destruct Hin as [->|Hin].
      * assert (p = q) by congruence. subst p.
        destruct (loop_updates E total rest last s Hlast) as (_ & Hrange & _).
        lia.
      * eapply IH; eauto.
  - rewrite trace_prepend. simpl.
    destruct Hin as [->|Hin]; [congruence | eapply IH; eauto].
Qed.

End MergeOutcome.

Lemma elem_of_plan_union (p cf : string) (s : gset string) :
  p ∈ ({[cf]} ∪ s : gset string) <-> p = cf \/ p ∈ s.
Proof. rewrite elem_of_union, elem_of_singleton. reflexivity. Qed.

Lemma elem_of_plan_removed (p cf : string) (s : gset string) :
  p ∈ (({[cf]} ∪ s) ∖ {[cf]} : gset string) <-> p ∈ s /\ p <> cf.
Proof.
  rewrite elem_of_difference, elem_of_union, elem_of_singleton. tauto.
Qed.

Lemma plan_removed_set (cf : string) (s : gset string) :
  (({[cf]} ∪ s) ∖ {[cf]} : gset string) = s ∖ {[cf]}.
Proof.
  apply set_eq. intros p.
  rewrite elem_of_plan_removed, elem_of_difference, elem_of_singleton.
  reflexivity.
Qed.

Section MergeRuns.
Import Eff Gopro.

Variable E : Env.

(** The run of a merge whose plan is written and whose process starts. *)
Lemma merge_started_run (video_paths : list string) (out : string)
    (total : option PyNum.number) (s : fs) (rc : Z) (o : string) (err : list string) :
  open_fails E (String.append out ".txt") = false ->
  run E (ffmpeg_cmd (String.append out ".txt") out) = Exited rc o err ->
  merge_videos_fast E video_paths out total s =
  prepend
    [EvWriteFile (String.append out ".txt")
       (List.map (concat_line E) video_paths);
     EvPopen (ffmpeg_cmd (String.append out ".txt") out)]
    (match outcome (show_progress E out total err
                      ({[String.append out ".txt"]} ∪ s)) with
     | inl e =>
         ({[String.append out ".txt"]} ∪ s,
          trace (show_progress E out total err
                   ({[String.append out ".txt"]} ∪ s))
          ++ [EvPrint (MsgMergeError e)],
          inr tt)
     | inr _ =>
         if remove_fails E (String.append out ".txt") then
           ({[String.append out ".txt"]} ∪ s,
            trace (show_progress E out total err
                     ({[String.append out ".txt"]} ∪ s))
            ++ [EvWait; EvRemove (String.append out ".txt");
                EvPrint (MsgMergeError OSError)],
            inr tt)
         else
           (({[String.append out ".txt"]} ∪ s)
              ∖ {[String.append out ".txt"]},
            trace (show_progress E out total err
                     ({[String.append out ".txt"]} ∪ s))
            ++ [EvWait; EvRemove (String.append out ".txt");
                EvPrint (if (rc =? 0)%Z then MsgMerged out
                         else MsgMergeReturned rc)],
            inr tt)
     end).
Proof.
  intros Hopen Hrun. unfold merge_videos_fast.
  rewrite try_except_any_run, merge_try_block_run, Hopen, Hrun.
  rewrite bind_run.
  pose proof (show_progress_keeps_files E out total err
                ({[String.append out ".txt"]} ∪ s)) as Hfs.
  destruct (show_progress E out total err _) as [[s1 t1] [e|u]].
  - cbn in Hfs. subst s1. reflexivity.
  - cbn in Hfs. subst s1.
    cbn [outcome final_fs trace fst snd]. rewrite finish_merge_run.
    assert (Hin : bool_decide
                    (String.append out ".txt"
                     ∈ ({[String.append out ".txt"]} ∪ s : fs)) = true)
      by (apply bool_decide_eq_true, elem_of_plan_union; now left).
    rewrite Hin.
    destruct (remove_fails E _);
      unfold prepend, print, emit, outcome, trace, final_fs;
      cbn [fst snd]; rewrite <- ?List.app_assoc; reflexivity.
Qed.

End MergeRuns.

(** X6.  [merge_videos_fast] always returns normally, and the only path it
    creates or removes itself is the plan file [output_path + '.txt']. *)
Theorem merge_touches_only_plan_file (E : Eff.Env) (video_paths : list string)
    (output_path : string) (total_duration : option PyNum.number) (s : gset string) :
  Eff.outcome
    (Gopro.merge_videos_fast E video_paths output_path total_duration s)
  = inr tt
  /\ forall p,
       p <> String.append output_path ".txt" ->
       (p ∈ Eff.final_fs
              (Gopro.merge_videos_fast E video_paths output_path
                 total_duration s)
        <-> p ∈ s).
Proof.
  split; [apply merge_never_raises|]. intros p Hp.
  destruct (Eff.open_fails E (String.append output_path ".txt")) eqn:Hopen.
  { unfold Gopro.merge_videos_fast.
    rewrite try_except_any_run, merge_try_block_run, Hopen. reflexivity. }
  destruct (Eff.run E (Gopro.ffmpeg_cmd (String.append output_path ".txt")
                         output_path)) as [|rc o err] eqn:Hrun.
  { unfold Gopro.merge_videos_fast.
    rewrite try_except_any_run, merge_try_block_run, Hopen, Hrun.
    cbn [Eff.outcome Eff.final_fs Eff.trace Eff.prepend Gopro.print Eff.emit
         fst snd].
    rewrite elem_of_plan_union. tauto. }
  rewrite (merge_started_run E _ _ _ _ rc o err Hopen Hrun).
  rewrite final_fs_prepend.
  destruct (Eff.outcome (Gopro.show_progress E output_path total_duration err _));
    [cbn [Eff.final_fs fst]; rewrite elem_of_plan_union; tauto|].
  destruct (Eff.remove_fails E _); cbn [Eff.final_fs fst].
  - rewrite elem_of_plan_union. tauto.
  - rewrite elem_of_plan_removed. tauto.
Qed.

(** X7.  When the plan is written, the process starts, every diagnostic
    line can be read and the plan file can be removed, the merge ends by
    waiting for the process, removing the plan file and printing one
    report: success exactly when the exit status is 0, the exit status
    otherwise.  The plan file no longer exists. *)
Theorem completed_merge_reports_exit_status (E : Eff.Env)
    (video_paths : list string) (output_path : string)
    (total_duration : option PyNum.number) (s : gset string)
    (rc : Z) (o : string) (err : list string) :
  Eff.open_fails E (String.append output_path ".txt") = false ->
  Eff.run E (Gopro.ffmpeg_cmd (String.append output_path ".txt") output_path)
  = Eff.Exited rc o err ->
  Eff.remove_fails E (String.append output_path ".txt") = false ->
  (forall t, total_duration = Some t -> PyNum.truthy t = true ->
     List.Forall (fun l => Observe.readable E t l = true) err) ->
  (exists before,
      Eff.trace
        (Gopro.merge_videos_fast E video_paths output_path total_duration s)
      = before
        ++ [Eff.EvWait; Eff.EvRemove (String.append output_path ".txt");
            Eff.EvPrint (if (rc =? 0)%Z then Eff.MsgMerged output_path
                         else Eff.MsgMergeReturned rc)])
  /\ (String.append output_path ".txt"
      ∉ Eff.final_fs
          (Gopro.merge_videos_fast E video_paths output_path
             total_duration s)).
Proof.
  intros Hopen Hrun Hremove Hread.
  rewrite (merge_started_run E _ _ _ _ rc o err Hopen Hrun), Hremove.
  assert (Hshow :
    Eff.outcome
      (Gopro.show_progress E output_path total_duration err
         ({[String.append output_path ".txt"]} ∪ s)) = inr tt).
  { rewrite show_progress_run.
    destruct total_duration as [t|]; [|reflexivity].
    cbn [Gopro.duration_truthy].
    destruct (PyNum.truthy t) eqn:Ht; [|reflexivity].
    now rewrite (loop_completes E t err 0 _ (Hread t eq_refl Ht)). }
  rewrite Hshow. split.
  - eexists. rewrite trace_prepend. cbn [Eff.trace fst snd].
    rewrite List.app_assoc. reflexivity.
  - rewrite final_fs_prepend. cbn [Eff.final_fs fst].
    rewrite elem_of_plan_removed. tauto.
Qed.

Lemma completed_merge_reports_exit_status_witness :
  Eff.open_fails Scenario.steady_env
    (String.append "./processed_videos/0001.MP4" ".txt") = false
  /\ exists before,
       Eff.trace
         (Gopro.merge_videos_fast Scenario.steady_env
            ["./GH010001.MP4"; "./GH020001.MP4"]
            "./processed_videos/0001.MP4" (Some (Scenario.seconds 10)) ∅)
       = before
         ++ [Eff.EvWait;
             Eff.EvRemove (String.append "./processed_videos/0001.MP4" ".txt");
             Eff.EvPrint (Eff.MsgMerged "./processed_videos/0001.MP4")].
Proof.
  split; [reflexivity|].
  refine (proj1 (completed_merge_reports_exit_status Scenario.steady_env
                   ["./GH010001.MP4"; "./GH020001.MP4"]
                   "./processed_videos/0001.MP4" (Some (Scenario.seconds 10)) ∅
                   0%Z EmptyString Scenario.steady_lines
                   eq_refl eq_refl eq_refl _)).
  intros t Ht _. injection Ht as <-.
  repeat constructor.
Defined.

(** X8.  Diagnostic lines without a [time=] marker are read and passed
    over: the loop reads every line up to the end of the stream, never
    moves the bar and never raises, whatever the total duration. *)
Theorem lines_without_marker_are_skipped (E : Eff.Env) (total_duration : PyNum.number)
    (lines : list string) (last_progress : Z) (s : gset string) :
  List.Forall (fun l => PyStr.is_empty l = false) lines ->
  List.Forall (fun l => PyStr.contains "time=" l = false) lines ->
  Gopro.progress_loop E total_duration lines last_progress s
  = (s, List.map Eff.EvReadline lines ++ [Eff.EvReadline EmptyString],
     inr tt).
Proof.
  intros Hne Hno. induction lines as [|l rest IH]; [reflexivity|].
  inversion Hne as [|? ? Hl Hne']; subst.
  inversion Hno as [|? ? Hc Hno']; subst.
  rewrite progress_loop_step, Hl.
  unfold Gopro.line_progress. rewrite Hc.
  now rewrite (IH Hne' Hno').
Qed.

Lemma lines_without_marker_are_skipped_witness :
  List.Forall (fun l => PyStr.is_empty l = false)
    ["Press [q] to stop"; "Input #0, concat"]
  /\ List.Forall (fun l => PyStr.contains "time=" l = false)
       ["Press [q] to stop"; "Input #0, concat"]
  /\ Gopro.progress_loop Scenario.steady_env (Scenario.seconds 10)
       ["Press [q] to stop"; "Input #0, concat"] 0%Z ∅
     = (∅,
        List.map Eff.EvReadline ["Press [q] to stop"; "Input #0, concat"]
        ++ [Eff.EvReadline EmptyString],
        inr tt).
Proof.
  assert (H1 : List.Forall (fun l => PyStr.is_empty l = false)
                 ["Press [q] to stop"; "Input #0, concat"])
    by (repeat constructor).
  assert (H2 : List.Forall (fun l => PyStr.contains "time=" l = false)
                 ["Press [q] to stop"; "Input #0, concat"])
    by (repeat constructor).
  split; [exact H1|]. split; [exact H2|].
  exact (lines_without_marker_are_skipped Scenario.steady_env (Scenario.seconds 10) _ 0%Z ∅
           H1 H2).
Defined.

(** X9.  When the plan is written, the process starts and every diagnostic
    line is non-empty and readable, the bar ends, within [0,100], at or
    above the percentage of every line: it stands at the highest
    percentage reported. *)
Theorem bar_ends_at_highest_report (E : Eff.Env) (video_paths : list string)
    (output_path : string) (t : PyNum.number) (s : gset string)
    (rc : Z) (o : string) (err : list string) :
  PyNum.truthy t = true ->
  Eff.open_fails E (String.append output_path ".txt") = false ->
  Eff.run E (Gopro.ffmpeg_cmd (String.append output_path ".txt") output_path)
  = Eff.Exited rc o err ->
  List.Forall (fun l => PyStr.is_empty l = false) err ->
  List.Forall (fun l => Observe.readable E t l = true) err ->
  (0 <= Observe.pbar_final 0
          (Eff.trace
             (Gopro.merge_videos_fast E video_paths output_path (Some t) s))
     <= 100)%Z
  /\ forall line p,
       In line err -> Gopro.line_progress E t line = inr (Some p) ->
       (p <= Observe.pbar_final 0
               (Eff.trace
                  (Gopro.merge_videos_fast E video_paths output_path
                     (Some t) s)))%Z.
Proof.
  intros Ht Hopen Hrun Hne Hread.
  assert (Hfinal :
    Observe.pbar_final 0
      (Eff.trace
         (Gopro.merge_videos_fast E video_paths output_path (Some t) s))
    = Observe.pbar_final 0
        (Eff.trace
           (Gopro.progress_loop E t err 0
              ({[String.append output_path ".txt"]} ∪ s)))).
  { rewrite (merge_started_run E _ _ _ _ rc o err Hopen Hrun).
    rewrite show_progress_run. cbn [Gopro.duration_truthy]. rewrite Ht.
    rewrite (loop_completes E t err 0 _ Hread).
    cbn [Eff.outcome Eff.trace fst snd].
    destruct (Eff.remove_fails E _);
      rewrite trace_prepend; cbn [Eff.trace fst snd];
      repeat (rewrite pbar_final_app || cbn [Observe.pbar_final List.app]);
      reflexivity. }
  rewrite Hfinal.
  destruct (loop_updates E t err 0
              ({[String.append output_path ".txt"]} ∪ s))
    as (_ & Hrange & _); [lia|].
  split; [exact Hrange|].
  intros line p Hin Hp.
  eapply loop_ends_at_maximum; eauto. lia.
Qed.

Lemma bar_ends_at_highest_report_witness :
  PyNum.truthy (Scenario.seconds 10) = true
  /\ (0 <= Observe.pbar_final 0
             (Eff.trace
                (Gopro.merge_videos_fast Scenario.steady_env
                   ["./GH010001.MP4"; "./GH020001.MP4"]
                   "./processed_videos/0001.MP4" (Some (Scenario.seconds 10)) ∅))
        <= 100)%Z.
Proof.
  split; [reflexivity|].
  refine (proj1 (bar_ends_at_highest_report Scenario.steady_env
                   ["./GH010001.MP4"; "./GH020001.MP4"]
                   "./processed_videos/0001.MP4" (Scenario.seconds 10) ∅
                   0%Z EmptyString Scenario.steady_lines
                   eq_refl eq_refl eq_refl _ _));
    repeat constructor.
Defined.

Example bar_ends_full :
  Observe.pbar_final 0
    (Eff.trace
       (Gopro.merge_videos_fast Scenario.steady_env
          ["./GH010001.MP4"; "./GH020001.MP4"]
          "./processed_videos/0001.MP4" (Some (Scenario.seconds 10)) ∅))
  = 100%Z.
Proof. vm_compute. reflexivity. Qed.

(** * Reading a time stamp *)

Section TimeStamp.

Lemma snoc_append (acc : string) (c : ascii) (r : string) :
  String.append (PyStr.snoc acc c) r = String.append acc (String c r).
Proof. unfold PyStr.snoc. now rewrite string_append_assoc. Qed.

Lemma time_char_facts (c : ascii) :
  Observe.is_time_char c = true ->
  c <> ":"%char /\ c <> "t"%char /\ PyStr.isspace c = false.
Proof.
  destruct c as [[] [] [] [] [] [] [] []]; vm_compute; intros H;
    try discriminate H; repeat split; discriminate.
Qed.

Lemma space_is_not_t (c : ascii) : PyStr.isspace c = true -> c <> "t"%char.
Proof. intros H ->. vm_compute in H. discriminate. Qed.

Lemma prefix_first_differs (c d : ascii) (p s : string) :
  c <> d -> String.prefix (String c p) (String d s) = false.
Proof.
  intros Hne. rewrite prefix_cons. destruct (ascii_dec c d); [contradiction|].
  reflexivity.
Qed.

(** Splitting at [":"]. *)
Lemma split_colon_char (acc : string) (c : ascii) (r : string) :
  c <> ":"%char ->
  PyStr.split_go ":" 0 acc (String c r) = PyStr.split_go ":" 0 (PyStr.snoc acc c) r.
Proof.
  intros Hne. rewrite split_go_cons, prefix_first_differs; auto.
Qed.

Lemma split_colon_field (f acc r : string) :
  Observe.time_field f = true ->
  PyStr.split_go ":" 0 acc (String.append f r)
  = PyStr.split_go ":" 0 (String.append acc f) r.
Proof.
  revert acc; induction f as [|c f IH]; intros acc Hf.
  - now rewrite append_nil, string_append_empty_r.
  - cbn [Observe.time_field] in Hf. apply andb_true_iff in Hf as [Hc Hf].
    apply time_char_facts in Hc as (Hc & _ & _).
    rewrite append_cons, split_colon_char, IH, snoc_append by auto.
    reflexivity.
Qed.

Lemma split_colon_sep (acc r : string) :
  PyStr.split_go ":" 0 acc (String ":" r) = acc :: PyStr.split_go ":" 0 EmptyString r.
Proof. rewrite split_go_cons, prefix_cons, prefix_empty. reflexivity. Qed.

Lemma split_stamp (a b c : string) :
  Observe.time_field a = true -> Observe.time_field b = true ->
  Observe.time_field c = true ->
  PyStr.split ":"
    (String.append a (String ":" (String.append b (String ":" c))))
  = [a; b; c].
Proof.
  intros Ha Hb Hc. unfold PyStr.split.
  rewrite split_colon_field, split_colon_sep by assumption.
  rewrite split_colon_field, split_colon_sep by assumption.
  rewrite <- (string_append_empty_r c) at 1.
  rewrite split_colon_field by assumption. reflexivity.
Qed.

(** Splitting at white space. *)
Lemma split_ws_char (acc : string) (c : ascii) (r : string) :
  PyStr.isspace c = false ->
  PyStr.split_ws_go acc (String c r) = PyStr.split_ws_go (PyStr.snoc acc c) r.
Proof. intros Hc. cbn [PyStr.split_ws_go]. now rewrite Hc. Qed.

Lemma split_ws_field (f acc r : string) :
  Observe.time_field f = true ->
  PyStr.split_ws_go acc (String.append f r)
  = PyStr.split_ws_go (String.append acc f) r.
Proof.
  revert acc; induction f as [|c f IH]; intros acc Hf.
  - now rewrite append_nil, string_append_empty_r.
  - cbn [Observe.time_field] in Hf. apply andb_true_iff in Hf as [Hc Hf].
    apply time_char_facts in Hc as (_ & _ & Hc).
    rewrite append_cons, split_ws_char, IH, snoc_append by auto.
    reflexivity.
Qed.

Lemma split_ws_stamp (a b c : string) (sp : ascii) (r : string) :
  Observe.time_field a = true -> Observe.time_field b = true ->
  Observe.time_field c = true -> PyStr.isspace sp = true ->
  nth_error
    (PyStr.split_ws
       (String.append
          (String.append a (String ":" (String.append b (String ":" c))))
          (String sp r))) 0
  = Some (String.append a (String ":" (String.append b (String ":" c)))).
Proof.
  intros Ha Hb Hc Hsp. unfold PyStr.split_ws.
  rewrite string_append_assoc, split_ws_field, append_nil by assumption.
  rewrite append_cons, split_ws_char by reflexivity.
  rewrite string_append_assoc, split_ws_field by assumption.
  rewrite append_cons, split_ws_char by reflexivity.
  rewrite split_ws_field by assumption.
  cbn [PyStr.split_ws_go]. rewrite Hsp.
  rewrite !snoc_append.
  destruct (PyStr.is_empty _) eqn:Hempty.
  - exfalso. destruct a; discriminate.
  - cbn [nth_error]. f_equal.
    now rewrite string_append_assoc, append_cons.
Qed.

End TimeStamp.

Section TimeMarker.

Lemma prefix_long (sep x y : string) :
  (String.length sep <= String.length x)%nat ->
  String.prefix sep (String.append x y) = String.prefix sep x.
Proof.
  revert x; induction sep as [|a sep IH]; intros x Hlen.
  - now rewrite !prefix_empty.
  - destruct x as [|b x]; [simpl in Hlen; lia|].
    rewrite append_cons, !prefix_cons.
    destruct (ascii_dec a b); [|reflexivity].
    apply IH. simpl in Hlen. lia.
Qed.

Lemma split_marker_first (pre post acc : string) :
  PyStr.contains "time=" (String.append pre "time") = false ->
  PyStr.split_go "time=" 0 acc (String.append pre (String.append "time=" post))
  = String.append acc pre :: PyStr.split_go "time=" 0 EmptyString post.
Proof.
  revert acc; induction pre as [|c pre IH]; intros acc Hno.
  - rewrite append_nil, string_append_empty_r.
    change (String.append "time=" post)
      with (String "t" (String "i" (String "m" (String "e" (String "=" post))))).
    rewrite split_go_cons, !prefix_cons, prefix_empty. reflexivity.
  - rewrite append_cons in Hno. rewrite contains_cons in Hno.
    apply orb_false_iff in Hno as [Hp Hno].
    rewrite append_cons, split_go_cons.
    assert (Hp' : String.prefix "time="
                    (String c (String.append pre (String.append "time=" post)))
                  = false).
    { change (String.append "time=" post)
        with (String.append "time" (String "=" post)).
      rewrite <- string_append_assoc, <- append_cons, prefix_long; [exact Hp|].
      cbn [String.length]. rewrite string_length_append. simpl. lia. }
    rewrite Hp', IH, snoc_append by assumption. reflexivity.
Qed.

Lemma split_marker_char (acc : string) (c : ascii) (r : string) :
  c <> "t"%char ->
  PyStr.split_go "time=" 0 acc (String c r)
  = PyStr.split_go "time=" 0 (PyStr.snoc acc c) r.
Proof.
  intros Hne. rewrite split_go_cons, prefix_first_differs; auto.
Qed.

Lemma split_marker_field (f acc r : string) :
  Observe.time_field f = true ->
  PyStr.split_go "time=" 0 acc (String.append f r)
  = PyStr.split_go "time=" 0 (String.append acc f) r.
Proof.
  revert acc; induction f as [|c f IH]; intros acc Hf.
  - now rewrite append_nil, string_append_empty_r.
  - cbn [Observe.time_field] in Hf. apply andb_true_iff in Hf as [Hc Hf].
    apply time_char_facts in Hc as (_ & Hc & _).
    rewrite append_cons, split_marker_char, IH, snoc_append by auto.
    reflexivity.
Qed.

Lemma split_go_head (sep : string) (skip : nat) (acc r : string) :
  exists more tl,
    PyStr.split_go sep skip acc r = String.append acc more :: tl.
Proof.
  revert skip acc; induction r as [|c r IH]; intros skip acc.
  - exists EmptyString, []. now rewrite string_append_empty_r.
  - destruct skip as [|k].
    + rewrite split_go_cons. destruct (String.prefix sep (String c r)).
      * exists EmptyString. eexists. now rewrite string_append_empty_r.
      * destruct (IH 0%nat (PyStr.snoc acc c)) as (more & tl & Heq).
        exists (String c more), tl. now rewrite Heq, snoc_append.
    + cbn [PyStr.split_go]. apply IH.
Qed.

Lemma marker_text (pre a b c : string) (sp : ascii) (rest : string) :
  PyStr.contains "time=" (String.append pre "time") = false ->
  Observe.time_field a = true -> Observe.time_field b = true ->
  Observe.time_field c = true -> PyStr.isspace sp = true ->
  exists more,
    nth_error
      (PyStr.split "time="
         (String.append pre
            (String.append "time="
               (String.append
                  (String.append a
                     (String ":" (String.append b (String ":" c))))
                  (String sp rest))))) 1
    = Some (String.append
              (String.append a (String ":" (String.append b (String ":" c))))
              (String sp more)).
Proof.
  intros Hpre Ha Hb Hc Hsp. unfold PyStr.split.
  rewrite split_marker_first by assumption. cbn [nth_error].
  rewrite string_append_assoc, split_marker_field, append_nil by assumption.
  rewrite append_cons, split_marker_char by discriminate.
  rewrite string_append_assoc, split_marker_field by assumption.
  rewrite append_cons, split_marker_char by discriminate.
  rewrite split_marker_field by assumption.
  rewrite split_marker_char by now apply space_is_not_t.
  destruct (split_go_head "time=" 0
              (PyStr.snoc
                 (String.append
                    (PyStr.snoc (String.append (PyStr.snoc a ":") b) ":") c)
                 sp) rest) as (more & tl & Heq).
  rewrite Heq. exists more. f_equal.
  rewrite !snoc_append.
  now rewrite !string_append_assoc, !append_cons, !string_append_assoc,
    !append_cons.
Qed.

End TimeMarker.

Lemma contains_prefix (sub s : string) :
  String.prefix sub s = true -> PyStr.contains sub s = true.
Proof.
  intros H. destruct s; cbn [PyStr.contains]; now rewrite H.
Qed.

Lemma contains_middle (sub pre post : string) :
  PyStr.contains sub (String.append pre (String.append sub post)) = true.
Proof.
  induction pre as [|c pre IH].
  - rewrite append_nil. apply contains_prefix, prefix_iff. now exists post.
  - rewrite append_cons, contains_cons, IH. apply orb_true_r.
Qed.

(** X10.  A diagnostic line whose first [time=] is followed by a stamp
    [a:b:c] of digits and dots and then white space is read as that stamp.
    With the three fields read as floats [h], [m], [s] and a total that is
    finite and not zero, the loop computes
    [x = (h*3600 + m*60 + s) / total * 100] in double precision.  When [x]
    is finite it takes [min(100, int(x))], moves the bar to it when it is
    above the last value, and goes on with the next line; when [x] is nan
    or infinite, [int(x)] raises and the loop ends there. *)
Theorem well_formed_marker_is_read (E : Eff.Env) (total_duration : PyNum.number)
    (pre a b c : string) (sp : ascii) (rest : string)
    (hours minutes seconds : PyNum.float)
    (lines : list string) (last_progress : Z) (s : gset string) :
  PyStr.contains "time=" (String.append pre "time") = false ->
  Observe.time_field a = true -> Observe.time_field b = true ->
  Observe.time_field c = true -> PyStr.isspace sp = true ->
  Eff.float_of_string E a = Some hours ->
  Eff.float_of_string E b = Some minutes ->
  Eff.float_of_string E c = Some seconds ->
  PyNum.truthy total_duration = true ->
  PyNum.is_finite (PyNum.to_float total_duration) = true ->
  let line :=
    String.append pre
      (String.append "time="
         (String.append
            (String.append a (String ":" (String.append b (String ":" c))))
            (String sp rest))) in
  let x :=
    PyNum.fmul
      (PyNum.fdiv
         (PyNum.fadd
            (PyNum.fadd (PyNum.fmul hours (PyNum.of_Z 3600))
                        (PyNum.fmul minutes (PyNum.of_Z 60)))
            seconds)
         (PyNum.to_float total_duration))
      (PyNum.of_Z 100) in
  Gopro.time_marker line = Some (a, b, c)
  /\ Gopro.progress_loop E total_duration (line :: lines) last_progress s
     = match PyNum.trunc x with
       | Some percent =>
           let progress := Z.min 100 percent in
           if (last_progress <? progress)%Z then
             Eff.prepend
               [Eff.EvReadline line;
                Eff.EvPbarUpdate (progress - last_progress)]
               (Gopro.progress_loop E total_duration lines progress s)
           else
             Eff.prepend [Eff.EvReadline line]
               (Gopro.progress_loop E total_duration lines last_progress s)
       | None =>
           (s, [Eff.EvReadline line],
            inl match x with
                | S754_nan => Eff.ValueError
                | _ => Eff.OverflowError
                end)
       end.
Proof.
  intros Hpre Ha Hb Hc Hsp Hh Hm Hs Ht Hfin line x.
  assert (Hcontains : PyStr.contains "time=" line = true)
    by apply contains_middle.
  assert (Hne : PyStr.is_empty line = false).
  { destruct line; [discriminate Hcontains | reflexivity]. }
  destruct (marker_text pre a b c sp rest Hpre Ha Hb Hc Hsp) as [more Hmore].
  fold line in Hmore.
  pose proof (split_ws_stamp a b c sp more Ha Hb Hc Hsp) as Hws.
  pose proof (split_stamp a b c Ha Hb Hc) as Hsplit.
  split.
  - unfold Gopro.time_marker. now rewrite Hcontains, Hmore, Hws, Hsplit.
  - rewrite progress_loop_step, Hne. unfold Gopro.line_progress.
    rewrite Hcontains, Hmore, Hws, Hsplit, Hh, Hm, Hs.
    assert (Hdiv :
      Gopro.div_result (Gopro.elapsed_seconds hours minutes seconds)
        total_duration
      = inr (PyNum.fdiv (Gopro.elapsed_seconds hours minutes seconds)
               (PyNum.to_float total_duration))).
    { unfold PyNum.truthy in Ht. apply negb_true_iff in Ht.
      unfold Gopro.div_result. destruct total_duration as [z|f];
        cbn [PyNum.to_float PyNum.is_zero] in *; now rewrite ?Hfin, Ht. }
    rewrite Hdiv. unfold Gopro.int_result.
    change (PyNum.fmul
              (PyNum.fdiv (Gopro.elapsed_seconds hours minutes seconds)
                 (PyNum.to_float total_duration)) (PyNum.of_Z 100)) with x.
    destruct (PyNum.trunc x); [reflexivity|]. now destruct x.
Qed.

Lemma well_formed_marker_is_read_witness :
  PyStr.contains "time=" (String.append "frame=1 " "time") = false
  /\ Gopro.progress_loop Scenario.steady_env (Scenario.seconds 100)
       [String.append "frame=1 "
          (String.append "time="
             (String.append
                (String.append "00"
                   (String ":" (String.append "01" (String ":" "05.00"))))
                (String " " "bitrate=1")))] 0%Z ∅
     = (∅,
        [Eff.EvReadline "frame=1 time=00:01:05.00 bitrate=1";
         Eff.EvPbarUpdate 65; Eff.EvReadline EmptyString],
        inr tt).
Proof.
  split; [reflexivity|].
  exact (proj2 (well_formed_marker_is_read Scenario.steady_env
                  (Scenario.seconds 100)
                  "frame=1 " "00" "01" "05.00" " "%char "bitrate=1"
                  (PyNum.of_Z 0) (PyNum.of_Z 1) (PyNum.of_Z 5) [] 0%Z ∅
                  eq_refl eq_refl eq_refl eq_refl eq_refl
                  eq_refl eq_refl eq_refl eq_refl eq_refl)).
Defined.

Example marker_progress_ex :
  Gopro.line_progress Scenario.steady_env (Scenario.seconds 100)
    "frame=1 time=00:01:05.00 bitrate=1"
  = inr (Some 65%Z).
Proof. vm_compute. reflexivity. Qed.

(** * Further properties of the batch *)

Section RenameMode.
Import Eff Gopro.

Variable E : Env.

Lemma copies_app (t u : list event) :
  Observe.copies (t ++ u) = Observe.copies t ++ Observe.copies u.
Proof.
  induction t as [|e t IH]; [reflexivity|].
  destruct e; simpl; rewrite ?IH; reflexivity.
Qed.

Lemma rename_parts_run (output_directory video_number : string)
    (files : list string) (start : nat) (s : fs) :
  outcome (for_each (enumerate start files)
             (rename_one_part E output_directory video_number) s) = inr tt
  /\ Observe.copies
       (trace (for_each (enumerate start files)
                 (rename_one_part E output_directory video_number) s))
     = List.map
         (fun p =>
            (snd p,
             OsPath.join output_directory
               (Observe.part_filename video_number (fst p))))
         (enumerate start files).
Proof.
  revert start s; induction files as [|f files IH]; intros start s.
  - split; reflexivity.
  - cbn [enumerate for_each List.map]. rewrite bind_run.
    rewrite rename_one_part_run. cbv zeta.
    fold (Observe.part_filename video_number start).
    destruct (copy2_fails E f _);
      cbn [outcome final_fs trace fst snd];
      rewrite outcome_prepend, trace_prepend, copies_app;
      destruct (IH (S start) s) as [Ho Hc];
      [destruct (IH (S start) s) as [Ho' Hc']
      |destruct (IH (S start)
                   ({[OsPath.join output_directory
                        (Observe.part_filename video_number start)]} ∪ s))
         as [Ho' Hc']];
      rewrite Ho', Hc'; split; reflexivity.
Qed.

Lemma rename_groups_run (output_directory : string)
    (video_groups : Grouper.groups) (s : fs) :
  outcome (process_groups E output_directory video_groups false s) = inr tt
  /\ Observe.copies
       (trace (process_groups E output_directory video_groups false s))
     = Observe.all_copies output_directory video_groups.
Proof.
  unfold process_groups.
  revert s; induction video_groups as [|[k files] gs IH]; intros s.
  - split; reflexivity.
  - cbn [for_each]. rewrite bind_run.
    change (rename_one_group E output_directory (k, files))
      with (for_each (enumerate 1 files)
              (rename_one_part E output_directory k)).
    destruct (rename_parts_run output_directory k files 1 s) as [Ho Hc].
    rewrite Ho, outcome_prepend, trace_prepend, copies_app, Hc.
    destruct (IH (final_fs
                    (for_each (enumerate 1 files)
                       (rename_one_part E output_directory k) s)))
      as [Ho' Hc'].
    rewrite Ho', Hc'. split; reflexivity.
Qed.

Lemma group_copies_sources (output_directory : string)
    (g : string * list string) :
  List.map fst (Observe.group_copies output_directory g) = snd g.
Proof.
  unfold Observe.group_copies. rewrite List.map_map. cbn [fst].
  destruct g as [k files]. cbn [snd].
  generalize 1%nat. induction files as [|f files IH]; intros n;
    [reflexivity|].
  cbn [enumerate List.map snd]. now rewrite IH.
Qed.

Lemma all_copies_sources (output_directory : string)
    (video_groups : Grouper.groups) :
  List.map fst (Observe.all_copies output_directory video_groups)
  = List.concat (List.map snd video_groups).
Proof.
  unfold Observe.all_copies.
  induction video_groups as [|g gs IH]; [reflexivity|].
  cbn [List.flat_map List.map List.concat].
  now rewrite List.map_app, group_copies_sources, IH.
Qed.

End RenameMode.

Section RenameFiles.
Import Eff Gopro.

Variable E : Env.



End RenameFiles.


(** X12.  A whole run in rename mode, when the output directory can be made
    and the input directory listed, returns normally, and the files it
    copies are exactly the selected names of the listing, each once. *)
Theorem rename_run_copies_every_selected_file (E : Eff.Env)
    (input_directory : string) (listing : list string) (s : gset string) :
  Eff.makedirs_fails E (OsPath.join input_directory "processed_videos")
  = false ->
  Eff.listdir E input_directory = Some listing ->
  Eff.outcome (Gopro.process_gopro_videos E input_directory false s) = inr tt
  /\ Permutation
       (List.map fst
          (Observe.copies
             (Eff.trace
                (Gopro.process_gopro_videos E input_directory false s))))
       (List.map (OsPath.join input_directory)
          (List.filter Grouper.is_gopro listing)).
Proof.
  intros Hmk Hls.
  unfold Gopro.process_gopro_videos, Gopro.create_output_directory,
    Gopro.os_makedirs, Gopro.group_gopro_files, Gopro.os_listdir.
  rewrite Hmk, Hls. mstep. rewrite !bind_emit, bind_modify. mstep.
  rewrite bind_emit. mstep.
  rewrite !outcome_prepend, !trace_prepend, !copies_app.
  cbn [Observe.copies List.app].
  destruct (rename_groups_run E
              (OsPath.join input_directory "processed_videos")
              (Grouper.group_gopro_files input_directory listing)
              ({[OsPath.join input_directory "processed_videos"]} ∪ s))
    as [Ho Hc].
  rewrite Ho, Hc, all_copies_sources. split; [reflexivity|].
  unfold Grouper.group_gopro_files.
  rewrite sorted_contents, fold_contents. reflexivity.
Qed.

Lemma rename_run_copies_every_selected_file_witness :
  Eff.listdir Scenario.copy_fail_env "." = Some ["GH010001.MP4"; "GH010002.MP4"]
  /\ Eff.outcome (Gopro.process_gopro_videos Scenario.copy_fail_env "." false ∅)
     = inr tt.
Proof.
  split; [reflexivity|].
  exact (proj1 (rename_run_copies_every_selected_file Scenario.copy_fail_env
                  "." ["GH010001.MP4"; "GH010002.MP4"] ∅ eq_refl eq_refl)).
Defined.

(** ** Output names *)

Section OutputNames.
Import Grouper.

Lemma append_eq_split (a b c d : string) :
  String.append a c = String.append b d ->
  (exists w, a = String.append b w /\ d = String.append w c)
  \/ (exists w, b = String.append a w /\ c = String.append w d).
Proof.
  revert b; induction a as [|x a IH]; intros b H.
  - right. exists b. rewrite append_nil in H. auto.
  - destruct b as [|y b].
    + left. exists (String x a). rewrite append_nil in H. auto.
    + rewrite !append_cons in H. injection H as -> H.
      destruct (IH b H) as [[w [-> ->]]|[w [-> ->]]].
      * left. exists w. now rewrite append_cons.
      * right. exists w. now rewrite append_cons.
Qed.

Lemma append_self_tail (w c : string) : c = String.append w c -> w = EmptyString.
Proof.
  intros H. apply (f_equal String.length) in H.
  rewrite string_length_append in H. destruct w; [reflexivity|].
  simpl in H. lia.
Qed.

Lemma string_append_inv_tail (a b c : string) :
  String.append a c = String.append b c -> a = b.
Proof.
  intros H. destruct (append_eq_split _ _ _ _ H) as [[w [-> Hw]]|[w [-> Hw]]];
    apply append_self_tail in Hw; subst w;
    now rewrite string_append_empty_r.
Qed.

Lemma time_field_underscore (w r : string) :
  Observe.time_field (String.append w (String "_" r)) = false.
Proof.
  induction w as [|c w IH]; [reflexivity|].
  rewrite append_cons. cbn [Observe.time_field]. rewrite IH.
  apply andb_false_r.
Qed.

Lemma stem_injective (a b d d' : string) :
  Observe.time_field d = true -> Observe.time_field d' = true ->
  String.append a (String "_" d) = String.append b (String "_" d') ->
  a = b /\ d = d'.
Proof.
  intros Hd Hd' H.
  destruct (append_eq_split _ _ _ _ H) as [[w [-> Hw]]|[w [-> Hw]]].
  - destruct w as [|x w].
    + rewrite append_nil in Hw. injection Hw as ->.
      now rewrite string_append_empty_r.
    + rewrite append_cons in Hw. injection Hw as _ ->.
      now rewrite time_field_underscore in Hd'.
  - destruct w as [|x w].
    + rewrite append_nil in Hw. injection Hw as ->.
      now rewrite string_append_empty_r.
    + rewrite append_cons in Hw. injection Hw as _ ->.
      now rewrite time_field_underscore in Hd.
Qed.

Lemma digits_of_uint (d : Decimal.uint) :
  Observe.time_field (DecimalString.NilEmpty.string_of_uint d) = true.
Proof. induction d; simpl; auto. Qed.

Lemma str_of_nat_digits (n : nat) :
  Observe.time_field (PyNum.str_of_nat n) = true.
Proof. apply digits_of_uint. Qed.

Lemma str_of_nat_injective (m n : nat) :
  PyNum.str_of_nat m = PyNum.str_of_nat n -> m = n.
Proof.
  unfold PyNum.str_of_nat. intros H.
  apply (f_equal DecimalString.NilEmpty.uint_of_string) in H.
  rewrite !DecimalString.NilEmpty.usu in H. injection H as H.
  apply (f_equal Nat.of_uint) in H.
  now rewrite !DecimalNat.Unsigned.of_to in H.
Qed.

Lemma part_filename_injective (a b : string) (m n : nat) :
  Observe.part_filename a m = Observe.part_filename b n -> a = b /\ m = n.
Proof.
  unfold Observe.part_filename, Gopro.mp4_name. intros H.
  apply string_append_inv_tail in H.
  change (String.append "_" (PyNum.str_of_nat m))
    with (String "_" (PyNum.str_of_nat m)) in H.
  change (String.append "_" (PyNum.str_of_nat n))
    with (String "_" (PyNum.str_of_nat n)) in H.
  apply stem_injective in H as [-> H]; try apply str_of_nat_digits.
  split; [reflexivity | now apply str_of_nat_injective].
Qed.

Lemma plain_name_cons_intro (c : ascii) (f : string) :
  c <> "/"%char -> plain_name f = true -> plain_name (String c f) = true.
Proof.
  intros Hc Hf. unfold plain_name in *.
  rewrite contains_cons, prefix_sep_cons.
  destruct (ascii_dec "/" c) as [<-|_]; [congruence | exact Hf].
Qed.

Lemma plain_append (a b : string) :
  plain_name a = true -> plain_name b = true ->
  plain_name (String.append a b) = true.
Proof.
  induction a as [|c a IH]; intros Ha Hb; [exact Hb|].
  apply plain_name_cons in Ha as [Hc Ha].
  rewrite append_cons. apply plain_name_cons_intro; auto.
Qed.

Lemma plain_substring (n m : nat) (f : string) :
  plain_name f = true -> plain_name (String.substring n m f) = true.
Proof.
  revert n m; induction f as [|c f IH]; intros n m Hf.
  - destruct n, m; reflexivity.
  - apply plain_name_cons in Hf as [Hc Hf].
    destruct n as [|n]; [destruct m as [|m]|]; cbn [String.substring].
    + reflexivity.
    + apply plain_name_cons_intro; auto.
    + auto.
Qed.

Lemma plain_digits (d : string) :
  Observe.time_field d = true -> plain_name d = true.
Proof.
  induction d as [|c d IH]; [reflexivity|].
  cbn [Observe.time_field]. intros H.
  apply andb_true_iff in H as [Hc Hd].
  apply plain_name_cons_intro; [|auto].
  intros ->. discriminate Hc.
Qed.

Lemma plain_part_filename (k : string) (n : nat) :
  plain_name k = true -> plain_name (Observe.part_filename k n) = true.
Proof.
  intros Hk. unfold Observe.part_filename, Gopro.mp4_name.
  repeat apply plain_append; try reflexivity; auto.
  apply plain_digits, str_of_nat_digits.
Qed.

Lemma plain_mp4_name (k : string) :
  plain_name k = true -> plain_name (Gopro.mp4_name k) = true.
Proof. intros Hk. apply plain_append; [exact Hk | reflexivity]. Qed.

Lemma enumerate_in (A : Type) (l : list A) (start i : nat) (a : A) :
  In (i, a) (Gopro.enumerate start l) -> (start <= i)%nat.
Proof.
  revert start; induction l as [|x l IH]; intros start; [intros []|].
  cbn [Gopro.enumerate]. intros [Heq|Hin].
  - injection Heq as <- _. lia.
  - apply IH in Hin. lia.
Qed.

Lemma group_copies_dst (output_directory : string) (g : string * list string)
    (d : string) :
  In d (List.map snd (Observe.group_copies output_directory g)) ->
  exists i, d = OsPath.join output_directory
                  (Observe.part_filename (fst g) i).
Proof.
  unfold Observe.group_copies. rewrite List.map_map. cbn [snd].
  intros H. apply List.in_map_iff in H as [[i f] [<- _]]. now exists i.
Qed.

Lemma group_copies_nodup (output_directory : string)
    (g : string * list string) :
  plain_name (fst g) = true ->
  List.NoDup (List.map snd (Observe.group_copies output_directory g)).
Proof.
  intros Hk. unfold Observe.group_copies. rewrite List.map_map. cbn [snd].
  generalize 1%nat. induction (snd g) as [|f files IH]; intros n;
    [constructor|].
  cbn [Gopro.enumerate List.map fst]. constructor; [|apply IH].
  intros Hin. apply List.in_map_iff in Hin as [[i f'] [Heq Hin]].
  apply enumerate_in in Hin. cbn [fst] in Heq.
  apply join_injective in Heq; try now apply plain_part_filename.
  apply part_filename_injective in Heq as [_ ->]. lia.
Qed.

Lemma all_copies_dst (output_directory : string) (gs : groups) (d : string) :
  In d (List.map snd (Observe.all_copies output_directory gs)) ->
  exists k i, In k (List.map fst gs)
              /\ d = OsPath.join output_directory
                       (Observe.part_filename k i).
Proof.
  unfold Observe.all_copies.
  induction gs as [|g gs IH]; [intros []|].
  cbn [List.flat_map]. rewrite List.map_app. intros H.
  apply List.in_app_or in H as [H|H].
  - apply group_copies_dst in H as [i ->]. exists (fst g), i.
    split; [now left | reflexivity].
  - destruct (IH H) as (k & i & Hk & ->). exists k, i.
    split; [now right | reflexivity].
Qed.

Lemma all_copies_nodup (output_directory : string) (gs : groups) :
  List.NoDup (List.map fst gs) ->
  List.Forall (fun g => plain_name (fst g) = true) gs ->
  List.NoDup (List.map snd (Observe.all_copies output_directory gs)).
Proof.
  induction gs as [|g gs IH]; intros Hnd Hplain; [constructor|].
  inversion Hnd as [|? ? Hnotin Hnd']; subst.
  inversion Hplain as [|? ? Hg Hplain']; subst.
  change (Observe.all_copies output_directory (g :: gs))
    with (Observe.group_copies output_directory g
          ++ Observe.all_copies output_directory gs).
  rewrite List.map_app. apply List.NoDup_app.
  - now apply group_copies_nodup.
  - now apply IH.
  - intros d Hd Hd'.
    apply group_copies_dst in Hd as [i ->].
    apply all_copies_dst in Hd' as (k & j & Hk & Heq).
    assert (Hkplain : plain_name k = true).
    { rewrite List.Forall_forall in Hplain'.
      apply List.in_map_iff in Hk as [g' [<- Hg']]. now apply Hplain'. }
    apply join_injective in Heq; try now apply plain_part_filename.
    apply part_filename_injective in Heq as [Heq _]. congruence.
Qed.

Lemma scan_keys_plain (input_directory : string) (listing : list string) :
  List.Forall (fun f => plain_name f = true) listing ->
  List.Forall (fun g => plain_name (fst g) = true)
    (group_gopro_files input_directory listing).
Proof.
  intros Hplain. apply List.Forall_forall. intros [k vs] HG.
  apply group_in in HG as [Hm _]. cbn [fst].
  destruct (members input_directory k listing) as [|p ps] eqn:Heq;
    [congruence|].
  assert (Hp : In p (members input_directory k listing))
    by (rewrite Heq; now left).
  apply members_in in Hp as [f (Hin & _ & <- & _)].
  rewrite List.Forall_forall in Hplain.
  apply plain_substring. now apply Hplain.
Qed.

End OutputNames.

(** X13.  On a listing of plain names no two outputs of a run collide: in
    rename mode all the destinations [<id>_<i>.MP4] are different, and in
    merge mode all the outputs [<id>.MP4] are different. *)
Theorem output_names_never_collide (input_directory output_directory : string)
    (listing : list string) :
  List.Forall (fun f => Grouper.plain_name f = true) listing ->
  List.NoDup
    (List.map snd
       (Observe.all_copies output_directory
          (Grouper.group_gopro_files input_directory listing)))
  /\ List.NoDup
       (List.map
          (fun g => OsPath.join output_directory (Gopro.mp4_name (fst g)))
          (Grouper.group_gopro_files input_directory listing)).
Proof.
  intros Hplain.
  pose proof (scan_keys_plain input_directory listing Hplain) as Hkeys.
  pose proof (group_keys_nodup input_directory listing) as Hnd.
  split; [now apply all_copies_nodup|].
  rewrite <- (List.map_map fst
                (fun k => OsPath.join output_directory (Gopro.mp4_name k))).
  apply List.NoDup_map_NoDup_ForallPairs; [|exact Hnd].
  intros a b Ha Hb Heq.
  assert (Hpl : forall k,
            In k (List.map fst
                    (Grouper.group_gopro_files input_directory listing)) ->
            Grouper.plain_name k = true).
  { intros k Hk. rewrite List.Forall_forall in Hkeys.
    apply List.in_map_iff in Hk as [g [<- Hg]]. now apply Hkeys. }
  apply join_injective in Heq; try (apply plain_mp4_name; now apply Hpl).
  unfold Gopro.mp4_name in Heq. now apply string_append_inv_tail in Heq.
Qed.

Lemma output_names_never_collide_witness :
  List.Forall (fun f => Grouper.plain_name f = true)
    ["GH020001.MP4"; "GH010001.MP4"; "GH010002.MP4"; "notes.txt"]
  /\ List.NoDup
       (List.map snd
          (Observe.all_copies "./processed_videos"
             (Grouper.group_gopro_files "."
                ["GH020001.MP4"; "GH010001.MP4"; "GH010002.MP4";
                 "notes.txt"]))).
Proof.
  split; [apply gopro_listing_ok|].
  exact (proj1 (output_names_never_collide "." "./processed_videos" _
                  (proj2 gopro_listing_ok))).
Defined.

(** ** What can escape a run *)

Section Escapes.
Import Eff Gopro.

Variable E : Env.

Lemma scan_group_nonempty (input_directory : string) (listing : list string)
    (k : string) (vs : list string) :
  In (k, vs) (Grouper.group_gopro_files input_directory listing) -> vs <> [].
Proof.
  intros HG Hnil. apply group_in in HG as [Hm Hvs]. apply Hm.
  eapply Permutation_nil. rewrite <- Hnil, Hvs. apply sort_by_perm.
Qed.

Lemma merge_one_group_several (output_directory video_number : string)
    (file_paths : list string) (s : fs) :
  (1 < List.length file_paths)%nat ->
  exists durations,
    map_m (get_video_duration E) file_paths s
    = (s, List.map (fun p => EvCheckOutput (ffprobe_cmd p)) file_paths,
       inr durations)
    /\ merge_one_group E output_directory (video_number, file_paths) s
       = prepend
           (List.map (fun p => EvCheckOutput (ffprobe_cmd p)) file_paths
            ++ [EvPrint (MsgMergingParts video_number)])
           (merge_videos_fast E file_paths
              (OsPath.join output_directory (mp4_name video_number))
              (Some (Gopro.py_sum E durations)) s).
Proof.
  intros Hlen.
  destruct (probe_all E file_paths s) as (durations & Hprobe & _ & _).
  exists durations. split; [exact Hprobe|].
  unfold merge_one_group. apply Nat.ltb_lt in Hlen. rewrite Hlen.
  rewrite bind_run, Hprobe.
  cbn [outcome final_fs trace fst snd].
  unfold print. rewrite bind_emit, prepend_prepend. reflexivity.
Qed.

Lemma merge_one_group_escape (output_directory video_number : string)
    (file_paths : list string) (s : fs) (e : exn) :
  file_paths <> [] ->
  outcome (merge_one_group E output_directory (video_number, file_paths) s)
  = inl e ->
  e = OSError
  /\ exists p,
       file_paths = [p]
       /\ copy2_fails E p
            (OsPath.join output_directory (mp4_name video_number)) = true.
Proof.
  intros Hne He.
  destruct (Nat.ltb 1 (List.length file_paths)) eqn:Hlen.
  - apply Nat.ltb_lt in Hlen.
    destruct (merge_one_group_several output_directory video_number
                file_paths s Hlen) as (durations & _ & Hrun).
    rewrite Hrun, outcome_prepend, merge_never_raises in He. discriminate.
  - destruct file_paths as [|p [|p' l]]; [congruence| |discriminate].
    unfold merge_one_group, py_index in He.
    cbn [List.length Nat.ltb Nat.leb nth_error] in He.
    rewrite bind_ret, bind_run, shutil_copy2_run in He.
    destruct (copy2_fails E p _) eqn:Hcopy; [|discriminate].
    cbn in He. injection He as <-. split; [reflexivity|]. now exists p.
Qed.

Lemma merge_groups_escape (output_directory : string) (gs : Grouper.groups)
    (s : fs) (e : exn) :
  List.Forall (fun g => snd g <> []) gs ->
  outcome (for_each gs (merge_one_group E output_directory) s) = inl e ->
  e = OSError
  /\ exists k p,
       In (k, [p]) gs
       /\ copy2_fails E p (OsPath.join output_directory (mp4_name k)) = true.
Proof.
  intros Hne. revert s; induction Hne as [|[k files] gs Hg _ IH];
    intros s He; [discriminate|].
  cbn [for_each] in He. rewrite bind_run in He.
  destruct (outcome (merge_one_group E output_directory (k, files) s))
    as [e'|u] eqn:Hone.
  - cbn in He. injection He as <-.
    apply merge_one_group_escape in Hone as [-> [p [-> Hcopy]]]; [|exact Hg].
    split; [reflexivity|]. exists k, p. split; [now left | exact Hcopy].
  - rewrite outcome_prepend in He.
    destruct (IH _ He) as [-> (k' & p & Hin & Hcopy)].
    split; [reflexivity|]. exists k', p. split; [now right | exact Hcopy].
Qed.

Lemma failed_probe_run (filepath : string) (s : fs) :
  Observe.probe_fails E filepath = true ->
  get_video_duration E filepath s
  = (s, [EvCheckOutput (ffprobe_cmd filepath)], inr (PyNum.PInt 0)).
Proof.
  unfold Observe.probe_fails, get_video_duration, check_output, bytes_decode,
    float.
  rewrite try_except_any_run, bind_assoc, bind_emit.
  destruct (run E (ffprobe_cmd filepath)) as [|rc out err]; [reflexivity|].
  destruct (rc =? 0)%Z; [|reflexivity].
  cbn [negb orb]. mstep.
  destruct (decode E out) as [decoded|]; [|reflexivity].
  mstep.
  destruct (float_of_string E (PyStr.strip decoded)); [discriminate|].
  reflexivity.
Qed.

Lemma failed_probes_run (file_paths : list string) (s : fs) :
  List.Forall (fun p => Observe.probe_fails E p = true) file_paths ->
  map_m (get_video_duration E) file_paths s
  = (s, List.map (fun p => EvCheckOutput (ffprobe_cmd p)) file_paths,
     inr (List.map (fun _ => PyNum.PInt 0) file_paths)).
Proof.
  induction 1 as [|p file_paths Hp _ IH]; [reflexivity|].
  cbn [map_m]. rewrite bind_run, (failed_probe_run p s Hp).
  cbn [outcome final_fs trace fst snd].
  rewrite bind_run, IH.
  cbn [outcome final_fs trace fst snd].
  unfold prepend, ret. cbn [fst snd List.app List.map].
  now rewrite List.app_nil_r.
Qed.

Lemma sum_of_zeros (A : Type) (l : list A) :
  py_sum E (List.map (fun _ => PyNum.PInt 0) l) = PyNum.PInt 0.
Proof.
  unfold py_sum.
  assert (Hints :
    forallb PyNum.is_int (List.map (fun _ : A => PyNum.PInt 0) l) = true)
    by (induction l as [|a l IH]; [reflexivity | exact IH]).
  rewrite Hints. clear Hints. f_equal. unfold PyNum.int_sum.
  induction l as [|a l IH]; [reflexivity|].
  cbn [List.map fold_left]. exact IH.
Qed.

End Escapes.

(** X14.  The only exception that leaves [process_gopro_videos] is an
    [OSError], and it comes from one of three places: the output directory
    cannot be made, the input directory cannot be listed, or, in merge mode
    only, the copy of a single-part recording fails. *)
Theorem only_os_errors_escape (E : Eff.Env) (input_directory : string)
    (merge_videos : bool) (s : gset string) (e : Eff.exn) :
  Eff.outcome (Gopro.process_gopro_videos E input_directory merge_videos s)
  = inl e ->
  e = Eff.OSError
  /\ (Eff.makedirs_fails E (OsPath.join input_directory "processed_videos")
      = true
      \/ Eff.listdir E input_directory = None
      \/ (merge_videos = true
          /\ exists listing k p,
               Eff.listdir E input_directory = Some listing
               /\ In (k, [p])
                     (Grouper.group_gopro_files input_directory listing)
               /\ Eff.copy2_fails E p
                    (OsPath.join
                       (OsPath.join input_directory "processed_videos")
                       (Gopro.mp4_name k)) = true)).
Proof.
  unfold Gopro.process_gopro_videos, Gopro.create_output_directory,
    Gopro.os_makedirs, Gopro.group_gopro_files, Gopro.os_listdir.
  mstep. rewrite bind_emit, outcome_prepend.
  destruct (Eff.makedirs_fails E _) eqn:Hmk.
  { intros He. cbn in He. injection He as <-. auto. }
  rewrite bind_modify. mstep. rewrite bind_emit, outcome_prepend.
  destruct (Eff.listdir E input_directory) as [listing|] eqn:Hls.
  2:{ intros He. cbn in He. injection He as <-. auto. }
  mstep. destruct merge_videos.
  - unfold Gopro.process_groups, Gopro.print.
    rewrite bind_emit, outcome_prepend. intros He.
    apply merge_groups_escape in He as [-> (k & p & Hin & Hcopy)].
    + split; [reflexivity|]. right. right. split; [reflexivity|].
      exists listing, k, p. auto.
    + apply List.Forall_forall. intros [k vs] HG. cbn [snd].
      eapply scan_group_nonempty; exact HG.
  - intros He. rewrite rename_mode_never_raises in He. discriminate.
Qed.

Lemma only_os_errors_escape_witness :
  Eff.outcome (Gopro.process_gopro_videos Scenario.copy_fail_env "." true ∅)
  = inl Eff.OSError
  /\ (Eff.makedirs_fails Scenario.copy_fail_env
        (OsPath.join "." "processed_videos") = true
      \/ Eff.listdir Scenario.copy_fail_env "." = None
      \/ (true = true
          /\ exists listing k p,
               Eff.listdir Scenario.copy_fail_env "." = Some listing
               /\ In (k, [p]) (Grouper.group_gopro_files "." listing)
               /\ Eff.copy2_fails Scenario.copy_fail_env p
                    (OsPath.join (OsPath.join "." "processed_videos")
                       (Gopro.mp4_name k)) = true)).
Proof.
  split; [reflexivity|].
  exact (proj2 (only_os_errors_escape Scenario.copy_fail_env "." true ∅
                  Eff.OSError eq_refl)).
Defined.

(** X15.  When the probe fails for every part of a recording of several
    parts, the recording is merged all the same: the total handed to
    [merge_videos_fast] is [0], so the merge opens no progress bar and
    reads no diagnostic line. *)
Theorem failed_probes_disable_progress (E : Eff.Env)
    (output_directory video_number : string) (file_paths : list string)
    (s : gset string) :
  (1 < List.length file_paths)%nat ->
  List.Forall (fun p => Observe.probe_fails E p = true) file_paths ->
  Gopro.merge_one_group E output_directory (video_number, file_paths) s
  = Eff.prepend
      (List.map (fun p => Eff.EvCheckOutput (Gopro.ffprobe_cmd p)) file_paths
       ++ [Eff.EvPrint (Eff.MsgMergingParts video_number)])
      (Gopro.merge_videos_fast E file_paths
         (OsPath.join output_directory (Gopro.mp4_name video_number))
         (Some (PyNum.PInt 0)) s)
  /\ List.Forall (fun e => Eff.is_progress_event e = false)
       (Eff.trace
          (Gopro.merge_one_group E output_directory
             (video_number, file_paths) s)).
Proof.
  intros Hlen Hfail.
  destruct (merge_one_group_several E output_directory video_number
              file_paths s Hlen) as (durations & Hprobe & Hrun).
  rewrite (failed_probes_run E file_paths s Hfail) in Hprobe.
  injection Hprobe as <-. rewrite sum_of_zeros in Hrun.
  split; [exact Hrun|].
  rewrite Hrun, trace_prepend. apply List.Forall_app. split.
  - apply List.Forall_app. split; [|repeat constructor].
    apply List.Forall_forall. intros ev Hev.
    apply List.in_map_iff in Hev as [p [<- _]]. reflexivity.
  - now apply merge_without_duration.
Qed.

Lemma failed_probes_disable_progress_witness :
  (1 < List.length ["./GH010001.MP4"; "./GH020001.MP4"])%nat
  /\ List.Forall (fun e => Eff.is_progress_event e = false)
       (Eff.trace
          (Gopro.merge_one_group Scenario.no_ffprobe_env "./processed_videos"
             ("0001", ["./GH010001.MP4"; "./GH020001.MP4"]) ∅)).
Proof.
  split; [repeat constructor|].
  refine (proj2 (failed_probes_disable_progress Scenario.no_ffprobe_env
                   "./processed_videos" "0001"
                   ["./GH010001.MP4"; "./GH020001.MP4"] ∅ _ _));
    repeat constructor.
Defined.

Example merge_without_ffprobe :
  Eff.trace
    (Gopro.merge_one_group Scenario.no_ffprobe_env "./processed_videos"
       ("0001", ["./GH010001.MP4"; "./GH020001.MP4"]) ∅)
  = [Eff.EvCheckOutput (Gopro.ffprobe_cmd "./GH010001.MP4");
     Eff.EvCheckOutput (Gopro.ffprobe_cmd "./GH020001.MP4");
     Eff.EvPrint (Eff.MsgMergingParts "0001");
     Eff.EvWriteFile "./processed_videos/0001.MP4.txt"
       [String.append "file '/videos/./GH010001.MP4'" Scenario.nl;
        String.append "file '/videos/./GH020001.MP4'" Scenario.nl];
     Eff.EvPopen
       (Gopro.ffmpeg_cmd "./processed_videos/0001.MP4.txt"
          "./processed_videos/0001.MP4");
     Eff.EvWait;
     Eff.EvRemove "./processed_videos/0001.MP4.txt";
     Eff.EvPrint (Eff.MsgMerged "./processed_videos/0001.MP4")].
Proof. vm_compute. reflexivity. Qed.

(** ** Edges of a run *)

(** X16.  When the plan file cannot be written, the merge stops there: no
    process is started, the files are as they were, and the failure is
    reported without raising. *)
Theorem unwritable_plan_starts_nothing (E : Eff.Env)
    (video_paths : list string) (output_path : string)
    (total_duration : option PyNum.number) (s : gset string) :
  Eff.open_fails E (String.append output_path ".txt") = true ->
  Gopro.merge_videos_fast E video_paths output_path total_duration s
  = (s, [Eff.EvPrint (Eff.MsgMergeError Eff.OSError)], inr tt).
Proof.
  intros Hopen. unfold Gopro.merge_videos_fast.
  now rewrite try_except_any_run, merge_try_block_run, Hopen.
Qed.

Lemma unwritable_plan_starts_nothing_witness :
  Eff.open_fails Scenario.read_only_env
    (String.append "./processed_videos/0001.MP4" ".txt") = true
  /\ Gopro.merge_videos_fast Scenario.read_only_env
       ["./GH010001.MP4"; "./GH020001.MP4"]
       "./processed_videos/0001.MP4" (Some (Scenario.seconds 10)) ∅
     = (∅, [Eff.EvPrint (Eff.MsgMergeError Eff.OSError)], inr tt).
Proof.
  split; [reflexivity|].
  exact (unwritable_plan_starts_nothing Scenario.read_only_env
           ["./GH010001.MP4"; "./GH020001.MP4"]
           "./processed_videos/0001.MP4" (Some (Scenario.seconds 10)) ∅ eq_refl).
Defined.

(** X17.  When the listing holds no selected name, the run makes the
    output directory, lists the input directory and does nothing else: no
    probe, no copy, no merge; it returns normally in both modes. *)
Theorem empty_scan_does_nothing (E : Eff.Env) (input_directory : string)
    (listing : list string) (merge_videos : bool) (s : gset string) :
  Eff.makedirs_fails E (OsPath.join input_directory "processed_videos")
  = false ->
  Eff.listdir E input_directory = Some listing ->
  List.Forall (fun f => Grouper.is_gopro f = false) listing ->
  Grouper.group_gopro_files input_directory listing = []
  /\ Gopro.process_gopro_videos E input_directory merge_videos s
     = ({[OsPath.join input_directory "processed_videos"]} ∪ s,
        [Eff.EvMakedirs (OsPath.join input_directory "processed_videos");
         Eff.EvListdir input_directory]
        ++ (if merge_videos then [Eff.EvPrint Eff.MsgProcessing] else []),
        inr tt).
Proof.
  intros Hmk Hls Hnone.
  assert (Hfilter : List.filter Grouper.is_gopro listing = []).
  { clear Hls. induction Hnone as [|f l Hf _ IH]; [reflexivity|].
    cbn [List.filter]. now rewrite Hf. }
  assert (Hgroups : Grouper.group_gopro_files input_directory listing = []).
  { unfold Grouper.group_gopro_files. now rewrite Hfilter. }
  split; [exact Hgroups|].
  unfold Gopro.process_gopro_videos, Gopro.create_output_directory,
    Gopro.os_makedirs, Gopro.group_gopro_files, Gopro.os_listdir.
  rewrite Hmk, Hls. mstep. rewrite !bind_emit, bind_modify. mstep.
  rewrite bind_emit. mstep. rewrite Hgroups.
  destruct merge_videos; reflexivity.
Qed.

Lemma empty_scan_does_nothing_witness :
  List.Forall (fun f => Grouper.is_gopro f = false) ["notes.txt"; "gh01.mp4"]
  /\ Grouper.group_gopro_files "." ["notes.txt"; "gh01.mp4"] = [].
Proof.
  split; [repeat constructor|].
  refine (proj1 (empty_scan_does_nothing
                   (Scenario.env_of ["notes.txt"; "gh01.mp4"]
                      Scenario.no_binaries Scenario.never_fails)
                   "." ["notes.txt"; "gh01.mp4"] true ∅
                   eq_refl eq_refl _)).
  repeat constructor.
Defined.

(** ** Part numbers of two digits *)

Lemma two_digit_order_table :
  List.forallb
    (fun m =>
       List.forallb
         (fun n =>
            Bool.eqb
              (String.leb (Observe.two_digits m) (Observe.two_digits n))
              (m <=? n)%nat)
         (List.seq 0 100))
    (List.seq 0 100) = true.
Proof. vm_compute. reflexivity. Qed.

Lemma two_digit_order (m n : nat) :
  (m < 100)%nat -> (n < 100)%nat ->
  (String.leb (Observe.two_digits m) (Observe.two_digits n) = true
   <-> (m <= n)%nat).
Proof.
  intros Hm Hn. pose proof two_digit_order_table as Htab.
  rewrite List.forallb_forall in Htab.
  assert (Hmin : In m (List.seq 0 100)) by (apply List.in_seq; lia).
  specialize (Htab m Hmin). rewrite List.forallb_forall in Htab.
  assert (Hnin : In n (List.seq 0 100)) by (apply List.in_seq; lia).
  specialize (Htab n Hnin). apply Bool.eqb_prop in Htab.
  rewrite Htab. apply Nat.leb_le.
Qed.

(** X18.  For files named as the camera names them, with part numbers
    below 100, the order of the part keys is the order of the part
    numbers: the key of such a file is its two-digit part number, and text
    comparison of two such keys agrees with numeric comparison. *)
Theorem camera_parts_sort_by_number (input_directory : string)
    (m n : nat) (id1 id2 : string) :
  (m < 100)%nat -> (n < 100)%nat ->
  Grouper.plain_name id1 = true -> Grouper.plain_name id2 = true ->
  Grouper.part_key
    (OsPath.join input_directory (Observe.camera_name m id1))
  = Observe.two_digits m
  /\ (Grouper.key_le
        (OsPath.join input_directory (Observe.camera_name m id1))
        (OsPath.join input_directory (Observe.camera_name n id2))
      <-> (m <= n)%nat).
Proof.
  intros Hm Hn H1 H2.
  assert (Hkey : forall k id, (k < 100)%nat -> Grouper.plain_name id = true ->
            Grouper.part_key
              (OsPath.join input_directory (Observe.camera_name k id))
            = Observe.two_digits k).
  { intros k id Hk Hid. rewrite part_key_join.
    { unfold Observe.camera_name, Observe.two_digits, PyStr.slice.
      rewrite !append_cons, append_nil. cbn [Nat.sub String.substring].
      now destruct (String.append id ".MP4"). }
    unfold Observe.camera_name.
    apply plain_append; [reflexivity|].
    apply plain_append; [|apply plain_append; [exact Hid | reflexivity]].
    apply plain_digits.
    assert (Htab : List.forallb
                     (fun j => Observe.time_field (Observe.two_digits j))
                     (List.seq 0 100) = true) by (vm_compute; reflexivity).
    rewrite List.forallb_forall in Htab. apply Htab, List.in_seq. lia. }
  split; [now apply Hkey|].
  unfold Grouper.key_le. rewrite !Hkey by assumption.
  now apply two_digit_order.
Qed.

Lemma camera_parts_sort_by_number_witness :
  (9 < 100)%nat
  /\ Grouper.part_key (OsPath.join "." (Observe.camera_name 9 "0001"))
     = Observe.two_digits 9.
Proof.
  split; [lia|].
  refine (proj1 (camera_parts_sort_by_number "." 9 10 "0001" "0001"
                   _ _ eq_refl eq_refl)); lia.
Defined.

Example camera_name_ex : Observe.camera_name 9 "0001" = "GH090001.MP4".
Proof. reflexivity. Qed.
